(** * The per-method compile driver of [compiler/dex/frontend.cc]

    A shallow embedding of [CompileMethod]: the compilation unit is a
    record, the passes it drives are external functions on that record,
    and the driver itself is a program in a small state-and-abort monad
    that also logs every external call it makes. *)

From Stdlib Require Import ZArith List String Ascii Bool Lia.
From Stdlib Require Import Sorted Permutation.
Import ListNotations.

Local Open Scope Z_scope.

(** ** Machine words *)

(** Storing into a [uint32_t] or a [uint16_t] keeps the low bits. *)
Definition u32 (z : Z) : Z := z mod 2 ^ 32.
Definition u16 (z : Z) : Z := z mod 2 ^ 16.

(** [w & (1 << k)] read as a condition. *)
Definition has_flag (w k : Z) : bool :=
  negb (Z.land w (Z.shiftl 1 k) =? 0).

(** [__builtin_popcount] on a 32-bit word. *)
Fixpoint popcount_pos (p : positive) : Z :=
  match p with
  | xH => 1
  | xO q => popcount_pos q
  | xI q => 1 + popcount_pos q
  end.

Definition popcount (w : Z) : Z :=
  match u32 w with
  | Zpos p => popcount_pos p
  | _ => 0
  end.

(** ** [std::sort] on unsigned keys *)

Fixpoint insert_sorted (k : Z) (l : list Z) : list Z :=
  match l with
  | [] => [k]
  | h :: t => if k <=? h then k :: l else h :: insert_sorted k t
  end.

Fixpoint std_sort (l : list Z) : list Z :=
  match l with
  | [] => []
  | h :: t => insert_sorted h (std_sort t)
  end.

(** ** [std::string::find(needle) != npos] *)

Fixpoint string_find (needle hay : string) : bool :=
  String.prefix needle hay ||
  match hay with
  | EmptyString => false
  | String _ rest => string_find needle rest
  end.

Definition string_empty (s : string) : bool :=
  match s with
  | EmptyString => true
  | String _ _ => false
  end.

(** ** Enumerations declared outside the file *)

(** The target: the three enumerators the file names, and any other
    value of the enumeration. *)
Inductive InstructionSet :=
| kThumb2
| kMips
| kX86
| kOtherInstructionSet (raw : Z).

(** [kPortable] is the only backend the file names; [kQuick] stands for
    every other one. *)
Inductive CompilerBackend := kQuick | kPortable.

Inductive SpecialCaseHandler :=
| kNoHandler
| kOtherHandler (raw : Z).

Inductive opt_control_vector :=
| kLoadStoreElimination
| kLoadHoisting
| kSuppressLoads
| kNullCheckElimination
| kPromoteRegs
| kTrackLiveTemps
| kSafeOptimizations
| kBBOpt
| kMatch
| kPromoteCompilerTemps.

Inductive debug_control_vector :=
| kDebugDisplayMissingTargets
| kDebugVerbose
| kDebugDumpCFG
| kDebugSlowFieldPath
| kDebugSlowInvokePath
| kDebugSlowStringPath
| kDebugSlowestFieldPath
| kDebugSlowestStringPath
| kDebugExerciseResolveMethod
| kDebugVerifyDataflow
| kDebugShowMemoryUsage
| kDebugShowNops
| kDebugCountOpcodes
| kDebugDumpCheckStats
| kDebugDumpBitcodeFile
| kDebugVerifyBitcode.

Inductive oat_list_kind :=
| kListSwitchTables
| kListFillArrayData
| kListThrowLaunchPads
| kListMisc
| kListSuspendLaunchPads.

(** The growable lists of the unit that the driver initialises. *)
Inductive GrowableList :=
| switch_tables
| fill_array_data
| throw_launchpads
| intrinsic_launchpads
| suspend_launchpads.

Definition InstructionSet_eqb (a b : InstructionSet) : bool :=
  match a, b with
  | kThumb2, kThumb2 | kMips, kMips | kX86, kX86 => true
  | kOtherInstructionSet x, kOtherInstructionSet y => x =? y
  | _, _ => false
  end.

Definition CompilerBackend_eqb (a b : CompilerBackend) : bool :=
  match a, b with
  | kQuick, kQuick | kPortable, kPortable => true
  | _, _ => false
  end.

Definition SpecialCaseHandler_eqb (a b : SpecialCaseHandler) : bool :=
  match a, b with
  | kNoHandler, kNoHandler => true
  | kOtherHandler x, kOtherHandler y => x =? y
  | _, _ => false
  end.

(** ** What the build fixes

    Preprocessor switches, build-mode constants, macros and enumerator
    values that the file uses and other headers define. *)
Record Build := {
  ART_USE_PORTABLE_COMPILER : bool;
  WITH_MEMSTATS : bool;
  kIsDebugBuild : bool;
  (** whether [DCHECK]s are compiled in *)
  kEnableDChecks : bool;
  VREG_NUM_WIDTH : Z;
  INVALID_VREG : Z;
  METHOD_IS_LEAF : Z;
  (** the value of each enumerator, used as a shift count *)
  opt_pos : opt_control_vector -> Z;
  debug_pos : debug_control_vector -> Z
}.

(** The file-scope words [kCompilerOptimizerDisableFlags] and
    [kCompilerDebugFlags], and the process-wide [VLOG_IS_ON(compiler)]. *)
Record Globals := {
  kCompilerOptimizerDisableFlags : Z;
  kCompilerDebugFlags : Z;
  VLOG_IS_ON_compiler : bool
}.

(** The initialisers the file gives its two words (every other line of
    the two lists is commented out). *)
Definition initial_globals (B : Build) (vlog : bool) : Globals :=
  {| kCompilerOptimizerDisableFlags :=
       u32 (Z.lor 0 (Z.lor (Z.shiftl 1 (opt_pos B kLoadStoreElimination)) 0));
     kCompilerDebugFlags := u32 (Z.lor 0 0);
     VLOG_IS_ON_compiler := vlog |}.

(** ** Objects handed to the driver *)

Record CodeItem := {
  registers_size_ : Z;
  insns_size_in_code_units_ : Z;
  insns_ : list Z
}.

Record CompilerDriver := {
  GetInstructionSet : InstructionSet;
  GetCompilerBackend : CompilerBackend
}.

Record LlvmCompilationUnit := {
  GetQuickContext : Z;
  GetSymbol : string
}.

(** Handles the driver only passes on. *)
Definition DexFile := Z.
Definition jobject := Z.
Definition ClassLinker := Z.
Definition LIR := Z.

(** ** The artifact *)

(** Modelled from the spec: the constructor of [CompiledMethod] is
    declared outside this file; the artifact holds the eight values it
    is constructed from. *)
Record CompiledMethod := {
  cm_instruction_set : InstructionSet;
  cm_code : list Z;
  cm_frame_size_in_bytes : Z;
  cm_core_spill_mask : Z;
  cm_fp_spill_mask : Z;
  cm_mapping_table : list Z;
  cm_vmap_table : list Z;
  cm_native_gc_map : list Z
}.

(** ** External calls the driver makes on the unit *)

Inductive Callee :=
| HeapInit
| MIRGraph_new
| EnableOpcodeCounting
| InlineMethod (code_item : CodeItem) (access_flags invoke_type : Z)
               (class_def_idx method_idx : Z) (class_loader : jobject)
               (dex_file : DexFile)
| CodeLayout
| VerifyDataflow
| SSATransformation
| PropagateConstants
| MethodUseCount
| NullCheckElimination
| BasicBlockCombine
| BasicBlockOptimization
| DumpCheckStats
| BuildRegLocations
| MethodMIR2Bitcode
| InitArmCodegen
| InitMipsCodegen
| InitX86Codegen
| CompilerInitGrowableList (l : GrowableList) (init_length : Z)
                           (kind : oat_list_kind)
| CompilerInitializeRegAlloc
| SimpleRegAlloc
| SpecialMIR2LIR (special_case : SpecialCaseHandler)
| MethodMIR2LIR
| ProcessSwitchTables
| AssembleLIR
| CodegenDump
| ShowOpcodeStats
| DumpMemStats
| ArenaReset.

(** The calls that only report. *)
Definition is_observer (c : Callee) : bool :=
  match c with
  | EnableOpcodeCounting | VerifyDataflow | DumpCheckStats
  | CodegenDump | ShowOpcodeStats | DumpMemStats => true
  | _ => false
  end.

Definition is_EnableOpcodeCounting (c : Callee) : bool :=
  match c with EnableOpcodeCounting => true | _ => false end.
Definition is_ShowOpcodeStats (c : Callee) : bool :=
  match c with ShowOpcodeStats => true | _ => false end.
Definition is_SpecialMIR2LIR (c : Callee) : bool :=
  match c with SpecialMIR2LIR _ => true | _ => false end.
Definition is_MethodMIR2LIR (c : Callee) : bool :=
  match c with MethodMIR2LIR => true | _ => false end.
Definition is_ProcessSwitchTables (c : Callee) : bool :=
  match c with ProcessSwitchTables => true | _ => false end.
Definition is_AssembleLIR (c : Callee) : bool :=
  match c with AssembleLIR => true | _ => false end.
Definition is_lowering (c : Callee) : bool :=
  is_SpecialMIR2LIR c || is_MethodMIR2LIR c.

(** How often a kind of call occurs in a log. *)
Definition count_calls (p : Callee -> bool) (log : list Callee) : nat :=
  List.length (filter p log).

(** ** Programs that thread a state and may abort the process *)

Inductive Abort :=
| LogFatal (msg : string)
| DCheckFailed (what : string).

Inductive Outcome (S A : Type) :=
| Done (a : A) (s : S)
| Aborted (why : Abort) (s : S).

Arguments Done {S A} a s.
Arguments Aborted {S A} why s.

Definition Step (S A : Type) : Type := S -> Outcome S A.

Definition ret {S A : Type} (a : A) : Step S A :=
  fun s => Done a s.

Definition bind {S A B : Type} (m : Step S A) (k : A -> Step S B) : Step S B :=
  fun s =>
    match m s with
    | Done a s' => k a s'
    | Aborted why s' => Aborted why s'
    end.

Definition abort {S A : Type} (why : Abort) : Step S A :=
  fun s => Aborted why s.

Declare Scope step_scope.
Delimit Scope step_scope with step.
Notation "x <- m ;; k" := (bind m (fun x => k))
  (at level 61, m at next level, right associativity) : step_scope.
Notation "m ;; k" := (bind m (fun _ => k))
  (at level 61, right associativity) : step_scope.
Local Open Scope step_scope.

(** A statement guarded by an [if] without [else]. *)
Definition when {S : Type} (b : bool) (m : Step S unit) : Step S unit :=
  if b then m else ret tt.

(** The state a run ends in, and what it hands back if it returns. *)
Definition final_state {S A : Type} (o : Outcome S A) : S :=
  match o with
  | Done _ s => s
  | Aborted _ s => s
  end.

Definition returned {S A : Type} (o : Outcome S A) : option A :=
  match o with
  | Done a _ => Some a
  | Aborted _ _ => None
  end.

(** ** The compilation unit *)

Section Model.

(** Everything of the unit the driver never looks into: the MIR graph,
    the arena, the growable lists, the code generator object. *)
Variable Scratch : Type.

Record CompilationUnit := mkCompilationUnit {
  compiler_driver : option CompilerDriver;
  class_linker : option ClassLinker;
  instruction_set : InstructionSet;
  gen_bitcode : bool;
  llvm_compilation_unit : option LlvmCompilationUnit;
  llvm_info : option Z;
  symbol : string;
  num_dalvik_registers : Z;
  compiler_flip_match : bool;
  compiler_method_match : string;
  disable_opt : Z;
  enable_debug : Z;
  verbose : bool;
  attributes : Z;
  first_lir_insn : option LIR;
  core_vmap_table : list Z;
  fp_vmap_table : list Z;
  frame_size : Z;
  core_spill_mask : Z;
  fp_spill_mask : Z;
  code_buffer : list Z;
  combined_mapping_table : list Z;
  native_gc_map : list Z;
  scratch : Scratch
}.

(** Assignments to one member. *)
Definition set_compiler_driver (v : option CompilerDriver) (c : CompilationUnit) : CompilationUnit :=
  mkCompilationUnit v (class_linker c) (instruction_set c) (gen_bitcode c)
    (llvm_compilation_unit c) (llvm_info c) (symbol c) (num_dalvik_registers
    c) (compiler_flip_match c) (compiler_method_match c) (disable_opt c)
    (enable_debug c) (verbose c) (attributes c) (first_lir_insn c)
    (core_vmap_table c) (fp_vmap_table c) (frame_size c) (core_spill_mask c)
    (fp_spill_mask c) (code_buffer c) (combined_mapping_table c)
    (native_gc_map c) (scratch c).
Definition set_class_linker (v : option ClassLinker) (c : CompilationUnit) : CompilationUnit :=
  mkCompilationUnit (compiler_driver c) v (instruction_set c) (gen_bitcode
    c) (llvm_compilation_unit c) (llvm_info c) (symbol c)
    (num_dalvik_registers c) (compiler_flip_match c) (compiler_method_match
    c) (disable_opt c) (enable_debug c) (verbose c) (attributes c)
    (first_lir_insn c) (core_vmap_table c) (fp_vmap_table c) (frame_size c)
    (core_spill_mask c) (fp_spill_mask c) (code_buffer c)
    (combined_mapping_table c) (native_gc_map c) (scratch c).
Definition set_instruction_set (v : InstructionSet) (c : CompilationUnit) : CompilationUnit :=
  mkCompilationUnit (compiler_driver c) (class_linker c) v (gen_bitcode c)
    (llvm_compilation_unit c) (llvm_info c) (symbol c) (num_dalvik_registers
    c) (compiler_flip_match c) (compiler_method_match c) (disable_opt c)
    (enable_debug c) (verbose c) (attributes c) (first_lir_insn c)
    (core_vmap_table c) (fp_vmap_table c) (frame_size c) (core_spill_mask c)
    (fp_spill_mask c) (code_buffer c) (combined_mapping_table c)
    (native_gc_map c) (scratch c).
Definition set_gen_bitcode (v : bool) (c : CompilationUnit) : CompilationUnit :=
  mkCompilationUnit (compiler_driver c) (class_linker c) (instruction_set c)
    v (llvm_compilation_unit c) (llvm_info c) (symbol c)
    (num_dalvik_registers c) (compiler_flip_match c) (compiler_method_match
    c) (disable_opt c) (enable_debug c) (verbose c) (attributes c)
    (first_lir_insn c) (core_vmap_table c) (fp_vmap_table c) (frame_size c)
    (core_spill_mask c) (fp_spill_mask c) (code_buffer c)
    (combined_mapping_table c) (native_gc_map c) (scratch c).
Definition set_llvm_compilation_unit (v : option LlvmCompilationUnit) (c : CompilationUnit) : CompilationUnit :=
  mkCompilationUnit (compiler_driver c) (class_linker c) (instruction_set c)
    (gen_bitcode c) v (llvm_info c) (symbol c) (num_dalvik_registers c)
    (compiler_flip_match c) (compiler_method_match c) (disable_opt c)
    (enable_debug c) (verbose c) (attributes c) (first_lir_insn c)
    (core_vmap_table c) (fp_vmap_table c) (frame_size c) (core_spill_mask c)
    (fp_spill_mask c) (code_buffer c) (combined_mapping_table c)
    (native_gc_map c) (scratch c).
Definition set_llvm_info (v : option Z) (c : CompilationUnit) : CompilationUnit :=
  mkCompilationUnit (compiler_driver c) (class_linker c) (instruction_set c)
    (gen_bitcode c) (llvm_compilation_unit c) v (symbol c)
    (num_dalvik_registers c) (compiler_flip_match c) (compiler_method_match
    c) (disable_opt c) (enable_debug c) (verbose c) (attributes c)
    (first_lir_insn c) (core_vmap_table c) (fp_vmap_table c) (frame_size c)
    (core_spill_mask c) (fp_spill_mask c) (code_buffer c)
    (combined_mapping_table c) (native_gc_map c) (scratch c).
Definition set_symbol (v : string) (c : CompilationUnit) : CompilationUnit :=
  mkCompilationUnit (compiler_driver c) (class_linker c) (instruction_set c)
    (gen_bitcode c) (llvm_compilation_unit c) (llvm_info c) v
    (num_dalvik_registers c) (compiler_flip_match c) (compiler_method_match
    c) (disable_opt c) (enable_debug c) (verbose c) (attributes c)
    (first_lir_insn c) (core_vmap_table c) (fp_vmap_table c) (frame_size c)
    (core_spill_mask c) (fp_spill_mask c) (code_buffer c)
    (combined_mapping_table c) (native_gc_map c) (scratch c).
Definition set_num_dalvik_registers (v : Z) (c : CompilationUnit) : CompilationUnit :=
  mkCompilationUnit (compiler_driver c) (class_linker c) (instruction_set c)
    (gen_bitcode c) (llvm_compilation_unit c) (llvm_info c) (symbol c) v
    (compiler_flip_match c) (compiler_method_match c) (disable_opt c)
    (enable_debug c) (verbose c) (attributes c) (first_lir_insn c)
    (core_vmap_table c) (fp_vmap_table c) (frame_size c) (core_spill_mask c)
    (fp_spill_mask c) (code_buffer c) (combined_mapping_table c)
    (native_gc_map c) (scratch c).
Definition set_compiler_flip_match (v : bool) (c : CompilationUnit) : CompilationUnit :=
  mkCompilationUnit (compiler_driver c) (class_linker c) (instruction_set c)
    (gen_bitcode c) (llvm_compilation_unit c) (llvm_info c) (symbol c)
    (num_dalvik_registers c) v (compiler_method_match c) (disable_opt c)
    (enable_debug c) (verbose c) (attributes c) (first_lir_insn c)
    (core_vmap_table c) (fp_vmap_table c) (frame_size c) (core_spill_mask c)
    (fp_spill_mask c) (code_buffer c) (combined_mapping_table c)
    (native_gc_map c) (scratch c).
Definition set_disable_opt (v : Z) (c : CompilationUnit) : CompilationUnit :=
  mkCompilationUnit (compiler_driver c) (class_linker c) (instruction_set c)
    (gen_bitcode c) (llvm_compilation_unit c) (llvm_info c) (symbol c)
    (num_dalvik_registers c) (compiler_flip_match c) (compiler_method_match
    c) v (enable_debug c) (verbose c) (attributes c) (first_lir_insn c)
    (core_vmap_table c) (fp_vmap_table c) (frame_size c) (core_spill_mask c)
    (fp_spill_mask c) (code_buffer c) (combined_mapping_table c)
    (native_gc_map c) (scratch c).
Definition set_enable_debug (v : Z) (c : CompilationUnit) : CompilationUnit :=
  mkCompilationUnit (compiler_driver c) (class_linker c) (instruction_set c)
    (gen_bitcode c) (llvm_compilation_unit c) (llvm_info c) (symbol c)
    (num_dalvik_registers c) (compiler_flip_match c) (compiler_method_match
    c) (disable_opt c) v (verbose c) (attributes c) (first_lir_insn c)
    (core_vmap_table c) (fp_vmap_table c) (frame_size c) (core_spill_mask c)
    (fp_spill_mask c) (code_buffer c) (combined_mapping_table c)
    (native_gc_map c) (scratch c).
Definition set_verbose (v : bool) (c : CompilationUnit) : CompilationUnit :=
  mkCompilationUnit (compiler_driver c) (class_linker c) (instruction_set c)
    (gen_bitcode c) (llvm_compilation_unit c) (llvm_info c) (symbol c)
    (num_dalvik_registers c) (compiler_flip_match c) (compiler_method_match
    c) (disable_opt c) (enable_debug c) v (attributes c) (first_lir_insn c)
    (core_vmap_table c) (fp_vmap_table c) (frame_size c) (core_spill_mask c)
    (fp_spill_mask c) (code_buffer c) (combined_mapping_table c)
    (native_gc_map c) (scratch c).
Definition set_attributes (v : Z) (c : CompilationUnit) : CompilationUnit :=
  mkCompilationUnit (compiler_driver c) (class_linker c) (instruction_set c)
    (gen_bitcode c) (llvm_compilation_unit c) (llvm_info c) (symbol c)
    (num_dalvik_registers c) (compiler_flip_match c) (compiler_method_match
    c) (disable_opt c) (enable_debug c) (verbose c) v (first_lir_insn c)
    (core_vmap_table c) (fp_vmap_table c) (frame_size c) (core_spill_mask c)
    (fp_spill_mask c) (code_buffer c) (combined_mapping_table c)
    (native_gc_map c) (scratch c).
Definition set_first_lir_insn (v : option LIR) (c : CompilationUnit) : CompilationUnit :=
  mkCompilationUnit (compiler_driver c) (class_linker c) (instruction_set c)
    (gen_bitcode c) (llvm_compilation_unit c) (llvm_info c) (symbol c)
    (num_dalvik_registers c) (compiler_flip_match c) (compiler_method_match
    c) (disable_opt c) (enable_debug c) (verbose c) (attributes c) v
    (core_vmap_table c) (fp_vmap_table c) (frame_size c) (core_spill_mask c)
    (fp_spill_mask c) (code_buffer c) (combined_mapping_table c)
    (native_gc_map c) (scratch c).
Definition set_core_vmap_table (v : list Z) (c : CompilationUnit) : CompilationUnit :=
  mkCompilationUnit (compiler_driver c) (class_linker c) (instruction_set c)
    (gen_bitcode c) (llvm_compilation_unit c) (llvm_info c) (symbol c)
    (num_dalvik_registers c) (compiler_flip_match c) (compiler_method_match
    c) (disable_opt c) (enable_debug c) (verbose c) (attributes c)
    (first_lir_insn c) v (fp_vmap_table c) (frame_size c) (core_spill_mask
    c) (fp_spill_mask c) (code_buffer c) (combined_mapping_table c)
    (native_gc_map c) (scratch c).
Definition set_fp_vmap_table (v : list Z) (c : CompilationUnit) : CompilationUnit :=
  mkCompilationUnit (compiler_driver c) (class_linker c) (instruction_set c)
    (gen_bitcode c) (llvm_compilation_unit c) (llvm_info c) (symbol c)
    (num_dalvik_registers c) (compiler_flip_match c) (compiler_method_match
    c) (disable_opt c) (enable_debug c) (verbose c) (attributes c)
    (first_lir_insn c) (core_vmap_table c) v (frame_size c) (core_spill_mask
    c) (fp_spill_mask c) (code_buffer c) (combined_mapping_table c)
    (native_gc_map c) (scratch c).
Definition set_frame_size (v : Z) (c : CompilationUnit) : CompilationUnit :=
  mkCompilationUnit (compiler_driver c) (class_linker c) (instruction_set c)
    (gen_bitcode c) (llvm_compilation_unit c) (llvm_info c) (symbol c)
    (num_dalvik_registers c) (compiler_flip_match c) (compiler_method_match
    c) (disable_opt c) (enable_debug c) (verbose c) (attributes c)
    (first_lir_insn c) (core_vmap_table c) (fp_vmap_table c) v
    (core_spill_mask c) (fp_spill_mask c) (code_buffer c)
    (combined_mapping_table c) (native_gc_map c) (scratch c).
Definition set_core_spill_mask (v : Z) (c : CompilationUnit) : CompilationUnit :=
  mkCompilationUnit (compiler_driver c) (class_linker c) (instruction_set c)
    (gen_bitcode c) (llvm_compilation_unit c) (llvm_info c) (symbol c)
    (num_dalvik_registers c) (compiler_flip_match c) (compiler_method_match
    c) (disable_opt c) (enable_debug c) (verbose c) (attributes c)
    (first_lir_insn c) (core_vmap_table c) (fp_vmap_table c) (frame_size c)
    v (fp_spill_mask c) (code_buffer c) (combined_mapping_table c)
    (native_gc_map c) (scratch c).
Definition set_fp_spill_mask (v : Z) (c : CompilationUnit) : CompilationUnit :=
  mkCompilationUnit (compiler_driver c) (class_linker c) (instruction_set c)
    (gen_bitcode c) (llvm_compilation_unit c) (llvm_info c) (symbol c)
    (num_dalvik_registers c) (compiler_flip_match c) (compiler_method_match
    c) (disable_opt c) (enable_debug c) (verbose c) (attributes c)
    (first_lir_insn c) (core_vmap_table c) (fp_vmap_table c) (frame_size c)
    (core_spill_mask c) v (code_buffer c) (combined_mapping_table c)
    (native_gc_map c) (scratch c).
Definition set_code_buffer (v : list Z) (c : CompilationUnit) : CompilationUnit :=
  mkCompilationUnit (compiler_driver c) (class_linker c) (instruction_set c)
    (gen_bitcode c) (llvm_compilation_unit c) (llvm_info c) (symbol c)
    (num_dalvik_registers c) (compiler_flip_match c) (compiler_method_match
    c) (disable_opt c) (enable_debug c) (verbose c) (attributes c)
    (first_lir_insn c) (core_vmap_table c) (fp_vmap_table c) (frame_size c)
    (core_spill_mask c) (fp_spill_mask c) v (combined_mapping_table c)
    (native_gc_map c) (scratch c).
Definition set_combined_mapping_table (v : list Z) (c : CompilationUnit) : CompilationUnit :=
  mkCompilationUnit (compiler_driver c) (class_linker c) (instruction_set c)
    (gen_bitcode c) (llvm_compilation_unit c) (llvm_info c) (symbol c)
    (num_dalvik_registers c) (compiler_flip_match c) (compiler_method_match
    c) (disable_opt c) (enable_debug c) (verbose c) (attributes c)
    (first_lir_insn c) (core_vmap_table c) (fp_vmap_table c) (frame_size c)
    (core_spill_mask c) (fp_spill_mask c) (code_buffer c) v (native_gc_map
    c) (scratch c).
Definition set_scratch (v : Scratch) (c : CompilationUnit) : CompilationUnit :=
  mkCompilationUnit (compiler_driver c) (class_linker c) (instruction_set c)
    (gen_bitcode c) (llvm_compilation_unit c) (llvm_info c) (symbol c)
    (num_dalvik_registers c) (compiler_flip_match c) (compiler_method_match
    c) (disable_opt c) (enable_debug c) (verbose c) (attributes c)
    (first_lir_insn c) (core_vmap_table c) (fp_vmap_table c) (frame_size c)
    (core_spill_mask c) (fp_spill_mask c) (code_buffer c)
    (combined_mapping_table c) (native_gc_map c) v.

(** ** The world around the driver *)

(** Functions defined in other files: the constructor of the unit, the
    passes and helpers called on it ([call c] is the effect of callee
    [c] on the unit), what [HeapInit] returns, [PrettyMethod], and
    [Runtime::Current()->GetClassLinker()]. *)
Record Extern := {
  new_CompilationUnit : CompilationUnit;
  call : Callee -> CompilationUnit -> CompilationUnit;
  HeapInit_result : CompilationUnit -> bool;
  PrettyMethod : Z -> DexFile -> string;
  Runtime_GetClassLinker : ClassLinker
}.

(** The state of one compile: the unit and the log of external calls
    made so far, oldest first. *)
Record Session := {
  cu : CompilationUnit;
  calls : list Callee
}.

Definition Run (A : Type) : Type := Step Session A.

Variable B : Build.
Variable E : Extern.
Variable G : Globals.

Definition get_cu : Run CompilationUnit :=
  fun s => Done (cu s) s.

(** The state after an assignment to the unit, and after a call. *)
Definition assigned (f : CompilationUnit -> CompilationUnit) (s : Session)
  : Session :=
  {| cu := f (cu s); calls := calls s |}.

Definition called (c : Callee) (s : Session) : Session :=
  {| cu := call E c (cu s); calls := calls s ++ [c] |}.

(** [cu->member = v], as an update of the unit. *)
Definition assign (f : CompilationUnit -> CompilationUnit) : Run unit :=
  fun s => Done tt (assigned f s).

(** A call of an external function on the unit. *)
Definition invoke (c : Callee) : Run unit :=
  fun s => Done tt (called c s).

(** [HeapInit(cu.get())], which also returns a flag. *)
Definition invoke_HeapInit : Run bool :=
  fun s => Done (HeapInit_result E (cu s)) (called HeapInit s).

Definition LOG_FATAL {A : Type} (msg : string) : Run A :=
  abort (LogFatal msg).

Definition DCHECK (cond : bool) (what : string) : Run unit :=
  if kEnableDChecks B then
    if cond then ret tt else abort (DCheckFailed what)
  else ret tt.

Definition DCHECK_EQ (x y : Z) (what : string) : Run unit :=
  DCHECK (x =? y) what.

(** ** [CompileMethod], block by block *)

(** Lines 129-144: the members set from the arguments. *)
Definition setup_unit (compiler : CompilerDriver)
    (compiler_backend : CompilerBackend) (code_item : CodeItem)
    (llvm_unit : LlvmCompilationUnit) : Run unit :=
  assign (set_compiler_driver (Some compiler)) ;;
  assign (set_class_linker (Some (Runtime_GetClassLinker E))) ;;
  assign (set_instruction_set (GetInstructionSet compiler)) ;;
  c <- get_cu ;;
  DCHECK (InstructionSet_eqb (instruction_set c) kThumb2
          || InstructionSet_eqb (instruction_set c) kX86
          || InstructionSet_eqb (instruction_set c) kMips)
         "instruction_set" ;;
  assign (set_gen_bitcode (CompilerBackend_eqb compiler_backend kPortable)) ;;
  when (ART_USE_PORTABLE_COMPILER B)
    (assign (set_llvm_compilation_unit (Some llvm_unit)) ;;
     assign (set_llvm_info (Some (GetQuickContext llvm_unit))) ;;
     assign (set_symbol (GetSymbol llvm_unit))) ;;
  assign (set_num_dalvik_registers (registers_size_ code_item)).

(** Lines 146-156: the method-name filter and the two default words. *)
Definition apply_method_filter (method_idx : Z) (dex_file : DexFile) : Run unit :=
  assign (set_compiler_flip_match false) ;;
  c <- get_cu ;;
  let use_match := negb (string_empty (compiler_method_match c)) in
  let match_ :=
    use_match &&
    xorb (compiler_flip_match c)
         (string_find (compiler_method_match c)
                      (PrettyMethod E method_idx dex_file)) in
  when (negb use_match || match_)
    (assign (set_disable_opt (kCompilerOptimizerDisableFlags G)) ;;
     assign (set_enable_debug (kCompilerDebugFlags G)) ;;
     c' <- get_cu ;;
     assign (set_verbose (VLOG_IS_ON_compiler G
                          || has_flag (enable_debug c') (debug_pos B kDebugVerbose)))).

(** Lines 158-161. *)
Definition force_verify_bitcode : Run unit :=
  c <- get_cu ;;
  when (kIsDebugBuild B && gen_bitcode c)
    (assign (fun c' =>
       set_enable_debug
         (u32 (Z.lor (enable_debug c')
                     (Z.shiftl 1 (debug_pos B kDebugVerifyBitcode)))) c')).

(** The constant or-ed into [disable_opt] at lines 165-175. *)
Definition mips_disable_opt : Z :=
  Z.lor (Z.shiftl 1 (opt_pos B kLoadStoreElimination))
  (Z.lor (Z.shiftl 1 (opt_pos B kLoadHoisting))
  (Z.lor (Z.shiftl 1 (opt_pos B kSuppressLoads))
  (Z.lor (Z.shiftl 1 (opt_pos B kNullCheckElimination))
  (Z.lor (Z.shiftl 1 (opt_pos B kPromoteRegs))
  (Z.lor (Z.shiftl 1 (opt_pos B kTrackLiveTemps))
  (Z.lor (Z.shiftl 1 (opt_pos B kSafeOptimizations))
  (Z.lor (Z.shiftl 1 (opt_pos B kBBOpt))
  (Z.lor (Z.shiftl 1 (opt_pos B kMatch))
         (Z.shiftl 1 (opt_pos B kPromoteCompilerTemps)))))))))).

(** Lines 163-176. *)
Definition mips_overrides : Run unit :=
  c <- get_cu ;;
  when (InstructionSet_eqb (instruction_set c) kMips)
    (assign (fun c' =>
       set_disable_opt (u32 (Z.lor (disable_opt c') mips_disable_opt)) c')).

(** Lines 146-176: all of flag resolution. *)
Definition resolve_flags (method_idx : Z) (dex_file : DexFile) : Run unit :=
  apply_method_filter method_idx dex_file ;;
  force_verify_bitcode ;;
  mips_overrides.

(** Lines 178-222: building and optimising the MIR. *)
Definition build_mir (code_item : CodeItem) (access_flags invoke_type : Z)
    (class_def_idx method_idx : Z) (class_loader : jobject)
    (dex_file : DexFile) : Run unit :=
  assign (set_attributes (METHOD_IS_LEAF B)) ;;
  invoke MIRGraph_new ;;
  when (has_flag (kCompilerDebugFlags G) (debug_pos B kDebugCountOpcodes))
    (invoke EnableOpcodeCounting) ;;
  invoke (InlineMethod code_item access_flags invoke_type class_def_idx
                       method_idx class_loader dex_file) ;;
  invoke CodeLayout ;;
  c <- get_cu ;;
  when (has_flag (enable_debug c) (debug_pos B kDebugVerifyDataflow))
    (invoke VerifyDataflow) ;;
  invoke SSATransformation ;;
  invoke PropagateConstants ;;
  invoke MethodUseCount ;;
  invoke NullCheckElimination ;;
  invoke BasicBlockCombine ;;
  invoke BasicBlockOptimization ;;
  c' <- get_cu ;;
  when (has_flag (enable_debug c') (debug_pos B kDebugDumpCheckStats))
    (invoke DumpCheckStats) ;;
  invoke BuildRegLocations.

(** Lines 237-246: the code generator for the driver's target. *)
Definition init_codegen (compiler : CompilerDriver) : Run unit :=
  match GetInstructionSet compiler with
  | kThumb2 => invoke InitArmCodegen
  | kMips => invoke InitMipsCodegen
  | kX86 => invoke InitX86Codegen
  | kOtherInstructionSet _ => LOG_FATAL "Unexpected instruction set"
  end.

(** Lines 250-275: the lists, then register allocation. *)
Definition allocate_registers (code_item : CodeItem) : Run unit :=
  invoke (CompilerInitGrowableList switch_tables 4 kListSwitchTables) ;;
  invoke (CompilerInitGrowableList fill_array_data 4 kListFillArrayData) ;;
  invoke (CompilerInitGrowableList throw_launchpads
            (insns_size_in_code_units_ code_item) kListThrowLaunchPads) ;;
  invoke (CompilerInitGrowableList intrinsic_launchpads 4 kListMisc) ;;
  invoke (CompilerInitGrowableList suspend_launchpads 2048
            kListSuspendLaunchPads) ;;
  invoke CompilerInitializeRegAlloc ;;
  invoke SimpleRegAlloc.

(** Lines 277-289: the special-case handler, then generic lowering
    unless a lowered instruction is already there. *)
Definition special_codegen (special_case : SpecialCaseHandler) : Run unit :=
  when (negb (SpecialCaseHandler_eqb special_case kNoHandler))
    (invoke (SpecialMIR2LIR special_case)).

Definition lower (special_case : SpecialCaseHandler) : Run unit :=
  special_codegen special_case ;;
  c <- get_cu ;;
  when (match first_lir_insn c with None => true | Some _ => false end)
    (invoke MethodMIR2LIR).

(** Lines 237-290: the quick path. *)
Definition quick_codegen (compiler : CompilerDriver) (code_item : CodeItem)
    (special_case : SpecialCaseHandler) : Run unit :=
  init_codegen compiler ;;
  allocate_registers code_item ;;
  lower special_case.

(** Lines 224-290.  Hands back [true] when the portable path has
    finished the compile and the function returns [NULL]. *)
Definition codegen (compiler : CompilerDriver)
    (compiler_backend : CompilerBackend) (code_item : CodeItem)
    (special_case : SpecialCaseHandler) : Run bool :=
  c <- get_cu ;;
  if ART_USE_PORTABLE_COMPILER B && gen_bitcode c then
    invoke MethodMIR2Bitcode ;;
    if CompilerBackend_eqb compiler_backend kPortable then
      invoke ArenaReset ;;
      ret true
    else ret false
  else
    quick_codegen compiler code_item special_case ;;
    ret false.

(** Lines 292-309: assembly of a non-empty method, opcode statistics. *)
Definition assemble : Run unit :=
  c <- get_cu ;;
  when (match first_lir_insn c with Some _ => true | None => false end)
    (invoke ProcessSwitchTables ;;
     invoke AssembleLIR ;;
     c' <- get_cu ;;
     when (verbose c') (invoke CodegenDump)) ;;
  when (has_flag (kCompilerDebugFlags G) (debug_pos B kDebugCountOpcodes))
    (invoke ShowOpcodeStats).

(** The word [~(-1 << VREG_NUM_WIDTH)]. *)
Definition vreg_mask : Z :=
  Z.lnot (Z.shiftl (-1) (VREG_NUM_WIDTH B)).

(** Lines 311-329: the combined vmap table, a vector of [uint16_t]. *)
Definition combine_vmap_tables : Run (list Z) :=
  assign (fun c => set_core_vmap_table (std_sort (core_vmap_table c)) c) ;;
  c <- get_cu ;;
  let vmap_table :=
    map (fun key => u16 (Z.land vreg_mask key)) (core_vmap_table c) in
  vmap_table' <-
    (if 0 <? frame_size c then
       ret (vmap_table ++ [u16 (INVALID_VREG B)])
     else
       DCHECK_EQ (popcount (core_spill_mask c)) 0 "core_spill_mask" ;;
       DCHECK_EQ (popcount (fp_spill_mask c)) 0 "fp_spill_mask" ;;
       ret vmap_table) ;;
  ret (vmap_table' ++ map u16 (fp_vmap_table c)).

(** Lines 330-347: the artifact, the memory report, the arena. *)
Definition package (vmap_table : list Z) : Run (option CompiledMethod) :=
  c <- get_cu ;;
  let result :=
    {| cm_instruction_set := instruction_set c;
       cm_code := code_buffer c;
       cm_frame_size_in_bytes := frame_size c;
       cm_core_spill_mask := core_spill_mask c;
       cm_fp_spill_mask := fp_spill_mask c;
       cm_mapping_table := combined_mapping_table c;
       cm_vmap_table := vmap_table;
       cm_native_gc_map := native_gc_map c |} in
  when (WITH_MEMSTATS B
        && has_flag (enable_debug c) (debug_pos B kDebugShowMemoryUsage))
    (invoke DumpMemStats) ;;
  invoke ArenaReset ;;
  ret (Some result).

(** Lines 122-176: the heap, the members, the flags. *)
Definition configure (compiler : CompilerDriver)
    (compiler_backend : CompilerBackend) (code_item : CodeItem)
    (method_idx : Z) (dex_file : DexFile)
    (llvm_unit : LlvmCompilationUnit) : Run unit :=
  ok <- invoke_HeapInit ;;
  when (negb ok) (LOG_FATAL "Failed to initialize compiler heap") ;;
  setup_unit compiler compiler_backend code_item llvm_unit ;;
  resolve_flags method_idx dex_file.

(** Lines 117-290: everything up to and including lowering. *)
Definition lowered (compiler : CompilerDriver)
    (compiler_backend : CompilerBackend) (code_item : CodeItem)
    (access_flags invoke_type class_def_idx method_idx : Z)
    (class_loader : jobject) (dex_file : DexFile)
    (llvm_unit : LlvmCompilationUnit) : Run bool :=
  let special_case := kNoHandler in
  configure compiler compiler_backend code_item method_idx dex_file
            llvm_unit ;;
  build_mir code_item access_flags invoke_type class_def_idx method_idx
            class_loader dex_file ;;
  codegen compiler compiler_backend code_item special_case.

(** Lines 292-347: from the emptiness test to [return result]. *)
Definition emit : Run (option CompiledMethod) :=
  assemble ;;
  vmap_table <- combine_vmap_tables ;;
  package vmap_table.

Definition CompileMethod (compiler : CompilerDriver)
    (compiler_backend : CompilerBackend) (code_item : CodeItem)
    (access_flags invoke_type class_def_idx method_idx : Z)
    (class_loader : jobject) (dex_file : DexFile)
    (llvm_unit : LlvmCompilationUnit) : Run (option CompiledMethod) :=
  all_done <- lowered compiler compiler_backend code_item access_flags
                      invoke_type class_def_idx method_idx class_loader
                      dex_file llvm_unit ;;
  if all_done then ret None else emit.

(** The state a compile starts in: [new CompilationUnit], no call made. *)
Definition fresh : Session :=
  {| cu := new_CompilationUnit E; calls := [] |}.

Definition CompileOneMethod (compiler : CompilerDriver)
    (backend : CompilerBackend) (code_item : CodeItem)
    (access_flags invoke_type class_def_idx method_idx : Z)
    (class_loader : jobject) (dex_file : DexFile)
    (llvm_unit : LlvmCompilationUnit) : Outcome Session (option CompiledMethod) :=
  CompileMethod compiler backend code_item access_flags invoke_type
                class_def_idx method_idx class_loader dex_file llvm_unit fresh.

End Model.

(** The type of the scratch part is read off the unit. *)
Arguments compiler_driver {Scratch} c.
Arguments class_linker {Scratch} c.
Arguments instruction_set {Scratch} c.
Arguments gen_bitcode {Scratch} c.
Arguments llvm_compilation_unit {Scratch} c.
Arguments llvm_info {Scratch} c.
Arguments symbol {Scratch} c.
Arguments num_dalvik_registers {Scratch} c.
Arguments compiler_flip_match {Scratch} c.
Arguments compiler_method_match {Scratch} c.
Arguments disable_opt {Scratch} c.
Arguments enable_debug {Scratch} c.
Arguments verbose {Scratch} c.
Arguments attributes {Scratch} c.
Arguments first_lir_insn {Scratch} c.
Arguments core_vmap_table {Scratch} c.
Arguments fp_vmap_table {Scratch} c.
Arguments frame_size {Scratch} c.
Arguments core_spill_mask {Scratch} c.
Arguments fp_spill_mask {Scratch} c.
Arguments code_buffer {Scratch} c.
Arguments combined_mapping_table {Scratch} c.
Arguments native_gc_map {Scratch} c.
Arguments scratch {Scratch} c.
Arguments set_compiler_driver {Scratch} v c.
Arguments set_class_linker {Scratch} v c.
Arguments set_instruction_set {Scratch} v c.
Arguments set_gen_bitcode {Scratch} v c.
Arguments set_llvm_compilation_unit {Scratch} v c.
Arguments set_llvm_info {Scratch} v c.
Arguments set_symbol {Scratch} v c.
Arguments set_num_dalvik_registers {Scratch} v c.
Arguments set_compiler_flip_match {Scratch} v c.
Arguments set_disable_opt {Scratch} v c.
Arguments set_enable_debug {Scratch} v c.
Arguments set_verbose {Scratch} v c.
Arguments set_attributes {Scratch} v c.
Arguments set_first_lir_insn {Scratch} v c.
Arguments set_core_vmap_table {Scratch} v c.
Arguments set_fp_vmap_table {Scratch} v c.
Arguments set_frame_size {Scratch} v c.
Arguments set_core_spill_mask {Scratch} v c.
Arguments set_fp_spill_mask {Scratch} v c.
Arguments set_code_buffer {Scratch} v c.
Arguments set_combined_mapping_table {Scratch} v c.
Arguments set_scratch {Scratch} v c.
Arguments mkCompilationUnit {Scratch}.
Arguments new_CompilationUnit {Scratch} e.
Arguments call {Scratch} e.
Arguments HeapInit_result {Scratch} e.
Arguments PrettyMethod {Scratch} e.
Arguments Runtime_GetClassLinker {Scratch} e.
Arguments get_cu {Scratch}.
Arguments assign {Scratch}.
Arguments invoke {Scratch}.
Arguments invoke_HeapInit {Scratch}.
Arguments LOG_FATAL {Scratch}.
Arguments DCHECK {Scratch}.
Arguments DCHECK_EQ {Scratch}.
Arguments setup_unit {Scratch}.
Arguments apply_method_filter {Scratch}.
Arguments force_verify_bitcode {Scratch}.
Arguments mips_overrides {Scratch}.
Arguments resolve_flags {Scratch}.
Arguments build_mir {Scratch}.
Arguments init_codegen {Scratch}.
Arguments allocate_registers {Scratch}.
Arguments lower {Scratch}.
Arguments quick_codegen {Scratch}.
Arguments codegen {Scratch}.
Arguments assemble {Scratch}.
Arguments combine_vmap_tables {Scratch}.
Arguments package {Scratch}.
Arguments lowered {Scratch}.
Arguments assigned {Scratch}.
Arguments called {Scratch}.
Arguments configure {Scratch}.
Arguments special_codegen {Scratch}.
Arguments emit {Scratch}.
Arguments CompileMethod {Scratch}.
Arguments fresh {Scratch}.
Arguments CompileOneMethod {Scratch}.
Arguments cu {Scratch} s.
Arguments calls {Scratch} s.

(** ** A small world to run the driver in

    A code generator whose assembler output is given by a record, a MIR
    graph reduced to the number of code units read, and a counter of the
    reports made; used for the examples below. *)

Record ToyAssembler := {
  toy_frame_size : Z;
  toy_core_spill_mask : Z;
  toy_fp_spill_mask : Z;
  toy_core_vmap_table : list Z;
  toy_fp_vmap_table : list Z
}.

Record ToyScratch := {
  ir_size : Z;
  reports : nat
}.

Definition toy_unit (filter : string) : CompilationUnit ToyScratch :=
  {| compiler_driver := None;
     class_linker := None;
     instruction_set := kOtherInstructionSet 0;
     gen_bitcode := false;
     llvm_compilation_unit := None;
     llvm_info := None;
     symbol := EmptyString;
     num_dalvik_registers := 0;
     compiler_flip_match := false;
     compiler_method_match := filter;
     disable_opt := 0;
     enable_debug := 0;
     verbose := false;
     attributes := 0;
     first_lir_insn := None;
     core_vmap_table := [];
     fp_vmap_table := [];
     frame_size := 0;
     core_spill_mask := 0;
     fp_spill_mask := 0;
     code_buffer := [];
     combined_mapping_table := [];
     native_gc_map := [];
     scratch := {| ir_size := 0; reports := 0 |} |}.

Definition toy_report (u : CompilationUnit ToyScratch) : CompilationUnit ToyScratch :=
  set_scratch {| ir_size := ir_size (scratch u);
                   reports := S (reports (scratch u)) |} u.

Definition toy_assemble (T : ToyAssembler) (u : CompilationUnit ToyScratch)
  : CompilationUnit ToyScratch :=
  set_code_buffer [ir_size (scratch u); 112; 71]
    (set_combined_mapping_table [0; ir_size (scratch u)]
      (set_frame_size (toy_frame_size T)
        (set_core_spill_mask (toy_core_spill_mask T)
          (set_fp_spill_mask (toy_fp_spill_mask T)
            (set_core_vmap_table (toy_core_vmap_table T)
              (set_fp_vmap_table (toy_fp_vmap_table T) u)))))).

Definition toy_call (T : ToyAssembler) (c : Callee)
    (u : CompilationUnit ToyScratch) : CompilationUnit ToyScratch :=
  match c with
  | InlineMethod code_item _ _ _ _ _ _ =>
      set_scratch {| ir_size := Z.of_nat (List.length (insns_ code_item));
                       reports := reports (scratch u) |} u
  | MethodMIR2LIR =>
      if ir_size (scratch u) =? 0 then u
      else set_first_lir_insn (Some 1) u
  | AssembleLIR => toy_assemble T u
  | EnableOpcodeCounting | VerifyDataflow | DumpCheckStats
  | CodegenDump | ShowOpcodeStats | DumpMemStats => toy_report u
  | _ => u
  end.

Definition toy_extern (T : ToyAssembler) (heap_ok : bool) (filter : string)
  : Extern ToyScratch :=
  {| new_CompilationUnit := toy_unit filter;
     call := toy_call T;
     HeapInit_result := fun _ => heap_ok;
     PrettyMethod := fun _ _ => "void Main.run()"%string;
     Runtime_GetClassLinker := 7 |}.

(** Enumerators numbered in the order the file lists them. *)
Definition toy_opt_pos (o : opt_control_vector) : Z :=
  match o with
  | kLoadStoreElimination => 0
  | kLoadHoisting => 1
  | kSuppressLoads => 2
  | kNullCheckElimination => 3
  | kPromoteRegs => 4
  | kTrackLiveTemps => 5
  | kSafeOptimizations => 6
  | kBBOpt => 7
  | kMatch => 8
  | kPromoteCompilerTemps => 9
  end.

Definition toy_debug_pos (d : debug_control_vector) : Z :=
  match d with
  | kDebugDisplayMissingTargets => 0
  | kDebugVerbose => 1
  | kDebugDumpCFG => 2
  | kDebugSlowFieldPath => 3
  | kDebugSlowInvokePath => 4
  | kDebugSlowStringPath => 5
  | kDebugSlowestFieldPath => 6
  | kDebugSlowestStringPath => 7
  | kDebugExerciseResolveMethod => 8
  | kDebugVerifyDataflow => 9
  | kDebugShowMemoryUsage => 10
  | kDebugShowNops => 11
  | kDebugCountOpcodes => 12
  | kDebugDumpCheckStats => 13
  | kDebugDumpBitcodeFile => 14
  | kDebugVerifyBitcode => 15
  end.

Definition toy_build (portable dchecks : bool) (vreg_width : Z) : Build :=
  {| ART_USE_PORTABLE_COMPILER := portable;
     WITH_MEMSTATS := true;
     kIsDebugBuild := dchecks;
     kEnableDChecks := dchecks;
     VREG_NUM_WIDTH := vreg_width;
     INVALID_VREG := 65535;
     METHOD_IS_LEAF := 1;
     opt_pos := toy_opt_pos;
     debug_pos := toy_debug_pos |}.

Definition toy_driver (target : InstructionSet) (backend : CompilerBackend)
  : CompilerDriver :=
  {| GetInstructionSet := target; GetCompilerBackend := backend |}.

Definition toy_llvm_unit : LlvmCompilationUnit :=
  {| GetQuickContext := 0; GetSymbol := "Main_run"%string |}.

(** A method of three code units, and one with no code. *)
Definition toy_code : CodeItem :=
  {| registers_size_ := 3; insns_size_in_code_units_ := 3;
     insns_ := [144; 258; 15] |}.

Definition toy_empty_code : CodeItem :=
  {| registers_size_ := 0; insns_size_in_code_units_ := 0; insns_ := [] |}.

(** The assembler of the examples: a frame, one core register saved. *)
Definition toy_asm : ToyAssembler :=
  {| toy_frame_size := 16;
     toy_core_spill_mask := 16384;
     toy_fp_spill_mask := 0;
     toy_core_vmap_table := [4099; 4097; 4098];
     toy_fp_vmap_table := [5; 9] |}.

(** An assembler that reports a saved register and no frame. *)
Definition toy_asm_inconsistent : ToyAssembler :=
  {| toy_frame_size := 0;
     toy_core_spill_mask := 1;
     toy_fp_spill_mask := 0;
     toy_core_vmap_table := [4099; 4097; 4098];
     toy_fp_vmap_table := [5; 9] |}.

(** One compile in the toy world. *)
Definition toy_compile (Bd : Build) (T : ToyAssembler) (heap_ok : bool)
    (filter : string) (Gl : Globals) (target : InstructionSet)
    (backend : CompilerBackend) (code : CodeItem)
  : Outcome (Session ToyScratch) (option CompiledMethod) :=
  CompileOneMethod Bd (toy_extern T heap_ok filter) Gl
    (toy_driver target backend) backend code 1 0 0 42 0 0 toy_llvm_unit.

(** ** Assumptions on the passes, named

    What the specification says of code that is not in this file. *)

(** Modelled from the spec: the assembler is the stage that produces the
    code buffer, the frame size and the spill masks; a callee that
    [leaves_output] does not write them. *)
Definition leaves_output {Scratch : Type} (E : Extern Scratch) (c : Callee) : Prop :=
  forall u,
    code_buffer (call E c u) = code_buffer u
    /\ frame_size (call E c u) = frame_size u
    /\ core_spill_mask (call E c u) = core_spill_mask u
    /\ fp_spill_mask (call E c u) = fp_spill_mask u.

(** Modelled from the spec: a fresh unit has produced nothing yet. *)
Definition starts_blank {Scratch : Type} (E : Extern Scratch) : Prop :=
  code_buffer (new_CompilationUnit E) = []
  /\ frame_size (new_CompilationUnit E) = 0
  /\ core_spill_mask (new_CompilationUnit E) = 0
  /\ fp_spill_mask (new_CompilationUnit E) = 0.

(** Modelled from the spec: the lowered-instruction list is produced by
    the special-case handler or by generic lowering; a callee that
    [leaves_lir] does not touch its head. *)
Definition leaves_lir {Scratch : Type} (E : Extern Scratch) (c : Callee) : Prop :=
  forall u, first_lir_insn (call E c u) = first_lir_insn u.

(** A callee that does not write [gen_bitcode]. *)
Definition leaves_gen_bitcode {Scratch : Type} (E : Extern Scratch) (c : Callee) : Prop :=
  forall u, gen_bitcode (call E c u) = gen_bitcode u.

(** The optimizations named at lines 166-175. *)
Definition mips_disabled : list opt_control_vector :=
  [kLoadStoreElimination; kLoadHoisting; kSuppressLoads;
   kNullCheckElimination; kPromoteRegs; kTrackLiveTemps;
   kSafeOptimizations; kBBOpt; kMatch; kPromoteCompilerTemps].

(** ** Reasoning about runs *)

(** [m] keeps [I]: from a state in [I] it ends in a state in [I],
    whether it returns or aborts, and it aborts only for a reason in
    [F]. *)
Definition keeps {Scratch A : Type} (I : Session Scratch -> Prop)
    (F : Abort -> Prop) (m : Run Scratch A) : Prop :=
  forall s, I s ->
    match m s with
    | Done _ s' => I s'
    | Aborted why s' => I s' /\ F why
    end.

(** An assignment that leaves alone what the passes produce. *)
Definition quiet {Scratch : Type}
    (f : CompilationUnit Scratch -> CompilationUnit Scratch) : Prop :=
  forall u,
    first_lir_insn (f u) = first_lir_insn u
    /\ code_buffer (f u) = code_buffer u
    /\ frame_size (f u) = frame_size u
    /\ core_spill_mask (f u) = core_spill_mask u
    /\ fp_spill_mask (f u) = fp_spill_mask u.

(** The callees of each block. *)
Definition in_build_mir (c : Callee) : bool :=
  match c with
  | MIRGraph_new | EnableOpcodeCounting | InlineMethod _ _ _ _ _ _ _
  | CodeLayout | VerifyDataflow | SSATransformation | PropagateConstants
  | MethodUseCount | NullCheckElimination | BasicBlockCombine
  | BasicBlockOptimization | DumpCheckStats | BuildRegLocations => true
  | _ => false
  end.

Definition is_InitCodegen (c : Callee) : bool :=
  match c with
  | InitArmCodegen | InitMipsCodegen | InitX86Codegen => true
  | _ => false
  end.

Definition in_allocate_registers (c : Callee) : bool :=
  match c with
  | CompilerInitGrowableList _ _ _ | CompilerInitializeRegAlloc
  | SimpleRegAlloc => true
  | _ => false
  end.

Definition is_MethodMIR2Bitcode (c : Callee) : bool :=
  match c with MethodMIR2Bitcode => true | _ => false end.

Definition is_ArenaReset (c : Callee) : bool :=
  match c with ArenaReset => true | _ => false end.

Definition in_codegen (c : Callee) : bool :=
  is_MethodMIR2Bitcode c || is_ArenaReset c || is_InitCodegen c
  || in_allocate_registers c || is_lowering c.

Definition in_assemble (c : Callee) : bool :=
  match c with
  | ProcessSwitchTables | AssembleLIR | CodegenDump | ShowOpcodeStats => true
  | _ => false
  end.

Definition in_package (c : Callee) : bool :=
  match c with
  | DumpMemStats | ArenaReset => true
  | _ => false
  end.

(** The targets the driver has a code generator for. *)
Definition is_known_target (t : InstructionSet) : bool :=
  match t with
  | kThumb2 | kMips | kX86 => true
  | kOtherInstructionSet _ => false
  end.

(** ** The net effect of the flag blocks on the unit *)

Section NetEffect.

Variable Scratch : Type.
Variable B : Build.
Variable E : Extern Scratch.
Variable G : Globals.

(** The unit after lines 129-144, when the target check lets it by. *)
Definition after_setup (compiler : CompilerDriver)
    (backend : CompilerBackend) (code_item : CodeItem)
    (llvm_unit : LlvmCompilationUnit) (u : CompilationUnit Scratch)
  : CompilationUnit Scratch :=
  set_num_dalvik_registers (registers_size_ code_item)
    ((if ART_USE_PORTABLE_COMPILER B then
        fun u' =>
          set_symbol (GetSymbol llvm_unit)
            (set_llvm_info (Some (GetQuickContext llvm_unit))
               (set_llvm_compilation_unit (Some llvm_unit) u'))
      else fun u' => u')
       (set_gen_bitcode (CompilerBackend_eqb backend kPortable)
          (set_instruction_set (GetInstructionSet compiler)
             (set_class_linker (Some (Runtime_GetClassLinker E))
                (set_compiler_driver (Some compiler) u))))).

(** The unit after lines 146-156. *)
Definition filtered (method_idx : Z) (dex_file : DexFile)
    (u : CompilationUnit Scratch) : CompilationUnit Scratch :=
  if string_empty (compiler_method_match u)
     || string_find (compiler_method_match u)
                    (PrettyMethod E method_idx dex_file)
  then
    set_verbose
      (VLOG_IS_ON_compiler G
       || has_flag (kCompilerDebugFlags G) (debug_pos B kDebugVerbose))
      (set_enable_debug (kCompilerDebugFlags G)
         (set_disable_opt (kCompilerOptimizerDisableFlags G)
            (set_compiler_flip_match false u)))
  else set_compiler_flip_match false u.

(** The unit after lines 158-161. *)
Definition verified (u : CompilationUnit Scratch) : CompilationUnit Scratch :=
  if kIsDebugBuild B && gen_bitcode u then
    set_enable_debug
      (u32 (Z.lor (enable_debug u)
                  (Z.shiftl 1 (debug_pos B kDebugVerifyBitcode)))) u
  else u.

(** The unit after lines 163-176. *)
Definition mips_applied (u : CompilationUnit Scratch) : CompilationUnit Scratch :=
  if InstructionSet_eqb (instruction_set u) kMips then
    set_disable_opt (u32 (Z.lor (disable_opt u) (mips_disable_opt B))) u
  else u.

Definition resolved (method_idx : Z) (dex_file : DexFile)
    (u : CompilationUnit Scratch) : CompilationUnit Scratch :=
  mips_applied (verified (filtered method_idx dex_file u)).

End NetEffect.

Arguments after_setup {Scratch}.
Arguments filtered {Scratch}.
Arguments verified {Scratch}.
Arguments mips_applied {Scratch}.
Arguments resolved {Scratch}.

(** ** Two units that differ in diagnostics only *)

(** The debug bits that only switch a report on. *)
Definition observer_flag (d : debug_control_vector) : bool :=
  match d with
  | kDebugVerbose | kDebugVerifyDataflow | kDebugShowMemoryUsage
  | kDebugCountOpcodes | kDebugDumpCheckStats => true
  | _ => false
  end.

(** Two debug words that agree on every bit that is not one of those. *)
Definition same_but_observers (B : Build) (x y : Z) : Prop :=
  forall n, 0 <= n ->
    (forall d, observer_flag d = true -> n <> debug_pos B d) ->
    Z.testbit x n = Z.testbit y n.

Section Alike.

Variable Scratch : Type.
Variable B : Build.

(** When two states of the passes' own data count as the same. *)
Variable Rs : Scratch -> Scratch -> Prop.

(** Modelled from the spec: the reports are purely observational; two
    units are [alike] when they agree on every member but [verbose] and
    the observer bits of [enable_debug], and their scratch parts are
    related. *)
Record alike (a b : CompilationUnit Scratch) : Prop := {
  alike_compiler_driver : compiler_driver a = compiler_driver b;
  alike_class_linker : class_linker a = class_linker b;
  alike_instruction_set : instruction_set a = instruction_set b;
  alike_gen_bitcode : gen_bitcode a = gen_bitcode b;
  alike_llvm_compilation_unit :
    llvm_compilation_unit a = llvm_compilation_unit b;
  alike_llvm_info : llvm_info a = llvm_info b;
  alike_symbol : symbol a = symbol b;
  alike_num_dalvik_registers :
    num_dalvik_registers a = num_dalvik_registers b;
  alike_compiler_flip_match : compiler_flip_match a = compiler_flip_match b;
  alike_compiler_method_match :
    compiler_method_match a = compiler_method_match b;
  alike_disable_opt : disable_opt a = disable_opt b;
  alike_enable_debug : same_but_observers B (enable_debug a) (enable_debug b);
  alike_attributes : attributes a = attributes b;
  alike_first_lir_insn : first_lir_insn a = first_lir_insn b;
  alike_core_vmap_table : core_vmap_table a = core_vmap_table b;
  alike_fp_vmap_table : fp_vmap_table a = fp_vmap_table b;
  alike_frame_size : frame_size a = frame_size b;
  alike_core_spill_mask : core_spill_mask a = core_spill_mask b;
  alike_fp_spill_mask : fp_spill_mask a = fp_spill_mask b;
  alike_code_buffer : code_buffer a = code_buffer b;
  alike_combined_mapping_table :
    combined_mapping_table a = combined_mapping_table b;
  alike_native_gc_map : native_gc_map a = native_gc_map b;
  alike_scratch : Rs (scratch a) (scratch b)
}.

(** Two runs, from states related by [P], end the same way: both
    abort, or both return, with results related by [Q] and units
    [alike]. *)
Definition related {A : Type} (P : Session Scratch -> Session Scratch -> Prop)
    (Q : A -> A -> Prop) (m1 m2 : Run Scratch A) : Prop :=
  forall s1 s2, P s1 s2 ->
    match m1 s1, m2 s2 with
    | Done a1 t1, Done a2 t2 => Q a1 a2 /\ alike (cu t1) (cu t2)
    | Aborted _ _, Aborted _ _ => True
    | _, _ => False
    end.

Definition alike_states (s1 s2 : Session Scratch) : Prop :=
  alike (cu s1) (cu s2).

End Alike.

Arguments alike {Scratch}.
Arguments related {Scratch} B Rs {A}.
Arguments alike_states {Scratch}.

(** ** States of a compile, as the statements below describe them *)

(** The reasons the driver itself aborts for. *)
Definition driver_abort (B : Build) (why : Abort) : Prop :=
  match why with
  | LogFatal msg =>
      msg = "Failed to initialize compiler heap"%string
      \/ msg = "Unexpected instruction set"%string
  | DCheckFailed _ => kEnableDChecks B = true
  end.

(** The calls of lines 178-222 that are not reports. *)
Definition mir_passes (code_item : CodeItem)
    (access_flags invoke_type class_def_idx method_idx : Z)
    (class_loader : jobject) (dex_file : DexFile) : list Callee :=
  [MIRGraph_new;
   InlineMethod code_item access_flags invoke_type class_def_idx method_idx
                class_loader dex_file;
   CodeLayout; SSATransformation; PropagateConstants; MethodUseCount;
   NullCheckElimination; BasicBlockCombine; BasicBlockOptimization;
   BuildRegLocations].

Definition passes_only (log : list Callee) : list Callee :=
  filter (fun c => negb (is_observer c)) log.

Section SessionPredicates.

Variable Scratch : Type.

(** Which of the two calls the log holds. *)
Definition counted (enabled shown : bool) (s : Session Scratch) : Prop :=
  existsb is_EnableOpcodeCounting (calls s) = enabled
  /\ existsb is_ShowOpcodeStats (calls s) = shown.

(** Nothing produced and the assembler not called. *)
Definition blank (s : Session Scratch) : Prop :=
  (code_buffer (cu s) = []
   /\ frame_size (cu s) = 0
   /\ core_spill_mask (cu s) = 0
   /\ fp_spill_mask (cu s) = 0)
  /\ count_calls is_ProcessSwitchTables (calls s) = 0%nat
  /\ count_calls is_AssembleLIR (calls s) = 0%nat.

(** No lowered instruction and no lowering call yet. *)
Definition unlowered (s : Session Scratch) : Prop :=
  first_lir_insn (cu s) = None
  /\ count_calls is_SpecialMIR2LIR (calls s) = 0%nat
  /\ count_calls is_MethodMIR2LIR (calls s) = 0%nat.

(** The same before a code generator is chosen. *)
Definition unselected (s : Session Scratch) : Prop :=
  unlowered s /\ existsb is_InitCodegen (calls s) = false.

(** The special-case handler never called, and generic lowering called
    once if a code generator was chosen. *)
Definition lowered_once (s : Session Scratch) : Prop :=
  count_calls is_SpecialMIR2LIR (calls s) = 0%nat
  /\ (existsb is_InitCodegen (calls s) = true ->
      count_calls is_MethodMIR2LIR (calls s) = 1%nat).

(** A code generator has been chosen. *)
Definition selected (s : Session Scratch) : Prop :=
  existsb is_InitCodegen (calls s) = true.

End SessionPredicates.

Arguments counted {Scratch}.
Arguments blank {Scratch}.
Arguments unlowered {Scratch}.
Arguments unselected {Scratch}.
Arguments lowered_once {Scratch}.
Arguments selected {Scratch}.

(** ** States and settings of the examples *)

(** The state the merge of the example starts from. *)
Definition example_session : Session ToyScratch :=
  {| cu := toy_assemble toy_asm (toy_unit ""); calls := [] |}.

(** The state an assembler leaves that reports a saved register and no
    frame. *)
Definition inconsistent_session : Session ToyScratch :=
  {| cu := toy_assemble toy_asm_inconsistent (toy_unit ""); calls := [] |}.

(** A unit configured with a filter and with the inversion flag set. *)
Definition inverted_session : Session ToyScratch :=
  {| cu := set_compiler_flip_match true (toy_unit "Main"); calls := [] |}.

(** In the toy world two scratch parts count as the same when they hold
    the same MIR, whatever was reported. *)
Definition toy_same_ir (x y : ToyScratch) : Prop := ir_size x = ir_size y.

(** The debug word with every observer bit set and no other. *)
Definition all_observer_bits (B : Build) : Z :=
  Z.lor (Z.shiftl 1 (debug_pos B kDebugVerbose))
  (Z.lor (Z.shiftl 1 (debug_pos B kDebugVerifyDataflow))
  (Z.lor (Z.shiftl 1 (debug_pos B kDebugShowMemoryUsage))
  (Z.lor (Z.shiftl 1 (debug_pos B kDebugCountOpcodes))
         (Z.shiftl 1 (debug_pos B kDebugDumpCheckStats))))).

(** Every report switched on, and verbose logging too. *)
Definition toy_all_reports : Globals :=
  {| kCompilerOptimizerDisableFlags := 1;
     kCompilerDebugFlags := all_observer_bits (toy_build false true 16);
     VLOG_IS_ON_compiler := true |}.

(** ** The calls of the quick path, in the order of lines 237-275 *)

(** The code generator the switch at lines 237-246 installs. *)
Definition init_for (t : InstructionSet) : option Callee :=
  match t with
  | kThumb2 => Some InitArmCodegen
  | kMips => Some InitMipsCodegen
  | kX86 => Some InitX86Codegen
  | kOtherInstructionSet _ => None
  end.

(** The calls of lines 250-275. *)
Definition alloc_calls (code_item : CodeItem) : list Callee :=
  [CompilerInitGrowableList switch_tables 4 kListSwitchTables;
   CompilerInitGrowableList fill_array_data 4 kListFillArrayData;
   CompilerInitGrowableList throw_launchpads
     (insns_size_in_code_units_ code_item) kListThrowLaunchPads;
   CompilerInitGrowableList intrinsic_launchpads 4 kListMisc;
   CompilerInitGrowableList suspend_launchpads 2048 kListSuspendLaunchPads;
   CompilerInitializeRegAlloc;
   SimpleRegAlloc].

(** A call made only when its test holds. *)
Definition opt_call (b : bool) (c : Callee) : list Callee :=
  if b then [c] else [].

(** The calls of lines 178-222, given the outcome of the three tests. *)
Definition build_mir_calls (count verify stats : bool) (code_item : CodeItem)
    (access_flags invoke_type class_def_idx method_idx : Z)
    (class_loader : jobject) (dex_file : DexFile) : list Callee :=
  [MIRGraph_new]
  ++ opt_call count EnableOpcodeCounting
  ++ [InlineMethod code_item access_flags invoke_type class_def_idx
                   method_idx class_loader dex_file;
      CodeLayout]
  ++ opt_call verify VerifyDataflow
  ++ [SSATransformation; PropagateConstants; MethodUseCount;
      NullCheckElimination; BasicBlockCombine; BasicBlockOptimization]
  ++ opt_call stats DumpCheckStats
  ++ [BuildRegLocations].

(** The calls of lines 277-289. *)
Definition lowering_calls (special_case : SpecialCaseHandler)
    (generic : bool) : list Callee :=
  opt_call (negb (SpecialCaseHandler_eqb special_case kNoHandler))
           (SpecialMIR2LIR special_case)
  ++ opt_call generic MethodMIR2LIR.

(** The calls of lines 292-309. *)
Definition assemble_calls (assembling dump stats : bool) : list Callee :=
  (if assembling
   then [ProcessSwitchTables; AssembleLIR] ++ opt_call dump CodegenDump
   else [])
  ++ opt_call stats ShowOpcodeStats.

(** The test at line 301, on the unit lines 292-305 start from: whether
    [verbose] is set once the code is assembled. *)
Definition dumps {Scratch : Type} (E : Extern Scratch)
    (u : CompilationUnit Scratch) : bool :=
  verbose (call E AssembleLIR (call E ProcessSwitchTables u)).

(** The calls of lines 339-345. *)
Definition package_calls (mem : bool) : list Callee :=
  opt_call mem DumpMemStats ++ [ArenaReset].

Definition is_some {A : Type} (o : option A) : bool :=
  match o with Some _ => true | None => false end.

Definition is_DumpMemStats (c : Callee) : bool :=
  match c with DumpMemStats => true | _ => false end.

(** The calls of the code generators among a log. *)
Definition init_calls (log : list Callee) : list Callee :=
  filter is_InitCodegen log.

(** A log without a call of [ArenaReset]. *)
Definition no_reset (log : list Callee) : Prop :=
  count_calls is_ArenaReset log = 0%nat.

(** A log without a call of the two assembly steps. *)
Definition no_assembly (log : list Callee) : Prop :=
  count_calls is_ProcessSwitchTables log = 0%nat
  /\ count_calls is_AssembleLIR log = 0%nat.

(** ** The quick compiler context: lines 32-71

    The process-wide once flag, the LLVM calls made so far, and the
    context slot of the compiler driver. *)

Inductive LlvmCall :=
| llvm_start_multithreaded
| new_LLVMContext
| new_Module (name : string)
| StructType_create (name : string)
| makeLLVMModuleContents
| new_IntrinsicHelper
| new_IRBuilder.

Definition is_start_multithreaded (c : LlvmCall) : bool :=
  match c with llvm_start_multithreaded => true | _ => false end.

Definition is_new_LLVMContext (c : LlvmCall) : bool :=
  match c with new_LLVMContext => true | _ => false end.

(** An [LLVMInfo] object, told apart by how many were made before it. *)
Record LLVMInfo := {
  llvm_serial : nat
}.

Record Process := {
  (** [llvm_multi_init]: whether the once routine has run *)
  llvm_multi_init : bool;
  llvm_calls : list LlvmCall;
  (** what [compiler.GetCompilerContext()] returns; [None] is [NULL] *)
  compiler_context : option LLVMInfo
}.

Definition llvm_call (c : LlvmCall) : Step Process unit :=
  fun p => Done tt {| llvm_multi_init := llvm_multi_init p;
                      llvm_calls := llvm_calls p ++ [c];
                      compiler_context := compiler_context p |}.

(** Lines 36-38. *)
Definition InitializeLLVMForQuick : Step Process unit :=
  llvm_call llvm_start_multithreaded.

(** [pthread_once(&llvm_multi_init, routine)]. *)
Definition pthread_once_llvm_multi_init (routine : Step Process unit)
  : Step Process unit :=
  fun p =>
    if llvm_multi_init p then Done tt p
    else
      bind routine
        (fun _ p' => Done tt {| llvm_multi_init := true;
                                llvm_calls := llvm_calls p';
                                compiler_context := compiler_context p' |})
        p.

(** Lines 46-57: [LLVMInfo::LLVMInfo()]. *)
Definition LLVMInfo_new (B : Build) : Step Process LLVMInfo :=
  when (negb (ART_USE_PORTABLE_COMPILER B))
    (pthread_once_llvm_multi_init InitializeLLVMForQuick) ;;
  p <- (fun p => Done p p) ;;
  llvm_call new_LLVMContext ;;
  llvm_call (new_Module "art") ;;
  llvm_call (StructType_create "JavaObject") ;;
  llvm_call makeLLVMModuleContents ;;
  llvm_call new_IntrinsicHelper ;;
  llvm_call new_IRBuilder ;;
  ret {| llvm_serial :=
           List.length (filter is_new_LLVMContext (llvm_calls p)) |}.

Definition SetCompilerContext (ctx : option LLVMInfo) : Step Process unit :=
  fun p => Done tt {| llvm_multi_init := llvm_multi_init p;
                      llvm_calls := llvm_calls p;
                      compiler_context := ctx |}.

(** [CHECK(cond)]: compiled into every build, fatal when it fails. *)
Definition CHECK {S : Type} (cond : bool) (what : string) : Step S unit :=
  if cond then ret tt else abort (LogFatal what).

(** Lines 62-66. *)
Definition ArtInitQuickCompilerContext (B : Build) : Step Process unit :=
  ctx <- (fun p => Done (compiler_context p) p) ;;
  CHECK (match ctx with None => true | Some _ => false end)
        "Check failed: compiler.GetCompilerContext() == NULL" ;;
  llvm_info <- LLVMInfo_new B ;;
  SetCompilerContext (Some llvm_info).

(** Lines 68-71; the destructor of [LLVMInfo] (lines 59-60) is empty. *)
Definition ArtUnInitQuickCompilerContext : Step Process unit :=
  SetCompilerContext None.

(** What a driver may do with the context, and a sequence of it, ended
    by the first abort. *)
Inductive ContextOp := InitContext | UnInitContext.

Definition context_op (B : Build) (op : ContextOp) : Step Process unit :=
  match op with
  | InitContext => ArtInitQuickCompilerContext B
  | UnInitContext => ArtUnInitQuickCompilerContext
  end.

Fixpoint context_ops (B : Build) (ops : list ContextOp) : Step Process unit :=
  match ops with
  | [] => ret tt
  | op :: rest => context_op B op ;; context_ops B rest
  end.

(** Whether a sequence of context operations keeps to the protocol
    [CHECK] at line 63 enforces: no initialisation while a context is
    installed.  [installed] tells whether one is at the start. *)
Fixpoint ops_ok (installed : bool) (ops : list ContextOp) : bool :=
  match ops with
  | [] => true
  | InitContext :: rest => negb installed && ops_ok true rest
  | UnInitContext :: rest => ops_ok false rest
  end.

Definition has_context (p : Process) : bool :=
  match compiler_context p with Some _ => true | None => false end.

Definition completed {S A : Type} (o : Outcome S A) : bool :=
  match o with Done _ _ => true | Aborted _ _ => false end.

(** How often [llvm_start_multithreaded] has been called, and how many
    LLVM contexts have been made. *)
Definition started (p : Process) : nat :=
  List.length (filter is_start_multithreaded (llvm_calls p)).

Definition contexts_made (p : Process) : nat :=
  List.length (filter is_new_LLVMContext (llvm_calls p)).

(** A process in which nothing of this file has run. *)
Definition process_start : Process :=
  {| llvm_multi_init := false; llvm_calls := []; compiler_context := None |}.

(** ** The filter test as the specification words it

    The override flags are applied if no filter is configured or
    [match] holds, where [match] is substring-found xor invert-flag. *)
Definition spec_applies_overrides (filter : string) (invert : bool)
    (name : string) : bool :=
  string_empty filter || xorb (string_find filter name) invert.

(** ** The merge as the specification words it

    The core keys in ascending order, each reduced to its low
    [VREG_NUM_WIDTH] bits; one marker if there is a frame; the
    floating-point entries as they are. *)
Definition spec_vmap_table (B : Build) (core fp : list Z) (frame : Z) : list Z :=
  map (fun key => key mod 2 ^ VREG_NUM_WIDTH B) (std_sort core)
  ++ (if 0 <? frame then [INVALID_VREG B] else [])
  ++ fp.

(** * Facts *)

#[global] Arguments u32 : simpl never.
#[global] Arguments u16 : simpl never.
#[global] Arguments has_flag : simpl never.
#[global] Arguments popcount : simpl never.
#[global] Arguments mips_disable_opt : simpl never.
#[global] Arguments vreg_mask : simpl never.
#[global] Arguments string_find : simpl never.
#[global] Arguments std_sort : simpl never.

(** ** Sorting *)

Lemma insert_sorted_perm (k : Z) (l : list Z) :
  Permutation (k :: l) (insert_sorted k l).
Proof.
  induction l as [|h t IH]; simpl.
  - apply Permutation_refl.
  - destruct (k <=? h).
    + apply Permutation_refl.
    + eapply perm_trans; [apply perm_swap|].
      apply perm_skip, IH.
Qed.

Lemma std_sort_perm (l : list Z) : Permutation l (std_sort l).
Proof.
  induction l as [|h t IH]; simpl.
  - constructor.
  - eapply perm_trans; [apply perm_skip, IH|].
    apply insert_sorted_perm.
Qed.

Lemma insert_sorted_hd (k x : Z) (l : list Z) :
  x <= k -> HdRel Z.le x l -> HdRel Z.le x (insert_sorted k l).
Proof.
  intros Hxk Hl. destruct l as [|h t]; simpl.
  - constructor. exact Hxk.
  - destruct (k <=? h); constructor; trivial.
    inversion Hl; assumption.
Qed.

Lemma insert_sorted_sorted (k : Z) (l : list Z) :
  Sorted Z.le l -> Sorted Z.le (insert_sorted k l).
Proof.
  induction 1 as [|h t Ht IH Hhd]; simpl.
  - repeat constructor.
  - destruct (Z.leb_spec k h) as [Hle|Hgt].
    + constructor; [constructor; assumption|constructor; exact Hle].
    + constructor; [exact IH|].
      apply insert_sorted_hd; [lia|exact Hhd].
Qed.

Lemma std_sort_sorted (l : list Z) : Sorted Z.le (std_sort l).
Proof.
  induction l as [|h t IH]; simpl.
  - constructor.
  - apply insert_sorted_sorted, IH.
Qed.

(** A sorted list of integers is fixed by its elements, so any sorting
    routine gives the list [std_sort] gives. *)
Lemma sorted_perm_unique (l1 l2 : list Z) :
  Sorted Z.le l1 -> Sorted Z.le l2 -> Permutation l1 l2 -> l1 = l2.
Proof.
  intros S1 S2.
  apply Sorted_StronglySorted in S1; [|intros x y z; apply Z.le_trans].
  apply Sorted_StronglySorted in S2; [|intros x y z; apply Z.le_trans].
  revert l2 S2.
  induction S1 as [|a l1 S1 IH Ha]; intros l2 S2 P.
  - apply Permutation_nil in P. now subst.
  - destruct l2 as [|b l2].
    + apply Permutation_sym, Permutation_nil in P. discriminate.
    + inversion S2 as [|b' l2' S2' Hb]; subst.
      assert (a = b).
      { assert (Ia : In a (b :: l2))
          by (eapply Permutation_in; [exact P|left; reflexivity]).
        assert (Ib : In b (a :: l1))
          by (eapply Permutation_in;
              [apply Permutation_sym; exact P|left; reflexivity]).
        destruct Ia as [->|Ia]; [reflexivity|].
        destruct Ib as [->|Ib]; [reflexivity|].
        rewrite Forall_forall in Ha, Hb.
        specialize (Ha _ Ib). specialize (Hb _ Ia). lia. }
      subst b. f_equal. apply IH; [assumption|].
      eapply Permutation_cons_inv; exact P.
Qed.

(** ** Words *)

Lemma not_shift_ones (n : Z) :
  0 <= n -> Z.lnot (Z.shiftl (-1) n) = Z.ones n.
Proof.
  intros Hn. apply Z.bits_inj'. intros i Hi.
  rewrite Z.lnot_spec, Z.shiftl_spec, Z.testbit_ones_nonneg by lia.
  destruct (Z.ltb_spec i n).
  - rewrite Z.testbit_neg_r by lia. reflexivity.
  - rewrite Z.bits_m1 by lia. reflexivity.
Qed.

Lemma u16_small (z : Z) : 0 <= z < 2 ^ 16 -> u16 z = z.
Proof. intros H. unfold u16. apply Z.mod_small. exact H. Qed.

Lemma u16_low_bits (n key : Z) :
  0 <= n <= 16 -> u16 (key mod 2 ^ n) = key mod 2 ^ n.
Proof.
  intros Hn. apply u16_small.
  assert (0 < 2 ^ n) by (apply Z.pow_pos_nonneg; lia).
  assert (2 ^ n <= 2 ^ 16) by (apply Z.pow_le_mono_r; lia).
  pose proof (Z.mod_pos_bound key (2 ^ n)). lia.
Qed.

Lemma map_u16_small (l : list Z) :
  Forall (fun v => 0 <= v < 2 ^ 16) l -> map u16 l = l.
Proof.
  induction 1 as [|v l Hv _ IH]; simpl.
  - reflexivity.
  - now rewrite u16_small, IH.
Qed.

Lemma has_flag_testbit (w k : Z) :
  0 <= k -> has_flag w k = Z.testbit w k.
Proof.
  intros Hk. unfold has_flag.
  rewrite Z.shiftl_1_l.
  destruct (Z.testbit w k) eqn:Hb.
  - apply negb_true_iff, Z.eqb_neq. intros H0.
    assert (Hbit : Z.testbit (Z.land w (2 ^ k)) k = true)
      by (rewrite Z.land_spec, Hb, Z.pow2_bits_true by lia; reflexivity).
    rewrite H0, Z.bits_0 in Hbit. discriminate.
  - apply negb_false_iff, Z.eqb_eq. apply Z.bits_inj'. intros i Hi.
    rewrite Z.land_spec, Z.bits_0, Z.pow2_bits_eqb by lia.
    destruct (Z.eqb_spec k i) as [->|]; [rewrite Hb|];
      now rewrite ?andb_false_r.
Qed.

(** ** The vmap table *)

Section VmapTable.

Variable Scratch : Type.
Variable B : Build.

Lemma masked_entry (key : Z) :
  0 <= VREG_NUM_WIDTH B <= 16 ->
  u16 (Z.land (vreg_mask B) key) = key mod 2 ^ VREG_NUM_WIDTH B.
Proof.
  intros HN. unfold vreg_mask.
  rewrite not_shift_ones, Z.land_comm, Z.land_ones by lia.
  apply u16_low_bits, HN.
Qed.

Lemma combine_vmap_tables_frame (s : Session Scratch) :
  0 < frame_size (cu s) ->
  returned (combine_vmap_tables B s)
  = Some (map (fun key => u16 (Z.land (vreg_mask B) key))
              (std_sort (core_vmap_table (cu s)))
          ++ [u16 (INVALID_VREG B)]
          ++ map u16 (fp_vmap_table (cu s))).
Proof.
  intros Hf. unfold combine_vmap_tables, bind, assign, get_cu, ret. simpl.
  apply Z.ltb_lt in Hf. rewrite Hf. simpl.
  now rewrite <- app_assoc.
Qed.

Lemma combine_vmap_tables_no_frame (s : Session Scratch) (t : list Z) :
  frame_size (cu s) <= 0 ->
  returned (combine_vmap_tables B s) = Some t ->
  t = map (fun key => u16 (Z.land (vreg_mask B) key))
          (std_sort (core_vmap_table (cu s)))
      ++ map u16 (fp_vmap_table (cu s)).
Proof.
  intros Hf. unfold combine_vmap_tables, bind, assign, get_cu, ret. simpl.
  destruct (Z.ltb_spec 0 (frame_size (cu s))) as [|_]; [lia|].
  unfold DCHECK_EQ, DCHECK, bind, ret, abort.
  destruct (kEnableDChecks B); simpl.
  - destruct (popcount (core_spill_mask (cu s)) =? 0); simpl;
      [|discriminate].
    destruct (popcount (fp_spill_mask (cu s)) =? 0); simpl;
      [|discriminate].
    congruence.
  - congruence.
Qed.

(** The two checks of the frameless branch. *)
Lemma combine_vmap_tables_checked (s : Session Scratch) :
  kEnableDChecks B = true ->
  frame_size (cu s) <= 0 ->
  popcount (core_spill_mask (cu s)) <> 0
  \/ popcount (fp_spill_mask (cu s)) <> 0 ->
  exists what s', combine_vmap_tables B s = Aborted (DCheckFailed what) s'.
Proof.
  intros HD Hf Hm.
  unfold combine_vmap_tables, bind, assign, get_cu, ret. simpl.
  destruct (Z.ltb_spec 0 (frame_size (cu s))) as [|_]; [lia|].
  unfold DCHECK_EQ, DCHECK, bind, ret, abort. rewrite HD. simpl.
  destruct (Z.eqb_spec (popcount (core_spill_mask (cu s))) 0) as [Hc|Hc];
    simpl; [|eauto].
  destruct (Z.eqb_spec (popcount (fp_spill_mask (cu s))) 0) as [Hp|Hp];
    simpl; [|eauto].
  destruct Hm; contradiction.
Qed.

Lemma combine_vmap_tables_unchecked (s : Session Scratch) :
  kEnableDChecks B = false ->
  frame_size (cu s) <= 0 ->
  returned (combine_vmap_tables B s)
  = Some (map (fun key => u16 (Z.land (vreg_mask B) key))
              (std_sort (core_vmap_table (cu s)))
          ++ map u16 (fp_vmap_table (cu s))).
Proof.
  intros HD Hf.
  unfold combine_vmap_tables, bind, assign, get_cu, ret. simpl.
  destruct (Z.ltb_spec 0 (frame_size (cu s))) as [|_]; [lia|].
  unfold DCHECK_EQ, DCHECK, bind, ret. rewrite HD. reflexivity.
Qed.

End VmapTable.

Lemma popcount_pos_positive (p : positive) : 0 < popcount_pos p.
Proof. induction p; cbn [popcount_pos]; lia. Qed.

(** No bit counted means no bit set in the 32-bit word. *)
Lemma popcount_zero (w : Z) : popcount w = 0 <-> u32 w = 0.
Proof.
  unfold popcount.
  assert (0 <= u32 w) by (unfold u32; apply Z.mod_pos_bound; lia).
  destruct (u32 w) as [|p|p]; try lia.
  pose proof (popcount_pos_positive p). split; [lia|discriminate].
Qed.

(** C1 (amended).  The combined vmap table is the core keys sorted
    ascending by raw key and reduced to their low [VREG_NUM_WIDTH] bits,
    then one [INVALID_VREG] marker if the frame size is positive, then
    the floating-point entries unchanged and in order; this holds for
    every core table, every table of 16-bit fp entries and every frame
    size.  For core keys [0x1003, 0x1001, 0x1002], a 12-bit width, fp
    entries [5, 9] and a positive frame size the table is
    [0x001, 0x002, 0x003, INVALID_VREG, 5, 9]. *)
Theorem vmap_table_merge :
  forall (Scratch : Type) (B : Build) (s : Session Scratch),
    0 <= VREG_NUM_WIDTH B <= 16 ->
    0 <= INVALID_VREG B < 2 ^ 16 ->
    Forall (fun v => 0 <= v < 2 ^ 16) (fp_vmap_table (cu s)) ->
    let core := core_vmap_table (cu s) in
    let fp := fp_vmap_table (cu s) in
    let frame := frame_size (cu s) in
    (Sorted Z.le (std_sort core) /\ Permutation core (std_sort core))
    /\ (forall t, returned (combine_vmap_tables B s) = Some t ->
                  t = spec_vmap_table B core fp frame)
    /\ (0 < frame ->
        returned (combine_vmap_tables B s)
        = Some (spec_vmap_table B core fp frame))
    /\ (core = [4099; 4097; 4098] -> fp = [5; 9] ->
        VREG_NUM_WIDTH B = 12 -> 0 < frame ->
        returned (combine_vmap_tables B s)
        = Some [1; 2; 3; INVALID_VREG B; 5; 9]).
Proof.
  intros Scratch B s HN HI Hfp core fp frame.
  assert (Hmap : map (fun key => u16 (Z.land (vreg_mask B) key)) (std_sort core)
                 = map (fun key => key mod 2 ^ VREG_NUM_WIDTH B) (std_sort core)).
  { apply map_ext. intros key. apply masked_entry, HN. }
  assert (Hframe : 0 < frame ->
            returned (combine_vmap_tables B s)
            = Some (spec_vmap_table B core fp frame)).
  { intros Hf. rewrite combine_vmap_tables_frame by exact Hf.
    fold core fp. rewrite Hmap, u16_small, map_u16_small by assumption.
    unfold spec_vmap_table. apply Z.ltb_lt in Hf. now rewrite Hf. }
  split; [split; [apply std_sort_sorted|apply std_sort_perm]|].
  split; [|split; [exact Hframe|]].
  - intros t Ht. destruct (Z.ltb_spec 0 frame) as [Hf|Hf].
    + rewrite Hframe in Ht by exact Hf. congruence.
    + apply combine_vmap_tables_no_frame in Ht; [|exact Hf].
      fold core fp in Ht. rewrite Hmap, map_u16_small in Ht by assumption.
      unfold spec_vmap_table.
      destruct (Z.ltb_spec 0 frame); [lia|]. exact Ht.
  - intros Hc Hp HW Hf. rewrite (Hframe Hf). unfold spec_vmap_table.
    apply Z.ltb_lt in Hf. rewrite Hf, Hc, Hp, HW. reflexivity.
Qed.

Lemma vmap_table_merge_witness :
  returned (combine_vmap_tables (toy_build false true 12) example_session)
  = Some [1; 2; 3; 65535; 5; 9].
Proof.
  assert (HN : 0 <= VREG_NUM_WIDTH (toy_build false true 12) <= 16)
    by (simpl; lia).
  assert (HI : 0 <= INVALID_VREG (toy_build false true 12) < 2 ^ 16)
    by (simpl; lia).
  assert (Hfp : Forall (fun v => 0 <= v < 2 ^ 16)
                       (fp_vmap_table (cu example_session)))
    by (simpl; repeat constructor; lia).
  assert (Hf : 0 < frame_size (cu example_session)) by (simpl; lia).
  exact (proj2 (proj2 (proj2
    (vmap_table_merge ToyScratch (toy_build false true 12) example_session
       HN HI Hfp))) eq_refl eq_refl eq_refl Hf).
Defined.

(** The order the specification's example gives is not the order the
    code produces: the keys come out sorted. *)
Lemma vmap_table_example_refuted :
  returned (combine_vmap_tables (toy_build false true 12) example_session)
  = Some [1; 2; 3; 65535; 5; 9]
  /\ [1; 2; 3; 65535; 5; 9] <> [3; 1; 2; 65535; 5; 9].
Proof. split; [vm_compute; reflexivity|discriminate]. Qed.

(** C3 (amended).  At metadata assembly with a frame size that is not
    positive: where [DCHECK]s are compiled in, a set bit in the core or
    the fp spill mask aborts the compile with a failed check, so a table
    is only produced when both masks have no set bit; where they are
    compiled out the table is produced unchecked; in every build the
    table produced carries no marker: it is the masked sorted core
    entries followed by the fp entries. *)
Theorem zero_frame_invariant :
  forall (Scratch : Type) (B : Build) (s : Session Scratch),
    frame_size (cu s) <= 0 ->
    let unmarked :=
      map (fun key => u16 (Z.land (vreg_mask B) key))
          (std_sort (core_vmap_table (cu s)))
      ++ map u16 (fp_vmap_table (cu s)) in
    (kEnableDChecks B = true ->
     (popcount (core_spill_mask (cu s)) <> 0
      \/ popcount (fp_spill_mask (cu s)) <> 0 ->
      exists what s',
        combine_vmap_tables B s = Aborted (DCheckFailed what) s')
     /\ (forall t, returned (combine_vmap_tables B s) = Some t ->
                   u32 (core_spill_mask (cu s)) = 0
                   /\ u32 (fp_spill_mask (cu s)) = 0))
    /\ (kEnableDChecks B = false ->
        returned (combine_vmap_tables B s) = Some unmarked)
    /\ (forall t, returned (combine_vmap_tables B s) = Some t ->
                  t = unmarked).
Proof.
  intros Scratch B s Hf unmarked. split; [|split].
  2: { intros HD. now apply combine_vmap_tables_unchecked. }
  - intros HD. split.
    + apply combine_vmap_tables_checked; assumption.
    + intros t Ht.
      destruct (Z.eq_dec (popcount (core_spill_mask (cu s))) 0) as [Hc|Hc].
      * destruct (Z.eq_dec (popcount (fp_spill_mask (cu s))) 0) as [Hp|Hp].
        -- split; apply popcount_zero; assumption.
        -- destruct (combine_vmap_tables_checked Scratch B s HD Hf
                       (or_intror Hp)) as (w & s' & Hab).
           rewrite Hab in Ht. discriminate.
      * destruct (combine_vmap_tables_checked Scratch B s HD Hf
                    (or_introl Hc)) as (w & s' & Hab).
        rewrite Hab in Ht. discriminate.
  - intros t Ht. eapply combine_vmap_tables_no_frame; eassumption.
Qed.

Lemma zero_frame_invariant_witness :
  exists what s',
    combine_vmap_tables (toy_build false true 12) inconsistent_session
    = Aborted (DCheckFailed what) s'.
Proof.
  assert (Hf : frame_size (cu inconsistent_session) <= 0) by (simpl; lia).
  assert (Hm : popcount (core_spill_mask (cu inconsistent_session)) <> 0
               \/ popcount (fp_spill_mask (cu inconsistent_session)) <> 0)
    by (left; vm_compute; discriminate).
  exact (proj1 (proj1
    (zero_frame_invariant ToyScratch (toy_build false true 12)
       inconsistent_session Hf) eq_refl) Hm).
Defined.

(** Without [DCHECK]s the inconsistent state goes through: the compile
    returns an artifact with frame size 0, a set bit in the core spill
    mask, and a table. *)
Lemma zero_frame_unchecked_release :
  returned (toy_compile (toy_build false false 12) toy_asm_inconsistent true ""
              (initial_globals (toy_build false false 12) false)
              kThumb2 kQuick toy_code)
  = Some (Some {| cm_instruction_set := kThumb2;
                  cm_code := [3; 112; 71];
                  cm_frame_size_in_bytes := 0;
                  cm_core_spill_mask := 1;
                  cm_fp_spill_mask := 0;
                  cm_mapping_table := [0; 3];
                  cm_vmap_table := [1; 2; 3; 5; 9];
                  cm_native_gc_map := [] |}).
Proof. vm_compute. reflexivity. Qed.

(** ** Rules for [keeps] *)

Section Keeps.

Variable Scratch : Type.
Variable B : Build.
Variable E : Extern Scratch.
Variable I : Session Scratch -> Prop.
Variable F : Abort -> Prop.

Lemma keeps_ret {A : Type} (a : A) : keeps I F (ret a).
Proof. intros s Hs. exact Hs. Qed.

Lemma keeps_get_cu : keeps I F get_cu.
Proof. intros s Hs. exact Hs. Qed.

Lemma keeps_bind {A C : Type} (m : Run Scratch A) (k : A -> Run Scratch C) :
  keeps I F m -> (forall a, keeps I F (k a)) -> keeps I F (bind m k).
Proof.
  intros Hm Hk s Hs. unfold bind. specialize (Hm s Hs).
  destruct (m s) as [a s'|why s'].
  - apply Hk, Hm.
  - exact Hm.
Qed.

Lemma keeps_when (b : bool) (m : Run Scratch unit) :
  (b = true -> keeps I F m) -> keeps I F (when b m).
Proof.
  intros Hm. destruct b; simpl.
  - apply Hm. reflexivity.
  - apply keeps_ret.
Qed.

Lemma keeps_abort {A : Type} (why : Abort) :
  F why -> keeps I F (@abort (Session Scratch) A why).
Proof. intros Hw s Hs. split; assumption. Qed.

Lemma keeps_DCHECK (cond : bool) (what : string) :
  (kEnableDChecks B = true -> cond = false -> F (DCheckFailed what)) ->
  keeps I F (DCHECK B cond what).
Proof.
  intros Hw s Hs. unfold DCHECK.
  destruct (kEnableDChecks B); [|exact Hs].
  destruct cond; [exact Hs|].
  split; [exact Hs|]. apply Hw; reflexivity.
Qed.

Lemma keeps_invoke (c : Callee) :
  (forall s, I s -> I (called E c s)) -> keeps I F (invoke E c).
Proof. intros Hc s Hs. apply Hc, Hs. Qed.

Lemma keeps_invoke_HeapInit :
  (forall s, I s -> I (called E HeapInit s)) -> keeps I F (invoke_HeapInit E).
Proof. intros Hc s Hs. apply Hc, Hs. Qed.

Lemma keeps_assign (f : CompilationUnit Scratch -> CompilationUnit Scratch) :
  (forall s, I s -> I (assigned f s)) -> keeps I F (assign f).
Proof. intros Hf s Hs. apply Hf, Hs. Qed.

End Keeps.

(** Walks through a block, leaving the calls, the assignments and the
    aborts to the invariant at hand. *)
Ltac keeps_walk :=
  repeat first
    [ apply keeps_ret
    | apply keeps_get_cu
    | apply keeps_bind; [|intros ?]
    | apply keeps_when; intros ?
    | match goal with
      | |- keeps _ _ (if ?b then _ else _) => destruct b eqn:?
      | |- keeps _ _ (match ?x with _ => _ end) => destruct x eqn:?
      end ].

Inductive never : Abort -> Prop := .

(** ** Running the driver symbolically *)

(** Unfolds the blocks and the monad down to the states [assigned] and
    [called] build, then reads members through them. *)
Ltac run_unfold :=
  cbv beta iota zeta delta
    [CompileOneMethod CompileMethod lowered configure emit codegen
     quick_codegen lower special_codegen allocate_registers init_codegen
     build_mir resolve_flags mips_overrides force_verify_bitcode
     apply_method_filter setup_unit assemble combine_vmap_tables package
     bind ret abort when get_cu assign invoke invoke_HeapInit LOG_FATAL
     DCHECK DCHECK_EQ].

Ltac run_read :=
  cbn [cu calls assigned called fresh final_state returned negb andb orb
     compiler_driver class_linker instruction_set gen_bitcode
     llvm_compilation_unit llvm_info symbol num_dalvik_registers
     compiler_flip_match compiler_method_match disable_opt
     enable_debug verbose attributes first_lir_insn core_vmap_table
     fp_vmap_table frame_size core_spill_mask fp_spill_mask
     code_buffer combined_mapping_table native_gc_map scratch
     set_compiler_driver set_class_linker set_instruction_set
     set_gen_bitcode set_llvm_compilation_unit set_llvm_info
     set_symbol set_num_dalvik_registers set_compiler_flip_match
     set_disable_opt set_enable_debug
     set_verbose set_attributes set_first_lir_insn set_core_vmap_table
     set_fp_vmap_table set_frame_size set_core_spill_mask
     set_fp_spill_mask set_code_buffer set_combined_mapping_table
     set_scratch].

Ltac run_driver := run_unfold; run_read.

(** Splits on the tests the run is stuck at, outermost first. *)
Ltac run_split :=
  repeat
    (first
       [ match goal with
         | |- context [if ?b then _ else _] => destruct b eqn:?
         end
       | match goal with
         | |- context [match ?x with Some _ => _ | None => _ end] =>
             destruct x eqn:?
         end ];
     run_driver).

(** ** Flag resolution *)

Section Flags.

Variable Scratch : Type.
Variable B : Build.
Variable E : Extern Scratch.
Variable G : Globals.

Lemma mips_disable_opt_bits (o : opt_control_vector) :
  0 <= opt_pos B o ->
  Z.testbit (mips_disable_opt B) (opt_pos B o) = true.
Proof.
  intros Ho. unfold mips_disable_opt.
  destruct o; rewrite ?Z.lor_spec, ?Z.shiftl_1_l;
    rewrite (Z.pow2_bits_true _ Ho); now rewrite ?orb_true_r.
Qed.

Lemma or_mips_bits (w : Z) (o : opt_control_vector) :
  0 <= opt_pos B o < 32 ->
  Z.testbit (u32 (Z.lor w (mips_disable_opt B))) (opt_pos B o) = true.
Proof.
  intros Ho. unfold u32.
  rewrite Z.mod_pow2_bits_low, Z.lor_spec, mips_disable_opt_bits by lia.
  apply orb_true_r.
Qed.

Lemma bind_run {S A C : Type} (m : Step S A) (k : A -> Step S C)
    (s s1 : S) (a : A) :
  m s = Done a s1 -> bind m k s = k a s1.
Proof. intros H. unfold bind. now rewrite H. Qed.

Variable compiler : CompilerDriver.
Variable backend : CompilerBackend.
Variable code_item : CodeItem.
Variable method_idx : Z.
Variable dex_file : DexFile.
Variable llvm_unit : LlvmCompilationUnit.

Lemma setup_unit_run (s : Session Scratch) :
  (kEnableDChecks B = true ->
   is_known_target (GetInstructionSet compiler) = true) ->
  setup_unit B E compiler backend code_item llvm_unit s
  = Done tt (assigned (after_setup B E compiler backend code_item llvm_unit) s).
Proof.
  intros Hknown. unfold after_setup. run_driver.
  destruct (kEnableDChecks B).
  - specialize (Hknown eq_refl).
    destruct (GetInstructionSet compiler); try discriminate Hknown;
      cbn [InstructionSet_eqb orb]; run_driver;
      destruct (ART_USE_PORTABLE_COMPILER B); reflexivity.
  - run_driver. destruct (ART_USE_PORTABLE_COMPILER B); reflexivity.
Qed.

Lemma apply_method_filter_run (s : Session Scratch) :
  apply_method_filter B E G method_idx dex_file s
  = Done tt (assigned (filtered B E G method_idx dex_file) s).
Proof.
  run_driver. unfold assigned, filtered. run_read.
  destruct (string_empty (compiler_method_match (cu s))); cbn [negb orb andb].
  - reflexivity.
  - destruct (string_find _ _); reflexivity.
Qed.

Lemma force_verify_bitcode_run (s : Session Scratch) :
  force_verify_bitcode B s = Done tt (assigned (verified B) s).
Proof.
  destruct s as [u l]. run_driver. unfold assigned, verified. run_read.
  destruct (kIsDebugBuild B && gen_bitcode u); reflexivity.
Qed.

Lemma mips_overrides_run (s : Session Scratch) :
  mips_overrides B s = Done tt (assigned (mips_applied B) s).
Proof.
  destruct s as [u l]. run_driver. unfold assigned, mips_applied. run_read.
  destruct (InstructionSet_eqb (instruction_set u) kMips); reflexivity.
Qed.

Lemma resolve_flags_run (s : Session Scratch) :
  resolve_flags B E G method_idx dex_file s
  = Done tt (assigned (resolved B E G method_idx dex_file) s).
Proof.
  unfold resolve_flags.
  rewrite (bind_run _ _ _ _ _ (apply_method_filter_run s)).
  rewrite (bind_run _ _ _ _ _ (force_verify_bitcode_run _)).
  rewrite mips_overrides_run. reflexivity.
Qed.

(** With the heap initialised and the target check passed, lines
    122-176 return, having made one call. *)
Lemma configure_run (s : Session Scratch) :
  HeapInit_result E (cu s) = true ->
  (kEnableDChecks B = true ->
   is_known_target (GetInstructionSet compiler) = true) ->
  configure B E G compiler backend code_item method_idx dex_file llvm_unit s
  = Done tt
      (assigned
         (fun u =>
            resolved B E G method_idx dex_file
              (after_setup B E compiler backend code_item llvm_unit u))
         (called E HeapInit s)).
Proof.
  intros Hheap Hknown. unfold configure.
  unfold bind at 1. unfold invoke_HeapInit. rewrite Hheap.
  unfold bind at 1. cbn [negb when ret].
  rewrite (bind_run _ _ _ _ _ (setup_unit_run _ Hknown)).
  rewrite resolve_flags_run. reflexivity.
Qed.

(** What the members set by lines 129-176 hold afterwards. *)
Lemma after_setup_members (u : CompilationUnit Scratch) :
  let u' := after_setup B E compiler backend code_item llvm_unit u in
  gen_bitcode u' = CompilerBackend_eqb backend kPortable
  /\ instruction_set u' = GetInstructionSet compiler
  /\ disable_opt u' = disable_opt u
  /\ compiler_method_match u' = compiler_method_match u.
Proof.
  unfold after_setup.
  destruct (ART_USE_PORTABLE_COMPILER B); repeat split; reflexivity.
Qed.

Lemma resolved_members (u : CompilationUnit Scratch) :
  let u' := resolved B E G method_idx dex_file u in
  gen_bitcode u' = gen_bitcode u
  /\ instruction_set u' = instruction_set u
  /\ disable_opt u'
     = (let general :=
          if string_empty (compiler_method_match u)
             || string_find (compiler_method_match u)
                            (PrettyMethod E method_idx dex_file)
          then kCompilerOptimizerDisableFlags G
          else disable_opt u in
        if InstructionSet_eqb (instruction_set u) kMips
        then u32 (Z.lor general (mips_disable_opt B))
        else general).
Proof.
  unfold resolved, mips_applied, verified, filtered.
  destruct (string_empty (compiler_method_match u)
            || string_find (compiler_method_match u)
                 (PrettyMethod E method_idx dex_file));
    run_read;
    destruct (kIsDebugBuild B && gen_bitcode u); run_read;
    destruct (InstructionSet_eqb (instruction_set u) kMips);
    repeat split; reflexivity.
Qed.

End Flags.

(** C5 (amended).  Lines 146-156 clear the inversion flag before they
    read it, so the flag the unit was configured with has no effect: the
    two default words (and [verbose]) are assigned to the unit exactly
    when no filter is configured or the filter is found in the method's
    display name, which is the specification's test at a cleared
    inversion flag; when a filter is configured and not found,
    [disable_opt], [enable_debug] and [verbose] keep the values they
    had. *)
Theorem method_filter_gates_flags :
  forall (Scratch : Type) (B : Build) (E : Extern Scratch) (G : Globals)
         (method_idx : Z) (dex_file : DexFile) (s : Session Scratch),
    let filter := compiler_method_match (cu s) in
    let name := PrettyMethod E method_idx dex_file in
    let configured := negb (string_empty filter) in
    let found := string_find filter name in
    exists s',
      apply_method_filter B E G method_idx dex_file s = Done tt s'
      /\ (forall invert,
            apply_method_filter B E G method_idx dex_file
              (assigned (set_compiler_flip_match invert) s)
            = Done tt s')
      /\ calls s' = calls s
      /\ compiler_method_match (cu s') = filter
      /\ compiler_flip_match (cu s') = false
      /\ (negb configured || configured && xorb false found
          = spec_applies_overrides filter false name)
      /\ if negb configured || found then
           disable_opt (cu s') = kCompilerOptimizerDisableFlags G
           /\ enable_debug (cu s') = kCompilerDebugFlags G
           /\ verbose (cu s')
              = VLOG_IS_ON_compiler G
                || has_flag (kCompilerDebugFlags G) (debug_pos B kDebugVerbose)
         else
           (configured = true /\ found = false)
           /\ disable_opt (cu s') = disable_opt (cu s)
           /\ enable_debug (cu s') = enable_debug (cu s)
           /\ verbose (cu s') = verbose (cu s).
Proof.
  intros Scratch B E G method_idx dex_file s filter name configured found.
  exists (assigned (filtered B E G method_idx dex_file) s).
  split; [apply apply_method_filter_run|].
  split.
  { intros invert. rewrite apply_method_filter_run.
    unfold assigned, filtered. run_read.
    destruct (string_empty (compiler_method_match (cu s))
              || string_find (compiler_method_match (cu s))
                   (PrettyMethod E method_idx dex_file));
      reflexivity. }
  unfold filtered, spec_applies_overrides. run_read.
  fold filter. fold name. fold found. subst configured.
  destruct (string_empty filter) eqn:He; destruct found eqn:Hf;
    cbn; auto 10.
Qed.

(** With a filter that is found and the inversion flag set, the
    specification's test says the flags are retained; the code has
    cleared the flag and assigns the default word. *)
Lemma method_filter_ignores_invert :
  compiler_flip_match (cu inverted_session) = true
  /\ spec_applies_overrides (compiler_method_match (cu inverted_session))
       (compiler_flip_match (cu inverted_session))
       (PrettyMethod (toy_extern toy_asm true "Main") 42 0)
     = false
  /\ disable_opt (cu inverted_session) = 0
  /\ disable_opt
       (cu (final_state
              (apply_method_filter (toy_build false true 16)
                 (toy_extern toy_asm true "Main")
                 (initial_globals (toy_build false true 16) false)
                 42 0 inverted_session)))
     = 1.
Proof. vm_compute. repeat split. Qed.

(** C6.  For a driver whose target is Mips, flag resolution ends with
    each of the ten listed optimizations disabled: whatever the filter
    step left in [disable_opt] (the default word or the unit's own
    value) is or-ed with the fixed Mips constant. *)
Theorem mips_override_always_applied :
  forall (Scratch : Type) (B : Build) (E : Extern Scratch) (G : Globals)
         (compiler : CompilerDriver) (backend : CompilerBackend)
         (code_item : CodeItem) (method_idx : Z) (dex_file : DexFile)
         (llvm_unit : LlvmCompilationUnit) (s : Session Scratch),
    (forall o, 0 <= opt_pos B o < 32) ->
    GetInstructionSet compiler = kMips ->
    HeapInit_result E (cu s) = true ->
    let u := call E HeapInit (cu s) in
    let passes :=
      string_empty (compiler_method_match u)
      || string_find (compiler_method_match u)
                     (PrettyMethod E method_idx dex_file) in
    exists s',
      configure B E G compiler backend code_item method_idx dex_file
                llvm_unit s = Done tt s'
      /\ disable_opt (cu s')
         = u32 (Z.lor (if passes then kCompilerOptimizerDisableFlags G
                       else disable_opt u)
                      (mips_disable_opt B))
      /\ forall o, In o mips_disabled ->
                   Z.testbit (disable_opt (cu s')) (opt_pos B o) = true.
Proof.
  intros Scratch B E G compiler backend code_item method_idx dex_file
         llvm_unit s Hpos Hmips Hheap u passes.
  assert (Hknown : kEnableDChecks B = true ->
                   is_known_target (GetInstructionSet compiler) = true)
    by (intros _; rewrite Hmips; reflexivity).
  eexists. split; [apply configure_run; assumption|].
  cbn [cu assigned called]. fold u.
  destruct (after_setup_members Scratch B E compiler backend code_item
              llvm_unit u) as (_ & Hi & Hd & Hm).
  destruct (resolved_members Scratch B E G method_idx dex_file
              (after_setup B E compiler backend code_item llvm_unit u))
    as (_ & _ & Hr).
  rewrite Hi, Hmips, Hd, Hm in Hr. cbn [InstructionSet_eqb] in Hr.
  fold passes in Hr. cbv zeta in Hr.
  split; [exact Hr|].
  intros o _. rewrite Hr. apply or_mips_bits, Hpos.
Qed.

Lemma mips_override_always_applied_witness :
  exists s',
    configure (toy_build false true 16) (toy_extern toy_asm true "Other")
      (initial_globals (toy_build false true 16) false)
      (toy_driver kMips kQuick) kQuick toy_code 42 0 toy_llvm_unit
      (fresh (toy_extern toy_asm true "Other"))
    = Done tt s'
    /\ disable_opt (cu s') = 1023
    /\ Z.testbit (disable_opt (cu s')) 4 = true.
Proof.
  destruct (mips_override_always_applied ToyScratch
              (toy_build false true 16) (toy_extern toy_asm true "Other")
              (initial_globals (toy_build false true 16) false)
              (toy_driver kMips kQuick) kQuick toy_code 42 0 toy_llvm_unit
              (fresh (toy_extern toy_asm true "Other")))
    as (s' & Hrun & Hd & Hbits).
  - intros o. destruct o; simpl; lia.
  - reflexivity.
  - reflexivity.
  - exists s'. split; [exact Hrun|]. split.
    + rewrite Hd. reflexivity.
    + apply (Hbits kPromoteRegs). simpl. tauto.
Defined.

(** ** The call log *)

Lemma count_calls_snoc (p : Callee -> bool) (l : list Callee) (c : Callee) :
  count_calls p (l ++ [c])
  = (count_calls p l + (if p c then 1 else 0))%nat.
Proof.
  unfold count_calls. rewrite filter_app, length_app. simpl.
  destruct (p c); reflexivity.
Qed.

Lemma existsb_snoc (p : Callee -> bool) (l : list Callee) (c : Callee) :
  existsb p (l ++ [c]) = existsb p l || p c.
Proof. rewrite existsb_app. simpl. now rewrite orb_false_r. Qed.

(** A run that cannot abort returns. *)
Lemma keeps_never_returns {Scratch A : Type} (I : Session Scratch -> Prop)
    (m : Run Scratch A) (s : Session Scratch) :
  keeps I never m -> I s -> exists a s', m s = Done a s' /\ I s'.
Proof.
  intros Hm Hs. specialize (Hm s Hs).
  destruct (m s) as [a s'|why s'].
  - eauto.
  - destruct Hm as [_ []].
Qed.

Lemma keeps_final {Scratch A : Type} (I : Session Scratch -> Prop)
    (F : Abort -> Prop) (m : Run Scratch A) (s : Session Scratch) :
  keeps I F m -> I s -> I (final_state (m s)).
Proof.
  intros Hm Hs. specialize (Hm s Hs).
  destruct (m s); simpl; tauto.
Qed.

(** Closes what [keeps_walk] leaves, given a tactic for the invariant
    after one call or one assignment and one for the reason of an
    abort. *)
Ltac keeps_with step why :=
  keeps_walk;
  first
    [ apply keeps_invoke; intros ? ?; step
    | apply keeps_invoke_HeapInit; intros ? ?; step
    | apply keeps_assign; intros ? ?; step
    | apply keeps_abort; why
    | apply keeps_DCHECK; intros ? ?; why ].

Ltac unfold_blocks :=
  unfold CompileMethod, lowered, configure, emit, codegen, quick_codegen,
    lower, special_codegen, allocate_registers, init_codegen, build_mir,
    resolve_flags, mips_overrides, force_verify_bitcode,
    apply_method_filter, setup_unit, assemble, combine_vmap_tables,
    package, DCHECK_EQ, LOG_FATAL.

(** ** How a compile splits *)

Section Shape.

Variable Scratch : Type.
Variable B : Build.
Variable E : Extern Scratch.
Variable G : Globals.

Variable compiler : CompilerDriver.
Variable backend : CompilerBackend.
Variable code_item : CodeItem.
Variables access_flags invoke_type class_def_idx method_idx : Z.
Variable class_loader : jobject.
Variable dex_file : DexFile.
Variable llvm_unit : LlvmCompilationUnit.

Let the_lowered : Run Scratch bool :=
  lowered B E G compiler backend code_item access_flags invoke_type
          class_def_idx method_idx class_loader dex_file llvm_unit.

Let the_compile : Run Scratch (option CompiledMethod) :=
  CompileMethod B E G compiler backend code_item access_flags invoke_type
                class_def_idx method_idx class_loader dex_file llvm_unit.

Lemma CompileMethod_cases (s : Session Scratch) :
  (exists why s1,
      the_lowered s = Aborted why s1 /\ the_compile s = Aborted why s1)
  \/ (exists s1, the_lowered s = Done true s1 /\ the_compile s = Done None s1)
  \/ (exists s1,
         the_lowered s = Done false s1 /\ the_compile s = emit B E G s1).
Proof.
  unfold the_compile, CompileMethod, bind. fold the_lowered.
  destruct (the_lowered s) as [[|] s1|why s1]; eauto 6.
Qed.

(** Any invariant of every call and assignment, with any reasons for
    aborting, is kept by the whole compile. *)
Lemma CompileMethod_keeps (I : Session Scratch -> Prop) :
  (forall c s, I s -> I (called E c s)) ->
  (forall f s, I s -> I (assigned f s)) ->
  keeps I (fun _ => True) the_compile.
Proof.
  intros Hc Hf. unfold the_compile. unfold_blocks.
  keeps_with ltac:(auto) ltac:(exact Logic.I).
Qed.

End Shape.

Lemma bind_done {S A C : Type} (m : Step S A) (k : A -> Step S C)
    (s s' : S) (b : C) :
  bind m k s = Done b s' ->
  exists a s1, m s = Done a s1 /\ k a s1 = Done b s'.
Proof.
  unfold bind. destruct (m s) as [a s1|why s1]; [eauto|discriminate].
Qed.

(** ** Invariants, block by block *)

Section Blocks.

Variable Scratch : Type.
Variable B : Build.
Variable E : Extern Scratch.
Variable G : Globals.
Variable I : Session Scratch -> Prop.

Hypothesis I_assigned : forall f s, quiet f -> I s -> I (assigned f s).

Ltac quiet_step :=
  apply I_assigned; [intros ?; repeat split|assumption].

Ltac block_keeps H :=
  unfold_blocks;
  keeps_with ltac:(first [quiet_step | apply H; [reflexivity|assumption]])
             ltac:(exact Logic.I).

Lemma configure_keeps (compiler : CompilerDriver) (backend : CompilerBackend)
    (code_item : CodeItem) (method_idx : Z) (dex_file : DexFile)
    (llvm_unit : LlvmCompilationUnit) :
  (forall s, I s -> I (called E HeapInit s)) ->
  keeps I (fun _ => True)
        (configure B E G compiler backend code_item method_idx dex_file
                   llvm_unit).
Proof.
  intros H. unfold_blocks.
  keeps_with ltac:(first [quiet_step | apply H; assumption])
             ltac:(exact Logic.I).
Qed.

Lemma build_mir_keeps (code_item : CodeItem)
    (access_flags invoke_type class_def_idx method_idx : Z)
    (class_loader : jobject) (dex_file : DexFile) :
  (forall c s, in_build_mir c = true -> I s -> I (called E c s)) ->
  keeps I never
        (build_mir B E G code_item access_flags invoke_type class_def_idx
                   method_idx class_loader dex_file).
Proof. intros H. block_keeps H. Qed.

Lemma allocate_registers_keeps (code_item : CodeItem) :
  (forall c s, in_allocate_registers c = true -> I s -> I (called E c s)) ->
  keeps I never (allocate_registers E code_item).
Proof. intros H. block_keeps H. Qed.

Lemma codegen_keeps (compiler : CompilerDriver) (backend : CompilerBackend)
    (code_item : CodeItem) (special_case : SpecialCaseHandler) :
  (forall c s, in_codegen c = true -> I s -> I (called E c s)) ->
  keeps I (fun _ => True)
        (codegen B E compiler backend code_item special_case).
Proof. intros H. block_keeps H. Qed.

Lemma assemble_keeps :
  (forall c s, in_assemble c = true -> I s -> I (called E c s)) ->
  keeps I never (assemble B E G).
Proof. intros H. block_keeps H. Qed.

Lemma combine_vmap_tables_keeps :
  keeps I (fun _ => True) (combine_vmap_tables B).
Proof.
  unfold_blocks. keeps_with ltac:(quiet_step) ltac:(exact Logic.I).
Qed.

Lemma emit_keeps :
  (forall c s, in_assemble c || in_package c = true -> I s -> I (called E c s)) ->
  keeps I (fun _ => True) (emit B E G).
Proof. intros H. block_keeps H. Qed.

Lemma package_keeps (vmap_table : list Z) :
  (forall c s, in_package c = true -> I s -> I (called E c s)) ->
  keeps I never (package B E vmap_table).
Proof. intros H. block_keeps H. Qed.

End Blocks.

(** ** Opcode counting *)

Section OpcodeCounting.

Variable Scratch : Type.
Variable B : Build.
Variable E : Extern Scratch.
Variable G : Globals.

Let counting : bool :=
  has_flag (kCompilerDebugFlags G) (debug_pos B kDebugCountOpcodes).

Lemma counted_assigned (enabled shown : bool) f (s : Session Scratch) :
  quiet f -> counted enabled shown s -> counted enabled shown (assigned f s).
Proof. intros _ H. exact H. Qed.

Lemma counted_called (enabled shown : bool) (c : Callee) (s : Session Scratch) :
  is_EnableOpcodeCounting c = false ->
  is_ShowOpcodeStats c = false ->
  counted enabled shown s -> counted enabled shown (called E c s).
Proof.
  intros H1 H2 [He Hs]. unfold counted, called. cbn [calls].
  rewrite !existsb_snoc, H1, H2, !orb_false_r. split; assumption.
Qed.

Lemma build_mir_counted (code_item : CodeItem)
    (access_flags invoke_type class_def_idx method_idx : Z)
    (class_loader : jobject) (dex_file : DexFile) (s : Session Scratch) :
  counted false false s ->
  exists s',
    build_mir B E G code_item access_flags invoke_type class_def_idx
              method_idx class_loader dex_file s = Done tt s'
    /\ counted counting false s'.
Proof.
  intros [He Hs]. unfold counted. run_driver. fold counting.
  repeat match goal with
         | |- context [if ?b then _ else _] => destruct b; run_driver
         end;
    eexists; (split; [reflexivity|]); run_read;
    rewrite !existsb_snoc, He, Hs; split; reflexivity.
Qed.

Lemma assemble_counted (s : Session Scratch) :
  counted counting false s ->
  exists s', assemble B E G s = Done tt s' /\ counted counting counting s'.
Proof.
  intros [He Hs]. unfold counted. run_driver. fold counting.
  repeat match goal with
         | |- context [if ?b then _ else _] => destruct b eqn:?; run_driver
         | |- context [match ?x with Some _ => _ | None => _ end] =>
             destruct x eqn:?; run_driver
         end;
    eexists; (split; [reflexivity|]); run_read;
    rewrite ?existsb_snoc, He, Hs; cbn; split; congruence.
Qed.

End OpcodeCounting.

(** C10 (amended).  Both the call that enables opcode counting and the
    call that shows the statistics are guarded by the
    [kDebugCountOpcodes] bit of the file-scope word
    [kCompilerDebugFlags], not by the unit's [enable_debug]: in any
    compile neither is made unless the bit is set, and a compile that
    returns an artifact has made both if the bit is set and neither if
    it is not, whatever the filter and the target. *)
Theorem opcode_counting_guard :
  forall (Scratch : Type) (B : Build) (E : Extern Scratch) (G : Globals)
         (compiler : CompilerDriver) (backend : CompilerBackend)
         (code_item : CodeItem)
         (access_flags invoke_type class_def_idx method_idx : Z)
         (class_loader : jobject) (dex_file : DexFile)
         (llvm_unit : LlvmCompilationUnit),
    let counting :=
      has_flag (kCompilerDebugFlags G) (debug_pos B kDebugCountOpcodes) in
    let o :=
      CompileOneMethod B E G compiler backend code_item access_flags
        invoke_type class_def_idx method_idx class_loader dex_file llvm_unit in
    (existsb is_EnableOpcodeCounting (calls (final_state o)) = true ->
     counting = true)
    /\ (existsb is_ShowOpcodeStats (calls (final_state o)) = true ->
        counting = true)
    /\ (forall cm s', o = Done (Some cm) s' ->
          existsb is_EnableOpcodeCounting (calls s') = counting
          /\ existsb is_ShowOpcodeStats (calls s') = counting).
Proof.
  intros Scratch B E G compiler backend code_item access_flags invoke_type
         class_def_idx method_idx class_loader dex_file llvm_unit counting o.
  assert (Hguard :
    (existsb is_EnableOpcodeCounting (calls (final_state o)) = true ->
     counting = true)
    /\ (existsb is_ShowOpcodeStats (calls (final_state o)) = true ->
        counting = true)).
  { subst o. unfold CompileOneMethod.
    apply (keeps_final
             (fun s =>
                (existsb is_EnableOpcodeCounting (calls s) = true ->
                 counting = true)
                /\ (existsb is_ShowOpcodeStats (calls s) = true ->
                    counting = true))
             (fun _ => True)).
    - unfold_blocks.
      keeps_with
        ltac:(cbv beta in *;
              match goal with
              | H : _ /\ _ |- _ =>
                  destruct H as [? ?]; unfold called, assigned; cbn [calls];
                  rewrite ?existsb_snoc;
                  cbn [is_EnableOpcodeCounting is_ShowOpcodeStats];
                  rewrite ?orb_false_r;
                  split; first [assumption | intros _; assumption]
              end)
        ltac:(exact Logic.I).
    - cbn. split; discriminate. }
  destruct Hguard as [Hen Hsh]. split; [exact Hen|]. split; [exact Hsh|].
  intros cm s' Ho. subst o. unfold CompileOneMethod in Ho.
  destruct (CompileMethod_cases Scratch B E G compiler backend code_item
              access_flags invoke_type class_def_idx method_idx class_loader
              dex_file llvm_unit (fresh E))
    as [(why & s1 & _ & Hc)|[(s1 & _ & Hc)|(s1 & Hl & Hc)]];
    rewrite Hc in Ho; try discriminate.
  clear Hc. unfold lowered in Hl.
  apply bind_done in Hl. destruct Hl as ([] & sa & Hconf & Hl).
  apply bind_done in Hl. destruct Hl as ([] & sb & Hmir & Hcg).
  assert (Ia : counted false false sa).
  { pose proof (configure_keeps Scratch B E G (counted false false)
                  (counted_assigned Scratch false false)
                  compiler backend code_item method_idx dex_file llvm_unit
                  (fun s => counted_called Scratch E false false HeapInit s
                              eq_refl eq_refl)
                  (fresh E) (conj eq_refl eq_refl)) as Hk.
    rewrite Hconf in Hk. exact Hk. }
  destruct (build_mir_counted Scratch B E G code_item access_flags
              invoke_type class_def_idx method_idx class_loader dex_file
              sa Ia) as (sb' & Hmir' & Ib).
  rewrite Hmir in Hmir'. injection Hmir' as <-.
  assert (I1 : counted counting false s1).
  { assert (Hk : keeps (counted counting false) (fun _ => True)
                   (codegen B E compiler backend code_item kNoHandler)).
    { apply codegen_keeps.
      intros c s Hc. apply counted_called; destruct c; try reflexivity;
        discriminate Hc. }
    specialize (Hk sb Ib). rewrite Hcg in Hk. exact Hk. }
  unfold emit in Ho.
  destruct (assemble_counted Scratch B E G s1 I1) as (sc & Hasm & Ic).
  apply bind_done in Ho. destruct Ho as ([] & sc' & Hasm' & Ho).
  rewrite Hasm in Hasm'. injection Hasm' as <-.
  apply bind_done in Ho. destruct Ho as (t & sd & Hcomb & Hpack).
  assert (Id : counted counting counting sd).
  { pose proof (combine_vmap_tables_keeps Scratch B
                  (counted counting counting)
                  (counted_assigned Scratch counting counting) sc Ic) as Hk.
    rewrite Hcomb in Hk. exact Hk. }
  assert (Hk : keeps (counted counting counting) never
                 (package B E t)).
  { apply package_keeps.
    intros c s Hc. apply counted_called; destruct c; try reflexivity;
      discriminate Hc. }
  specialize (Hk sd Id). rewrite Hpack in Hk. exact Hk.
Qed.

(** On the portable path counting is enabled and the statistics are
    never shown. *)
Lemma opcode_counting_portable_path :
  let Bd := toy_build true true 16 in
  let Gl := {| kCompilerOptimizerDisableFlags := 1;
               kCompilerDebugFlags := Z.shiftl 1 (debug_pos Bd kDebugCountOpcodes);
               VLOG_IS_ON_compiler := false |} in
  let o := toy_compile Bd toy_asm true "" Gl kThumb2 kPortable toy_code in
  returned o = Some None
  /\ existsb is_EnableOpcodeCounting (calls (final_state o)) = true
  /\ existsb is_ShowOpcodeStats (calls (final_state o)) = false.
Proof. vm_compute. auto. Qed.

(** ** How a compile can end *)

Section Outcomes.

Variable Scratch : Type.
Variable B : Build.
Variable E : Extern Scratch.
Variable G : Globals.

Lemma CompileMethod_aborts (compiler : CompilerDriver)
    (backend : CompilerBackend) (code_item : CodeItem)
    (access_flags invoke_type class_def_idx method_idx : Z)
    (class_loader : jobject) (dex_file : DexFile)
    (llvm_unit : LlvmCompilationUnit) :
  keeps (fun _ => True) (driver_abort B)
        (CompileMethod B E G compiler backend code_item access_flags
           invoke_type class_def_idx method_idx class_loader dex_file
           llvm_unit).
Proof.
  unfold_blocks.
  keeps_with ltac:(exact Logic.I)
             ltac:(first [assumption | left; reflexivity | right; reflexivity]).
Qed.

Lemma package_returns (t : list Z) (s s' : Session Scratch)
    (r : option CompiledMethod) :
  package B E t s = Done r s' ->
  r = Some {| cm_instruction_set := instruction_set (cu s);
              cm_code := code_buffer (cu s);
              cm_frame_size_in_bytes := frame_size (cu s);
              cm_core_spill_mask := core_spill_mask (cu s);
              cm_fp_spill_mask := fp_spill_mask (cu s);
              cm_mapping_table := combined_mapping_table (cu s);
              cm_vmap_table := t;
              cm_native_gc_map := native_gc_map (cu s) |}.
Proof.
  run_driver.
  destruct (WITH_MEMSTATS B && _); run_driver; congruence.
Qed.

Lemma emit_returns (s s' : Session Scratch) (r : option CompiledMethod) :
  emit B E G s = Done r s' -> exists cm, r = Some cm.
Proof.
  unfold emit. intros H.
  apply bind_done in H. destruct H as (_ & s1 & _ & H).
  apply bind_done in H. destruct H as (t & s2 & _ & H).
  apply package_returns in H. eauto.
Qed.

Lemma emit_keeps_all (I : Session Scratch -> Prop) :
  (forall c s, I s -> I (called E c s)) ->
  (forall f s, I s -> I (assigned f s)) ->
  keeps I (fun _ => True) (emit B E G).
Proof.
  intros Hc Hf. unfold_blocks.
  keeps_with ltac:(auto) ltac:(exact Logic.I).
Qed.

(** The portable path is entered only in a portable build, and ends the
    compile only for the portable backend; either way the bitcode
    conversion has been called. *)
Lemma codegen_done (compiler : CompilerDriver) (backend : CompilerBackend)
    (code_item : CodeItem) (special_case : SpecialCaseHandler)
    (s s' : Session Scratch) (all_done : bool) :
  codegen B E compiler backend code_item special_case s = Done all_done s' ->
  (all_done = true ->
   ART_USE_PORTABLE_COMPILER B = true /\ backend = kPortable)
  /\ (is_known_target (GetInstructionSet compiler) = false ->
      existsb is_MethodMIR2Bitcode (calls s') = true).
Proof.
  run_driver.
  destruct (ART_USE_PORTABLE_COMPILER B); cbn [andb].
  - destruct (gen_bitcode (cu s)).
    + destruct backend; cbn [CompilerBackend_eqb]; run_driver;
        intros H; inversion H; subst; cbn [calls called];
        rewrite ?existsb_snoc; cbn; rewrite ?orb_true_r;
        (split; [intros; try discriminate; auto|reflexivity]).
    + destruct (GetInstructionSet compiler); run_driver;
        try discriminate;
        run_split;
        intros H; inversion H; subst;
        cbn [is_known_target]; (split; discriminate).
  - destruct (GetInstructionSet compiler); run_driver;
      try discriminate;
      run_split;
      intros H; inversion H; subst;
      cbn [is_known_target]; (split; discriminate).
Qed.

End Outcomes.

(** C8 (amended).  A compile ends in one of three ways: it returns a
    CompiledMethod; or it returns no artifact, which happens only in a
    build with the portable compiler and for the portable backend; or
    the process aborts, on one of the driver's two fatal messages or on
    a failed [DCHECK] where those are compiled in.  [HeapInit] failing
    always aborts; a target the driver has no code generator for aborts
    unless the compile went to the bitcode conversion.  Nothing else is
    handed back. *)
Theorem compile_outcomes :
  forall (Scratch : Type) (B : Build) (E : Extern Scratch) (G : Globals)
         (compiler : CompilerDriver) (backend : CompilerBackend)
         (code_item : CodeItem)
         (access_flags invoke_type class_def_idx method_idx : Z)
         (class_loader : jobject) (dex_file : DexFile)
         (llvm_unit : LlvmCompilationUnit),
    let o :=
      CompileOneMethod B E G compiler backend code_item access_flags
        invoke_type class_def_idx method_idx class_loader dex_file llvm_unit in
    match o with
    | Done (Some _) _ => True
    | Done None _ =>
        ART_USE_PORTABLE_COMPILER B = true /\ backend = kPortable
    | Aborted why _ => driver_abort B why
    end
    /\ (HeapInit_result E (new_CompilationUnit E) = false ->
        exists s',
          o = Aborted (LogFatal "Failed to initialize compiler heap") s')
    /\ (is_known_target (GetInstructionSet compiler) = false ->
        existsb is_MethodMIR2Bitcode (calls (final_state o)) = false ->
        exists why s', o = Aborted why s').
Proof.
  intros Scratch B E G compiler backend code_item access_flags invoke_type
         class_def_idx method_idx class_loader dex_file llvm_unit o.
  subst o. unfold CompileOneMethod.
  set (o := CompileMethod B E G compiler backend code_item access_flags
              invoke_type class_def_idx method_idx class_loader dex_file
              llvm_unit (fresh E)).
  pose proof (CompileMethod_cases Scratch B E G compiler backend code_item
                access_flags invoke_type class_def_idx method_idx
                class_loader dex_file llvm_unit (fresh E)) as Hcases.
  pose proof (CompileMethod_aborts Scratch B E G compiler backend code_item
                access_flags invoke_type class_def_idx method_idx
                class_loader dex_file llvm_unit (fresh E) Logic.I) as Hab.
  fold o in Hcases, Hab.
  split; [|split].
  - destruct Hcases as [(why & s1 & _ & Hc)|[(s1 & Hl & Hc)|(s1 & Hl & Hc)]].
    + fold o in Hc. rewrite Hc in Hab |- *. apply Hab.
    + fold o in Hc. rewrite Hc. unfold lowered in Hl.
      apply bind_done in Hl. destruct Hl as (_ & sa & _ & Hl).
      apply bind_done in Hl. destruct Hl as (_ & sb & _ & Hl).
      apply codegen_done in Hl. apply Hl. reflexivity.
    + fold o in Hc. destruct o as [r s'|why s'] eqn:Ho.
      * symmetry in Hc. apply emit_returns in Hc. destruct Hc as (cm & ->).
        exact Logic.I.
      * apply Hab.
  - intros Hheap. subst o. run_driver. rewrite Hheap. run_driver. eauto.
  - intros Hunknown Hnone.
    destruct Hcases as [(why & s1 & _ & Hc)|[(s1 & Hl & Hc)|(s1 & Hl & Hc)]];
      fold o in Hc.
    + eauto.
    + exfalso. rewrite Hc in Hnone. cbn [final_state] in Hnone.
      unfold lowered in Hl.
      apply bind_done in Hl. destruct Hl as (_ & sa & _ & Hl).
      apply bind_done in Hl. destruct Hl as (_ & sb & _ & Hl).
      apply codegen_done in Hl. destruct Hl as [_ Hl].
      rewrite (Hl Hunknown) in Hnone. discriminate.
    + exfalso. unfold lowered in Hl.
      apply bind_done in Hl. destruct Hl as (_ & sa & _ & Hl).
      apply bind_done in Hl. destruct Hl as (_ & sb & _ & Hl).
      apply codegen_done in Hl. destruct Hl as [_ Hl].
      specialize (Hl Hunknown).
      pose proof (keeps_final
                    (fun s => existsb is_MethodMIR2Bitcode (calls s) = true)
                    (fun _ => True) (emit B E G) s1) as Hk.
      rewrite <- Hc, Hnone in Hk. 
      assert (false = true); [|discriminate].
      apply Hk; [|exact Hl].
      apply emit_keeps_all.
      * intros c s Hs. unfold called. cbn [calls].
        rewrite existsb_snoc, Hs. reflexivity.
      * intros f s Hs. exact Hs.
Qed.

(** The portable backend in a portable build: the compile returns, and
    what it returns is no artifact. *)
Lemma compile_returns_no_artifact :
  returned (toy_compile (toy_build true true 16) toy_asm true ""
              (initial_globals (toy_build true true 16) false)
              kThumb2 kPortable toy_code)
  = Some None.
Proof. vm_compute. reflexivity. Qed.

(** ** The portable path *)

Section Portable.

Variable Scratch : Type.
Variable B : Build.
Variable E : Extern Scratch.
Variable G : Globals.

Variable compiler : CompilerDriver.
Variable backend : CompilerBackend.
Variable code_item : CodeItem.
Variables access_flags invoke_type class_def_idx method_idx : Z.
Variable class_loader : jobject.
Variable dex_file : DexFile.
Variable llvm_unit : LlvmCompilationUnit.

Lemma passes_only_snoc (log : list Callee) (c : Callee) :
  passes_only (log ++ [c])
  = passes_only log ++ (if is_observer c then [] else [c]).
Proof.
  unfold passes_only. rewrite filter_app. cbn [filter].
  destruct (is_observer c); reflexivity.
Qed.

Lemma build_mir_run (s : Session Scratch) :
  (forall c, leaves_gen_bitcode E c) ->
  exists s',
    build_mir B E G code_item access_flags invoke_type class_def_idx
              method_idx class_loader dex_file s = Done tt s'
    /\ passes_only (calls s')
       = passes_only (calls s)
         ++ mir_passes code_item access_flags invoke_type class_def_idx
                       method_idx class_loader dex_file
    /\ gen_bitcode (cu s') = gen_bitcode (cu s).
Proof.
  intros Hgen. run_driver. run_split;
    eexists; (split; [reflexivity|]); run_read;
    (split;
     [ rewrite !passes_only_snoc; cbn [is_observer];
       rewrite <- ?app_assoc; cbn [app]; rewrite ?app_nil_r; reflexivity
     | repeat rewrite Hgen; reflexivity ]).
Qed.

End Portable.

(** C7 (amended).  In a build with the portable compiler, for the
    portable backend, a compile whose heap initialises (and whose target
    passes the check where [DCHECK]s are compiled in) makes the calls
    from [HeapInit] through [BuildRegLocations], then the bitcode
    conversion, then resets the arena, and returns no artifact; reports
    aside, it makes no other call.  The passes are taken not to write
    [gen_bitcode]. *)
Theorem portable_path_returns_no_artifact :
  forall (Scratch : Type) (B : Build) (E : Extern Scratch) (G : Globals)
         (compiler : CompilerDriver) (backend : CompilerBackend)
         (code_item : CodeItem)
         (access_flags invoke_type class_def_idx method_idx : Z)
         (class_loader : jobject) (dex_file : DexFile)
         (llvm_unit : LlvmCompilationUnit),
    ART_USE_PORTABLE_COMPILER B = true ->
    backend = kPortable ->
    HeapInit_result E (new_CompilationUnit E) = true ->
    (kEnableDChecks B = true ->
     is_known_target (GetInstructionSet compiler) = true) ->
    (forall c, leaves_gen_bitcode E c) ->
    exists s',
      CompileOneMethod B E G compiler backend code_item access_flags
        invoke_type class_def_idx method_idx class_loader dex_file llvm_unit
      = Done None s'
      /\ passes_only (calls s')
         = [HeapInit]
           ++ mir_passes code_item access_flags invoke_type class_def_idx
                         method_idx class_loader dex_file
           ++ [MethodMIR2Bitcode; ArenaReset].
Proof.
  intros Scratch B E G compiler backend code_item access_flags invoke_type
         class_def_idx method_idx class_loader dex_file llvm_unit
         Hport Hback Hheap Hknown Hgen.
  pose proof (configure_run Scratch B E G compiler backend code_item
                method_idx dex_file llvm_unit (fresh E) Hheap Hknown)
    as Hconf.
  set (sa := assigned _ (called E HeapInit (fresh E))) in Hconf.
  assert (Hga : gen_bitcode (cu sa) = true).
  { subst sa. cbn [cu assigned called].
    destruct (resolved_members Scratch B E G method_idx dex_file
                (after_setup B E compiler backend code_item llvm_unit
                   (call E HeapInit (cu (fresh E))))) as (-> & _).
    destruct (after_setup_members Scratch B E compiler backend code_item
                llvm_unit (call E HeapInit (cu (fresh E)))) as (-> & _).
    rewrite Hback. reflexivity. }
  destruct (build_mir_run Scratch B E G code_item access_flags invoke_type
              class_def_idx method_idx class_loader dex_file sa Hgen)
    as (sb & Hmir & Hcb & Hgb).
  assert (Hlow :
    lowered B E G compiler backend code_item access_flags invoke_type
            class_def_idx method_idx class_loader dex_file llvm_unit
            (fresh E)
    = Done true (called E ArenaReset (called E MethodMIR2Bitcode sb))).
  { unfold lowered.
    rewrite (bind_run _ _ _ _ _ Hconf), (bind_run _ _ _ _ _ Hmir).
    run_driver. rewrite Hport, Hgb, Hga, Hback.
    cbn [andb CompilerBackend_eqb]. reflexivity. }
  unfold CompileOneMethod, CompileMethod.
  rewrite (bind_run _ _ _ _ _ Hlow).
  eexists. split; [reflexivity|]. run_read.
  rewrite !passes_only_snoc, Hcb. reflexivity.
Qed.

Lemma portable_path_returns_no_artifact_witness :
  exists s',
    toy_compile (toy_build true true 16) toy_asm true ""
      (initial_globals (toy_build true true 16) false)
      kThumb2 kPortable toy_code
    = Done None s'
    /\ passes_only (calls s')
       = [HeapInit]
         ++ mir_passes toy_code 1 0 0 42 0 0
         ++ [MethodMIR2Bitcode; ArenaReset].
Proof.
  apply (portable_path_returns_no_artifact ToyScratch
           (toy_build true true 16) (toy_extern toy_asm true "")
           (initial_globals (toy_build true true 16) false)
           (toy_driver kThumb2 kPortable) kPortable toy_code 1 0 0 42 0 0
           toy_llvm_unit).
  - reflexivity.
  - reflexivity.
  - reflexivity.
  - reflexivity.
  - intros c u. destruct c; try reflexivity.
    simpl. destruct (ir_size (scratch u) =? 0); reflexivity.
Defined.

(** Two compiles for the portable backend.  In a portable build the
    bitcode conversion is called after [BuildRegLocations]; in a build
    without the portable compiler the whole quick path runs and an
    artifact is returned. *)
Lemma portable_backend_other_stages :
  passes_only
    (calls (final_state
       (toy_compile (toy_build true true 16) toy_asm true ""
          (initial_globals (toy_build true true 16) false)
          kThumb2 kPortable toy_code)))
  = [HeapInit; MIRGraph_new; InlineMethod toy_code 1 0 0 42 0 0; CodeLayout;
     SSATransformation; PropagateConstants; MethodUseCount;
     NullCheckElimination; BasicBlockCombine; BasicBlockOptimization;
     BuildRegLocations; MethodMIR2Bitcode; ArenaReset]
  /\ returned
       (toy_compile (toy_build false true 16) toy_asm true ""
          (initial_globals (toy_build false true 16) false)
          kThumb2 kPortable toy_code)
     = Some (Some {| cm_instruction_set := kThumb2;
                     cm_code := [3; 112; 71];
                     cm_frame_size_in_bytes := 16;
                     cm_core_spill_mask := 16384;
                     cm_fp_spill_mask := 0;
                     cm_mapping_table := [0; 3];
                     cm_vmap_table := [4097; 4098; 4099; 65535; 5; 9];
                     cm_native_gc_map := [] |}).
Proof. vm_compute. split; reflexivity. Qed.

Lemma final_bind {S A C : Type} (m : Step S A) (k : A -> Step S C) (s : S)
    (Q : S -> Prop) :
  (forall why s1, m s = Aborted why s1 -> Q s1) ->
  (forall a s1, m s = Done a s1 -> Q (final_state (k a s1))) ->
  Q (final_state (bind m k s)).
Proof.
  intros Hab Hdone. unfold bind.
  destruct (m s) as [a s1|why s1]; [apply Hdone|eapply Hab]; reflexivity.
Qed.

Lemma popcount_0 : popcount 0 = 0.
Proof. reflexivity. Qed.

(** ** The empty body *)

Section EmptyBody.

Variable Scratch : Type.
Variable B : Build.
Variable E : Extern Scratch.
Variable G : Globals.

Hypothesis passes_leave_output :
  forall c, is_AssembleLIR c = false -> leaves_output E c.

Lemma blank_assigned f (s : Session Scratch) :
  quiet f -> blank s -> blank (assigned f s).
Proof.
  intros Hq [(Hc & Hf & Hm & Hp) Hcalls].
  destruct (Hq (cu s)) as (_ & Hc' & Hf' & Hm' & Hp').
  split; [|exact Hcalls]. cbn [cu assigned].
  rewrite Hc', Hf', Hm', Hp'. auto.
Qed.

Lemma blank_called (c : Callee) (s : Session Scratch) :
  is_ProcessSwitchTables c = false ->
  is_AssembleLIR c = false ->
  blank s -> blank (called E c s).
Proof.
  intros Hpst Hasm [(Hc & Hf & Hm & Hp) [Hn1 Hn2]].
  destruct (passes_leave_output c Hasm (cu s)) as (Hc' & Hf' & Hm' & Hp').
  split; cbn [cu calls called].
  - rewrite Hc', Hf', Hm', Hp'. auto.
  - rewrite !count_calls_snoc, Hpst, Hasm, Hn1, Hn2. auto.
Qed.

Lemma blank_called_class (p : Callee -> bool) :
  (forall c, p c = true ->
             is_ProcessSwitchTables c = false /\ is_AssembleLIR c = false) ->
  forall c s, p c = true -> blank s -> blank (called E c s).
Proof.
  intros Hp c s Hc. destruct (Hp c Hc). now apply blank_called.
Qed.

Lemma assemble_empty (s : Session Scratch) :
  first_lir_insn (cu s) = None ->
  blank s ->
  exists s', assemble B E G s = Done tt s' /\ blank s'.
Proof.
  intros Hnone Hs. run_driver. rewrite Hnone. run_driver.
  destruct (has_flag _ _); run_driver; eexists; (split; [reflexivity|]).
  - apply blank_called; [reflexivity|reflexivity|exact Hs].
  - exact Hs.
Qed.

Lemma combine_vmap_tables_blank (s : Session Scratch) :
  blank s ->
  exists t s', combine_vmap_tables B s = Done t s' /\ blank s'.
Proof.
  intros Hs.
  assert (Hs' : blank
            (assigned
               (fun c => set_core_vmap_table (std_sort (core_vmap_table c)) c)
               s)).
  { apply blank_assigned; [intros u; repeat split|exact Hs]. }
  destruct Hs as [(Hc & Hf & Hm & Hp) _].
  run_driver. rewrite Hf, Hm, Hp, popcount_0. cbn [Z.ltb Z.compare Z.eqb].
  destruct (kEnableDChecks B); run_driver; eauto.
Qed.

Lemma package_blank (t : list Z) (s : Session Scratch) :
  blank s ->
  exists cm s',
    package B E t s = Done (Some cm) s'
    /\ (cm_code cm = []
        /\ cm_frame_size_in_bytes cm = 0
        /\ cm_core_spill_mask cm = 0
        /\ cm_fp_spill_mask cm = 0)
    /\ blank s'.
Proof.
  intros Hs.
  destruct (keeps_never_returns blank (package B E t) s) as (r & s' & Hrun & Hs');
    [|exact Hs|].
  - apply package_keeps. apply blank_called_class.
    intros c Hc. destruct c; try discriminate Hc; split; reflexivity.
  - pose proof (package_returns _ _ _ _ _ _ _ Hrun) as ->.
    destruct Hs as [(Hc & Hf & Hm & Hp) _].
    eexists. exists s'. split; [exact Hrun|]. cbn. auto.
Qed.

End EmptyBody.

(** C2.  If lowering ends with no lowered instruction, switch-table
    resolution and assembly are not called, and the compile still
    returns a CompiledMethod, whose code buffer is empty and whose frame
    size and spill masks are zero.  The unit is taken to start with
    nothing produced, and every callee but the assembler to leave the
    code buffer, the frame size and the spill masks alone. *)
Theorem empty_body_skips_assembly :
  forall (Scratch : Type) (B : Build) (E : Extern Scratch) (G : Globals)
         (compiler : CompilerDriver) (backend : CompilerBackend)
         (code_item : CodeItem)
         (access_flags invoke_type class_def_idx method_idx : Z)
         (class_loader : jobject) (dex_file : DexFile)
         (llvm_unit : LlvmCompilationUnit) (s1 : Session Scratch),
    starts_blank E ->
    (forall c, is_AssembleLIR c = false -> leaves_output E c) ->
    lowered B E G compiler backend code_item access_flags invoke_type
            class_def_idx method_idx class_loader dex_file llvm_unit
            (fresh E) = Done false s1 ->
    first_lir_insn (cu s1) = None ->
    exists cm s2,
      CompileOneMethod B E G compiler backend code_item access_flags
        invoke_type class_def_idx method_idx class_loader dex_file llvm_unit
      = Done (Some cm) s2
      /\ cm_code cm = []
      /\ cm_frame_size_in_bytes cm = 0
      /\ cm_core_spill_mask cm = 0
      /\ cm_fp_spill_mask cm = 0
      /\ count_calls is_ProcessSwitchTables (calls s2) = 0%nat
      /\ count_calls is_AssembleLIR (calls s2) = 0%nat.
Proof.
  intros Scratch B E G compiler backend code_item access_flags invoke_type
         class_def_idx method_idx class_loader dex_file llvm_unit s1
         Hnew Hout Hlow Hnone.
  assert (H1 : blank s1).
  { assert (H0 : blank (fresh E)) by (split; [exact Hnew|split; reflexivity]).
    pose proof Hlow as Hl. unfold lowered in Hl.
    apply bind_done in Hl. destruct Hl as ([] & sa & Hconf & Hl).
    apply bind_done in Hl. destruct Hl as ([] & sb & Hmir & Hcg).
    assert (Ha : blank sa).
    { pose proof (configure_keeps Scratch B E G (blank)
                    (blank_assigned Scratch) compiler backend code_item
                    method_idx dex_file llvm_unit
                    (fun s => blank_called Scratch E Hout HeapInit s
                                eq_refl eq_refl)
                    (fresh E) H0) as Hk.
      rewrite Hconf in Hk. exact Hk. }
    assert (Hb : blank sb).
    { pose proof (build_mir_keeps Scratch B E G (blank)
                    (blank_assigned Scratch) code_item access_flags
                    invoke_type class_def_idx method_idx class_loader
                    dex_file) as Hk.
      specialize (Hk (blank_called_class Scratch E Hout in_build_mir
                        ltac:(intros c Hc; destruct c; try discriminate Hc;
                              split; reflexivity)) sa Ha).
      rewrite Hmir in Hk. exact Hk. }
    pose proof (codegen_keeps Scratch B E (blank) compiler backend
                  code_item kNoHandler) as Hk.
    specialize (Hk (blank_called_class Scratch E Hout in_codegen
                      ltac:(intros c Hc; destruct c; try discriminate Hc;
                            split; reflexivity)) sb Hb).
    rewrite Hcg in Hk. exact Hk. }
  destruct (assemble_empty Scratch B E G Hout s1 Hnone H1)
    as (s2 & Hasm & H2).
  destruct (combine_vmap_tables_blank Scratch B s2 H2)
    as (t & s3 & Hcomb & H3).
  destruct (package_blank Scratch B E Hout t s3 H3)
    as (cm & s4 & Hpack & (Hc & Hf & Hm & Hp) & _ & Hn1 & Hn2).
  exists cm, s4.
  unfold CompileOneMethod, CompileMethod.
  rewrite (bind_run _ _ _ _ _ Hlow). unfold emit.
  rewrite (bind_run _ _ _ _ _ Hasm), (bind_run _ _ _ _ _ Hcomb), Hpack.
  auto 10.
Qed.

Lemma empty_body_skips_assembly_witness :
  exists cm s2,
    toy_compile (toy_build false true 16) toy_asm true ""
      (initial_globals (toy_build false true 16) false)
      kThumb2 kQuick toy_empty_code
    = Done (Some cm) s2
    /\ cm_code cm = []
    /\ cm_frame_size_in_bytes cm = 0
    /\ cm_core_spill_mask cm = 0
    /\ cm_fp_spill_mask cm = 0
    /\ count_calls is_ProcessSwitchTables (calls s2) = 0%nat
    /\ count_calls is_AssembleLIR (calls s2) = 0%nat.
Proof.
  apply (empty_body_skips_assembly ToyScratch (toy_build false true 16)
           (toy_extern toy_asm true "")
           (initial_globals (toy_build false true 16) false)
           (toy_driver kThumb2 kQuick) kQuick toy_empty_code 1 0 0 42 0 0
           toy_llvm_unit
           (final_state
              (lowered (toy_build false true 16) (toy_extern toy_asm true "")
                 (initial_globals (toy_build false true 16) false)
                 (toy_driver kThumb2 kQuick) kQuick toy_empty_code 1 0 0 42
                 0 0 toy_llvm_unit (fresh (toy_extern toy_asm true ""))))).
  - repeat split.
  - intros c Hc u. destruct c; try discriminate Hc; simpl;
      try destruct (ir_size (scratch u) =? 0); repeat split.
  - vm_compute. reflexivity.
  - vm_compute. reflexivity.
Defined.

(** ** Generic lowering *)

Section Lowering.

Variable Scratch : Type.
Variable B : Build.
Variable E : Extern Scratch.
Variable G : Globals.

Hypothesis others_leave_lir :
  forall c, is_lowering c = false -> leaves_lir E c.

Lemma unlowered_assigned f (s : Session Scratch) :
  quiet f -> unlowered s -> unlowered (assigned f s).
Proof.
  intros Hq (Hl & Hn). destruct (Hq (cu s)) as (Hl' & _).
  split; [|exact Hn]. cbn [cu assigned]. congruence.
Qed.

Lemma unlowered_called (c : Callee) (s : Session Scratch) :
  is_lowering c = false -> unlowered s -> unlowered (called E c s).
Proof.
  intros Hc (Hl & Hn1 & Hn2).
  pose proof (others_leave_lir c Hc (cu s)) as Hl'.
  apply orb_false_iff in Hc. destruct Hc as [Hc1 Hc2].
  unfold unlowered. cbn [cu calls called].
  rewrite !count_calls_snoc, Hc1, Hc2, Hn1, Hn2. split; [congruence|auto].
Qed.

Lemma unselected_assigned f (s : Session Scratch) :
  quiet f -> unselected s -> unselected (assigned f s).
Proof.
  intros Hq [Hu Hi]. split; [now apply unlowered_assigned|exact Hi].
Qed.

Lemma unselected_called (c : Callee) (s : Session Scratch) :
  is_lowering c = false -> is_InitCodegen c = false ->
  unselected s -> unselected (called E c s).
Proof.
  intros Hc Hi [Hu Hn]. split; [now apply unlowered_called|].
  cbn [calls called]. now rewrite existsb_snoc, Hn, Hi.
Qed.

Lemma unselected_lowered_once (s : Session Scratch) :
  unselected s -> lowered_once s.
Proof.
  intros [(_ & Hn & _) Hi]. split; [exact Hn|].
  rewrite Hi. discriminate.
Qed.

Lemma lowered_once_called (c : Callee) (s : Session Scratch) :
  is_lowering c = false -> is_InitCodegen c = false ->
  lowered_once s -> lowered_once (called E c s).
Proof.
  intros Hc Hi [Hn Himp].
  apply orb_false_iff in Hc. destruct Hc as [Hc1 Hc2].
  unfold lowered_once. cbn [calls called].
  rewrite !count_calls_snoc, existsb_snoc, Hc1, Hc2, Hi, Hn, orb_false_r.
  split; [reflexivity|]. intros H. rewrite (Himp H). reflexivity.
Qed.

(** Lines 286-289 when nothing is lowered yet. *)
Lemma lower_generic (s : Session Scratch) :
  first_lir_insn (cu s) = None ->
  lower E kNoHandler s = Done tt (called E MethodMIR2LIR s).
Proof.
  intros Hnone. run_driver. cbn [SpecialCaseHandler_eqb negb].
  run_driver. rewrite Hnone. reflexivity.
Qed.

Lemma quick_codegen_lowers (compiler : CompilerDriver)
    (code_item : CodeItem) (s : Session Scratch) :
  unselected s ->
  lowered_once (final_state (quick_codegen E compiler code_item kNoHandler s)).
Proof.
  intros Hs. unfold quick_codegen.
  apply final_bind.
  - intros why s1 Hab. unfold init_codegen in Hab.
    destruct (GetInstructionSet compiler); try discriminate Hab.
    inversion Hab; subst. now apply unselected_lowered_once.
  - intros [] s1 Hinit.
    assert (H1 : unlowered s1 /\ existsb is_InitCodegen (calls s1) = true).
    { destruct Hs as [Hu Hn]. unfold init_codegen in Hinit.
      destruct (GetInstructionSet compiler); try discriminate Hinit;
        inversion Hinit; subst;
        (split; [now apply unlowered_called
                |cbn [calls called]; rewrite existsb_snoc; cbn;
                 apply orb_true_r]). }
    destruct H1 as [Hu Hi].
    destruct (keeps_never_returns unlowered
                (allocate_registers E code_item) s1) as ([] & s2 & Halloc & H2);
      [|exact Hu|].
    + apply allocate_registers_keeps. intros c s' Hc.
      apply unlowered_called. destruct c; try discriminate Hc; reflexivity.
    + rewrite (bind_run _ _ _ _ _ Halloc).
      destruct H2 as (Hl & Hn1 & Hn2).
      rewrite (lower_generic s2 Hl). unfold lowered_once.
      cbn [final_state calls called].
      split.
      * rewrite count_calls_snoc, Hn1. reflexivity.
      * intros _. rewrite count_calls_snoc, Hn2. reflexivity.
Qed.

Lemma codegen_lowers (compiler : CompilerDriver) (backend : CompilerBackend)
    (code_item : CodeItem) (s : Session Scratch) :
  unselected s ->
  lowered_once
    (final_state (codegen B E compiler backend code_item kNoHandler s)).
Proof.
  intros Hs. unfold codegen. unfold bind at 1, get_cu.
  destruct (ART_USE_PORTABLE_COMPILER B && gen_bitcode (cu s)).
  - apply unselected_lowered_once.
    run_driver. destruct (CompilerBackend_eqb backend kPortable);
      run_driver; repeat apply unselected_called; try reflexivity; exact Hs.
  - apply final_bind.
    + intros why s1 Hab.
      pose proof (quick_codegen_lowers compiler code_item s Hs) as H.
      rewrite Hab in H. exact H.
    + intros [] s1 Hq.
      pose proof (quick_codegen_lowers compiler code_item s Hs) as H.
      rewrite Hq in H. exact H.
Qed.

End Lowering.

Section LoweringCompile.

Variable Scratch : Type.
Variable B : Build.
Variable E : Extern Scratch.
Variable G : Globals.

Variable compiler : CompilerDriver.
Variable backend : CompilerBackend.
Variable code_item : CodeItem.
Variables access_flags invoke_type class_def_idx method_idx : Z.
Variable class_loader : jobject.
Variable dex_file : DexFile.
Variable llvm_unit : LlvmCompilationUnit.

Let the_lowered : Run Scratch bool :=
  lowered B E G compiler backend code_item access_flags invoke_type
          class_def_idx method_idx class_loader dex_file llvm_unit.

Let the_compile : Run Scratch (option CompiledMethod) :=
  CompileMethod B E G compiler backend code_item access_flags invoke_type
                class_def_idx method_idx class_loader dex_file llvm_unit.

(** What holds where lowering ends, held where the compile ends, if
    the rest of the compile keeps it. *)
Lemma after_lowered (Q : Session Scratch -> Prop) (s : Session Scratch) :
  keeps Q (fun _ => True) (emit B E G) ->
  Q (final_state (the_lowered s)) ->
  Q (final_state (the_compile s)).
Proof.
  intros Hemit HQ. unfold the_compile, CompileMethod. fold the_lowered.
  apply final_bind.
  - intros why s1 Hab. rewrite Hab in HQ. exact HQ.
  - intros a s1 Hdone. rewrite Hdone in HQ. cbn [final_state] in HQ.
    destruct a.
    + exact HQ.
    + apply (keeps_final Q (fun _ => True)); assumption.
Qed.

Lemma lowered_lowers_once :
  first_lir_insn (new_CompilationUnit E) = None ->
  (forall c, is_lowering c = false -> leaves_lir E c) ->
  lowered_once (final_state (the_lowered (fresh E))).
Proof.
  intros Hnew Hlir.
  assert (H0 : unselected (fresh E)).
  { repeat split. exact Hnew. }
  assert (Hconf : unselected
            (final_state
               (configure B E G compiler backend code_item method_idx
                          dex_file llvm_unit (fresh E)))).
  { apply (keeps_final (unselected) (fun _ => True)); [|exact H0].
    apply configure_keeps.
    - apply unselected_assigned.
    - intros s. now apply unselected_called. }
  unfold the_lowered, lowered. apply final_bind.
  - intros why s1 Hab. rewrite Hab in Hconf.
    now apply unselected_lowered_once.
  - intros [] s1 Hdone. rewrite Hdone in Hconf. cbn [final_state] in Hconf.
    assert (Hmir : keeps (unselected) never
              (build_mir B E G code_item access_flags invoke_type
                         class_def_idx method_idx class_loader dex_file)).
    { apply build_mir_keeps.
      - apply unselected_assigned.
      - intros c s Hc. apply unselected_called; trivial;
          destruct c; try discriminate Hc; reflexivity. }
    destruct (keeps_never_returns _ _ s1 Hmir Hconf) as ([] & s2 & Hrun & H2).
    rewrite (bind_run _ _ _ _ _ Hrun).
    now apply codegen_lowers.
Qed.

Lemma emit_keeps_lowered_once :
  (forall c, is_lowering c = false -> leaves_lir E c) ->
  keeps (lowered_once) (fun _ => True) (emit B E G).
Proof.
  intros Hlir. apply emit_keeps.
  - intros f s _ H. exact H.
  - intros c s Hc. apply lowered_once_called;
      destruct c; try discriminate Hc; reflexivity.
Qed.

Lemma selected_called (c : Callee) (s : Session Scratch) :
  selected s -> selected (called E c s).
Proof.
  unfold selected. cbn [calls called]. intros H.
  now rewrite existsb_snoc, H.
Qed.

Lemma quick_build_selects (s : Session Scratch) :
  ART_USE_PORTABLE_COMPILER B = false ->
  HeapInit_result E (cu s) = true ->
  is_known_target (GetInstructionSet compiler) = true ->
  selected (final_state (the_lowered s)).
Proof.
  intros Hquick Hheap Hknown.
  unfold the_lowered, lowered.
  rewrite (bind_run _ _ _ _ _
             (configure_run Scratch B E G compiler backend code_item
                method_idx dex_file llvm_unit s Hheap (fun _ => Hknown))).
  assert (Hmir : keeps (fun _ => True) never
            (build_mir B E G code_item access_flags invoke_type
                       class_def_idx method_idx class_loader dex_file)).
  { apply build_mir_keeps; auto. }
  match goal with
  | |- context [bind _ _ ?st] =>
      destruct (keeps_never_returns _ _ st Hmir Logic.I)
        as ([] & s2 & Hrun & _)
  end.
  rewrite (bind_run _ _ _ _ _ Hrun).
  unfold codegen. unfold bind at 1, get_cu. rewrite Hquick. cbn [andb].
  apply final_bind; [|intros [] s3 Hq; cbn [ret final_state]];
    [intros why s3 Hq|];
    pose proof (final_bind (init_codegen E compiler)
                  (fun _ => bind (allocate_registers E code_item)
                                 (fun _ => lower E kNoHandler))
                  s2 selected) as Hsel;
    fold (quick_codegen E compiler code_item kNoHandler) in Hsel;
    rewrite Hq in Hsel; apply Hsel; clear Hsel.
  all: unfold init_codegen;
    destruct (GetInstructionSet compiler); try discriminate Hknown;
    try (intros ? ? Hx; discriminate Hx);
    intros [] s4 Hx; inversion Hx; subst;
    (apply (keeps_final selected (fun _ => True));
     [ unfold_blocks;
       keeps_with ltac:(first [apply selected_called; assumption | assumption])
                  ltac:(exact Logic.I)
     | unfold selected; cbn [calls called]; rewrite existsb_snoc;
       apply orb_true_r ]).
Qed.

End LoweringCompile.

(** C4.  Generic lowering is called exactly when no lowered instruction
    is there after the special-case handler has had its turn, and the
    handler leaving none behind is no error.  In [CompileMethod] the
    handler is never called, so every compile that chooses a code
    generator calls generic lowering, once; in a build without the
    portable compiler that is every compile whose heap initialises and
    whose target is known.  The unit is taken to start with no lowered
    instruction, and every callee but the two lowering ones to leave the
    head of the list alone. *)
Theorem generic_lowering_runs :
  forall (Scratch : Type) (B : Build) (E : Extern Scratch) (G : Globals)
         (compiler : CompilerDriver) (backend : CompilerBackend)
         (code_item : CodeItem)
         (access_flags invoke_type class_def_idx method_idx : Z)
         (class_loader : jobject) (dex_file : DexFile)
         (llvm_unit : LlvmCompilationUnit),
    first_lir_insn (new_CompilationUnit E) = None ->
    (forall c, is_lowering c = false -> leaves_lir E c) ->
    let o :=
      CompileOneMethod B E G compiler backend code_item access_flags
        invoke_type class_def_idx method_idx class_loader dex_file llvm_unit in
    (forall special_case s,
        exists s',
          lower E special_case s = Done tt s'
          /\ count_calls is_MethodMIR2LIR (calls s')
             = (count_calls is_MethodMIR2LIR (calls s)
                + match first_lir_insn
                          (cu (final_state
                                 (special_codegen E special_case s))) with
                  | None => 1
                  | Some _ => 0
                  end)%nat)
    /\ count_calls is_SpecialMIR2LIR (calls (final_state o)) = 0%nat
    /\ (existsb is_InitCodegen (calls (final_state o)) = true ->
        count_calls is_MethodMIR2LIR (calls (final_state o)) = 1%nat)
    /\ (ART_USE_PORTABLE_COMPILER B = false ->
        HeapInit_result E (new_CompilationUnit E) = true ->
        is_known_target (GetInstructionSet compiler) = true ->
        existsb is_InitCodegen (calls (final_state o)) = true).
Proof.
  intros Scratch B E G compiler backend code_item access_flags invoke_type
         class_def_idx method_idx class_loader dex_file llvm_unit
         Hnew Hlir o.
  split; [|split].
  - intros special_case s. run_driver.
    destruct (negb (SpecialCaseHandler_eqb special_case kNoHandler));
      run_driver;
      match goal with
      | |- context [match first_lir_insn ?u with _ => _ end] =>
          destruct (first_lir_insn u)
      end;
      run_driver; eexists; (split; [reflexivity|]); run_read;
      rewrite ?count_calls_snoc; cbn [is_MethodMIR2LIR]; lia.
  - apply (after_lowered Scratch B E G compiler backend code_item
             access_flags invoke_type class_def_idx method_idx class_loader
             dex_file llvm_unit (lowered_once) (fresh E)
             (emit_keeps_lowered_once Scratch B E G Hlir)
             (lowered_lowers_once Scratch B E G compiler backend code_item
                access_flags invoke_type class_def_idx method_idx
                class_loader dex_file llvm_unit Hnew Hlir)).
  - split.
    + apply (after_lowered Scratch B E G compiler backend code_item
               access_flags invoke_type class_def_idx method_idx
               class_loader dex_file llvm_unit (lowered_once)
               (fresh E)
               (emit_keeps_lowered_once Scratch B E G Hlir)
               (lowered_lowers_once Scratch B E G compiler backend code_item
                  access_flags invoke_type class_def_idx method_idx
                  class_loader dex_file llvm_unit Hnew Hlir)).
    + intros Hquick Hheap Hknown.
      apply (after_lowered Scratch B E G compiler backend code_item
               access_flags invoke_type class_def_idx method_idx
               class_loader dex_file llvm_unit (selected) (fresh E)).
      * apply emit_keeps_all.
        -- intros c s. apply selected_called.
        -- intros f s H. exact H.
      * apply quick_build_selects; assumption.
Qed.

Lemma generic_lowering_runs_witness :
  count_calls is_MethodMIR2LIR
    (calls (final_state
       (toy_compile (toy_build false true 16) toy_asm true ""
          (initial_globals (toy_build false true 16) false)
          kThumb2 kQuick toy_code)))
  = 1%nat.
Proof.
  assert (Hnew : first_lir_insn
                   (new_CompilationUnit (toy_extern toy_asm true "")) = None)
    by reflexivity.
  assert (Hlir : forall c, is_lowering c = false ->
                           leaves_lir (toy_extern toy_asm true "") c).
  { intros c Hc u. destruct c; try discriminate Hc; reflexivity. }
  destruct (generic_lowering_runs ToyScratch (toy_build false true 16)
              (toy_extern toy_asm true "")
              (initial_globals (toy_build false true 16) false)
              (toy_driver kThumb2 kQuick) kQuick toy_code 1 0 0 42 0 0
              toy_llvm_unit Hnew Hlir) as (_ & _ & Honce & Hsel).
  apply Honce. apply Hsel; reflexivity.
Defined.

(** ** Runs that differ in diagnostics only *)

Lemma same_but_observers_refl (B : Build) (x : Z) : same_but_observers B x x.
Proof. intros n _ _. reflexivity. Qed.

Lemma same_but_observers_or (B : Build) (x y k : Z) :
  same_but_observers B x y ->
  same_but_observers B (u32 (Z.lor x k)) (u32 (Z.lor y k)).
Proof.
  intros H n Hn Hd. unfold u32.
  rewrite !Z.testbit_mod_pow2, !Z.lor_spec by lia.
  now rewrite (H n Hn Hd).
Qed.

Ltac alike_fields :=
  match goal with
  | H : alike _ _ _ _ |- alike _ _ _ _ =>
      destruct H; constructor; run_read; try assumption; try reflexivity
  end.

Section Observers.

Variable Scratch : Type.
Variable B : Build.
Variable E : Extern Scratch.
Variable Rs : Scratch -> Scratch -> Prop.

Hypothesis Rs_refl : forall x, Rs x x.

Hypothesis passes_respect :
  forall c, is_observer c = false ->
    forall a b, alike B Rs a b -> alike B Rs (call E c a) (call E c b).

Hypothesis observers_unseen :
  forall c, is_observer c = true ->
    forall a b, alike B Rs a b ->
      alike B Rs (call E c a) b /\ alike B Rs a (call E c b).

Let rel {A : Type} := @related Scratch B Rs A (alike_states B Rs).

Lemma alike_refl (u : CompilationUnit Scratch) : alike B Rs u u.
Proof.
  constructor; try reflexivity;
    [apply same_but_observers_refl|apply Rs_refl].
Qed.

Lemma related_ret {A : Type} P (Q : A -> A -> Prop) (a1 a2 : A) :
  (forall s1 s2, P s1 s2 -> alike_states B Rs s1 s2) ->
  Q a1 a2 -> related B Rs P Q (ret a1) (ret a2).
Proof. intros HP HQ s1 s2 Hs. split; [exact HQ|apply HP, Hs]. Qed.

Lemma related_bind {A C : Type} P (Q : A -> A -> Prop) (Q' : C -> C -> Prop)
    (m1 m2 : Run Scratch A) (k1 k2 : A -> Run Scratch C) :
  related B Rs P Q m1 m2 ->
  (forall a1 a2, Q a1 a2 -> rel Q' (k1 a1) (k2 a2)) ->
  related B Rs P Q' (bind m1 k1) (bind m2 k2).
Proof.
  intros Hm Hk s1 s2 Hs. unfold bind. specialize (Hm s1 s2 Hs).
  destruct (m1 s1) as [a1 t1|w1 t1], (m2 s2) as [a2 t2|w2 t2];
    try contradiction; [|exact Logic.I].
  destruct Hm as [Ha Ht]. apply (Hk a1 a2 Ha t1 t2 Ht).
Qed.

Lemma related_get_cu : rel (alike B Rs) get_cu get_cu.
Proof. intros s1 s2 Hs. split; exact Hs. Qed.

Lemma related_invoke (c : Callee) :
  is_observer c = false -> rel eq (invoke E c) (invoke E c).
Proof.
  intros Hc s1 s2 Hs. split; [reflexivity|].
  apply passes_respect; assumption.
Qed.

Lemma related_observer (b1 b2 : bool) (c : Callee) :
  is_observer c = true ->
  rel eq (when b1 (invoke E c)) (when b2 (invoke E c)).
Proof.
  intros Hc s1 s2 Hs.
  destruct (observers_unseen c Hc _ _ Hs) as [Hl Hr].
  destruct (observers_unseen c Hc _ _ Hr) as [Hb _].
  destruct b1, b2; (split; [reflexivity|]); assumption.
Qed.

Lemma related_assign (f1 f2 : CompilationUnit Scratch -> CompilationUnit Scratch) :
  (forall a b, alike B Rs a b -> alike B Rs (f1 a) (f2 b)) ->
  rel eq (assign f1) (assign f2).
Proof. intros Hf s1 s2 Hs. split; [reflexivity|]. apply Hf, Hs. Qed.

Lemma related_when (b : bool) (m1 m2 : Run Scratch unit) :
  rel eq m1 m2 -> rel eq (when b m1) (when b m2).
Proof.
  intros Hm. destruct b; [exact Hm|].
  intros s1 s2 Hs. split; [reflexivity|exact Hs].
Qed.

Lemma related_abort {A : Type} P (Q : A -> A -> Prop) (w1 w2 : Abort) :
  related B Rs P Q (abort w1) (abort w2).
Proof. intros s1 s2 _. exact Logic.I. Qed.

Lemma related_DCHECK (cond : bool) (what : string) :
  rel eq (DCHECK B cond what) (DCHECK B cond what).
Proof.
  intros s1 s2 Hs. unfold DCHECK.
  destruct (kEnableDChecks B); [destruct cond|];
    first [exact Logic.I | split; [reflexivity|exact Hs]].
Qed.

Lemma related_same_run {A : Type} (Q : A -> A -> Prop)
    (m1 m2 : Run Scratch A) (f1 f2 : Session Scratch -> Session Scratch)
    (a1 a2 : A) :
  (forall s, m1 s = Done a1 (f1 s)) ->
  (forall s, m2 s = Done a2 (f2 s)) ->
  Q a1 a2 ->
  (forall s1 s2, alike_states B Rs s1 s2 -> alike_states B Rs (f1 s1) (f2 s2)) ->
  rel Q m1 m2.
Proof.
  intros H1 H2 HQ Hf s1 s2 Hs. rewrite H1, H2. split; [exact HQ|].
  apply Hf, Hs.
Qed.

(** *** Lines 129-144 *)

Lemma setup_unit_related (compiler : CompilerDriver)
    (backend : CompilerBackend) (code_item : CodeItem)
    (llvm_unit : LlvmCompilationUnit) :
  rel eq (setup_unit B E compiler backend code_item llvm_unit)
         (setup_unit B E compiler backend code_item llvm_unit).
Proof.
  unfold setup_unit.
  eapply related_bind;
    [apply related_assign; intros a b H; alike_fields|intros [] [] _].
  eapply related_bind;
    [apply related_assign; intros a b H; alike_fields|intros [] [] _].
  eapply related_bind;
    [apply related_assign; intros a b H; alike_fields|intros [] [] _].
  eapply related_bind; [apply related_get_cu|intros c1 c2 Hc].
  rewrite (alike_instruction_set _ _ _ _ _ Hc).
  eapply related_bind; [apply related_DCHECK|intros [] [] _].
  eapply related_bind;
    [apply related_assign; intros a b H; alike_fields|intros [] [] _].
  eapply related_bind; [|intros [] [] _].
  - apply related_when.
    eapply related_bind;
      [apply related_assign; intros a b H; alike_fields|intros [] [] _].
    eapply related_bind;
      [apply related_assign; intros a b H; alike_fields|intros [] [] _].
    apply related_assign; intros a b H; alike_fields.
  - apply related_assign; intros a b H; alike_fields.
Qed.

(** *** Lines 146-176, for two settings of the default words *)

Variables G1 G2 : Globals.

Hypothesis same_disable :
  kCompilerOptimizerDisableFlags G1 = kCompilerOptimizerDisableFlags G2.
Hypothesis same_debug :
  same_but_observers B (kCompilerDebugFlags G1) (kCompilerDebugFlags G2).

Lemma resolved_alike (method_idx : Z) (dex_file : DexFile)
    (a b : CompilationUnit Scratch) :
  alike B Rs a b ->
  alike B Rs (resolved B E G1 method_idx dex_file a)
             (resolved B E G2 method_idx dex_file b).
Proof.
  intros H. unfold resolved.
  assert (Hf : alike B Rs (filtered B E G1 method_idx dex_file a)
                          (filtered B E G2 method_idx dex_file b)).
  { unfold filtered. rewrite (alike_compiler_method_match _ _ _ _ _ H).
    destruct (string_empty (compiler_method_match b)
              || string_find (compiler_method_match b)
                   (PrettyMethod E method_idx dex_file));
      alike_fields. }
  assert (Hv : alike B Rs (verified B (filtered B E G1 method_idx dex_file a))
                          (verified B (filtered B E G2 method_idx dex_file b))).
  { unfold verified. rewrite (alike_gen_bitcode _ _ _ _ _ Hf).
    destruct (kIsDebugBuild B && gen_bitcode _); [|exact Hf].
    alike_fields. now apply same_but_observers_or. }
  unfold mips_applied. rewrite (alike_instruction_set _ _ _ _ _ Hv).
  destruct (InstructionSet_eqb _ kMips); [|exact Hv].
  rewrite (alike_disable_opt _ _ _ _ _ Hv). alike_fields.
Qed.

Lemma resolve_flags_related (method_idx : Z) (dex_file : DexFile) :
  rel eq (resolve_flags B E G1 method_idx dex_file)
         (resolve_flags B E G2 method_idx dex_file).
Proof.
  eapply related_same_run.
  - intros s. apply resolve_flags_run.
  - intros s. apply resolve_flags_run.
  - reflexivity.
  - intros s1 s2 Hs. apply resolved_alike, Hs.
Qed.

(** *** Lines 178-222 *)

Ltac rel_invoke :=
  eapply related_bind; [apply related_invoke; reflexivity|intros [] [] _].

Ltac rel_observer :=
  eapply related_bind; [apply related_observer; reflexivity|intros [] [] _].

Ltac rel_get c1 c2 H :=
  eapply related_bind; [apply related_get_cu|intros c1 c2 H].

Lemma build_mir_related (code_item : CodeItem)
    (access_flags invoke_type class_def_idx method_idx : Z)
    (class_loader : jobject) (dex_file : DexFile) :
  rel eq (build_mir B E G1 code_item access_flags invoke_type class_def_idx
                    method_idx class_loader dex_file)
         (build_mir B E G2 code_item access_flags invoke_type class_def_idx
                    method_idx class_loader dex_file).
Proof.
  unfold build_mir.
  eapply related_bind;
    [apply related_assign; intros a b H; alike_fields|intros [] [] _].
  rel_invoke. rel_observer. rel_invoke. rel_invoke.
  rel_get c1 c2 Hc. rel_observer.
  do 6 rel_invoke.
  rel_get c1' c2' Hc'. rel_observer.
  apply related_invoke; reflexivity.
Qed.

(** *** Lines 224-290 *)

Lemma codegen_related (compiler : CompilerDriver)
    (backend : CompilerBackend) (code_item : CodeItem)
    (special_case : SpecialCaseHandler) :
  rel eq (codegen B E compiler backend code_item special_case)
         (codegen B E compiler backend code_item special_case).
Proof.
  unfold codegen. rel_get c1 c2 Hc.
  rewrite (alike_gen_bitcode _ _ _ _ _ Hc).
  destruct (ART_USE_PORTABLE_COMPILER B && gen_bitcode c2).
  - rel_invoke. destruct (CompilerBackend_eqb backend kPortable).
    + rel_invoke. apply related_ret; [auto|reflexivity].
    + apply related_ret; [auto|reflexivity].
  - eapply related_bind; [|intros [] [] _; apply related_ret; [auto|reflexivity]].
    unfold quick_codegen.
    eapply related_bind; [|intros [] [] _].
    { unfold init_codegen.
      destruct (GetInstructionSet compiler);
        first [apply related_invoke; reflexivity | apply related_abort]. }
    eapply related_bind; [|intros [] [] _].
    { unfold allocate_registers. do 6 rel_invoke.
      apply related_invoke; reflexivity. }
    unfold lower, special_codegen.
    eapply related_bind;
      [apply related_when, related_invoke; reflexivity|intros [] [] _].
    rel_get c1' c2' Hc'. rewrite (alike_first_lir_insn _ _ _ _ _ Hc').
    apply related_when, related_invoke; reflexivity.
Qed.

(** *** Lines 292-309 *)

Lemma assemble_related : rel eq (assemble B E G1) (assemble B E G2).
Proof.
  unfold assemble. rel_get c1 c2 Hc.
  rewrite (alike_first_lir_insn _ _ _ _ _ Hc).
  eapply related_bind; [|intros [] [] _].
  - apply related_when. rel_invoke. rel_invoke.
    rel_get c1' c2' Hc'. apply related_observer; reflexivity.
  - apply related_observer; reflexivity.
Qed.

(** *** Lines 311-329 *)

Lemma combine_vmap_tables_related :
  rel eq (combine_vmap_tables B) (combine_vmap_tables B).
Proof.
  unfold combine_vmap_tables.
  eapply related_bind; [|intros [] [] _].
  { apply related_assign. intros a b H.
    rewrite (alike_core_vmap_table _ _ _ _ _ H). alike_fields. }
  rel_get c1 c2 Hc.
  rewrite (alike_core_vmap_table _ _ _ _ _ Hc),
          (alike_fp_vmap_table _ _ _ _ _ Hc),
          (alike_frame_size _ _ _ _ _ Hc),
          (alike_core_spill_mask _ _ _ _ _ Hc),
          (alike_fp_spill_mask _ _ _ _ _ Hc).
  eapply related_bind with (Q := eq);
    [|intros t1 t2 <-; apply related_ret; [auto|reflexivity]].
  destruct (0 <? frame_size c2).
  - apply related_ret; [auto|reflexivity].
  - unfold DCHECK_EQ.
    eapply related_bind; [apply related_DCHECK|intros [] [] _].
    eapply related_bind; [apply related_DCHECK|intros [] [] _].
    apply related_ret; [auto|reflexivity].
Qed.

(** *** Lines 330-347 *)

Lemma package_related (vmap_table : list Z) :
  rel eq (package B E vmap_table) (package B E vmap_table).
Proof.
  unfold package. rel_get c1 c2 Hc.
  rewrite (alike_instruction_set _ _ _ _ _ Hc),
          (alike_code_buffer _ _ _ _ _ Hc),
          (alike_frame_size _ _ _ _ _ Hc),
          (alike_core_spill_mask _ _ _ _ _ Hc),
          (alike_fp_spill_mask _ _ _ _ _ Hc),
          (alike_combined_mapping_table _ _ _ _ _ Hc),
          (alike_native_gc_map _ _ _ _ _ Hc).
  rel_observer. rel_invoke. apply related_ret; [auto|reflexivity].
Qed.

Lemma emit_related : rel eq (emit B E G1) (emit B E G2).
Proof.
  unfold emit.
  eapply related_bind; [apply assemble_related|intros [] [] _].
  eapply related_bind with (Q := eq);
    [apply combine_vmap_tables_related|intros t1 t2 <-].
  apply package_related.
Qed.

(** *** The whole compile, from one starting state *)

Lemma CompileMethod_related (compiler : CompilerDriver)
    (backend : CompilerBackend) (code_item : CodeItem)
    (access_flags invoke_type class_def_idx method_idx : Z)
    (class_loader : jobject) (dex_file : DexFile)
    (llvm_unit : LlvmCompilationUnit) :
  related B Rs eq eq
    (CompileMethod B E G1 compiler backend code_item access_flags
       invoke_type class_def_idx method_idx class_loader dex_file llvm_unit)
    (CompileMethod B E G2 compiler backend code_item access_flags
       invoke_type class_def_idx method_idx class_loader dex_file llvm_unit).
Proof.
  unfold CompileMethod.
  eapply related_bind with (Q := eq);
    [|intros d1 d2 <-; destruct d1;
      [apply related_ret; [auto|reflexivity]|apply emit_related]].
  unfold lowered.
  eapply related_bind with (Q := eq); [|intros [] [] _].
  - unfold configure.
    eapply related_bind with (Q := eq).
    + intros s1 s2 <-. unfold invoke_HeapInit.
      split; [reflexivity|apply alike_refl].
    + intros ok1 ok2 <-.
      eapply related_bind; [|intros [] [] _].
      * destruct ok1; cbn [negb when].
        -- apply related_ret; [auto|reflexivity].
        -- apply related_abort.
      * eapply related_bind; [apply setup_unit_related|intros [] [] _].
        apply resolve_flags_related.
  - eapply related_bind; [apply build_mir_related|intros [] [] _].
    apply codegen_related.
Qed.

End Observers.

(** C9.  Two compiles of the same method that differ only in the
    observer bits of [kCompilerDebugFlags] and in [VLOG_IS_ON(compiler)]
    end the same way, and if they return they return equal artifacts.
    The passes are taken to treat alike two units that differ in
    diagnostics only, and the reports to leave a unit alike to what it
    was. *)
Theorem observers_do_not_affect_artifact :
  forall (Scratch : Type) (B : Build) (E : Extern Scratch)
         (Rs : Scratch -> Scratch -> Prop) (G1 G2 : Globals)
         (compiler : CompilerDriver) (backend : CompilerBackend)
         (code_item : CodeItem)
         (access_flags invoke_type class_def_idx method_idx : Z)
         (class_loader : jobject) (dex_file : DexFile)
         (llvm_unit : LlvmCompilationUnit),
    (forall x, Rs x x) ->
    (forall c, is_observer c = false ->
       forall a b, alike B Rs a b -> alike B Rs (call E c a) (call E c b)) ->
    (forall c, is_observer c = true ->
       forall a b, alike B Rs a b ->
         alike B Rs (call E c a) b /\ alike B Rs a (call E c b)) ->
    kCompilerOptimizerDisableFlags G1 = kCompilerOptimizerDisableFlags G2 ->
    same_but_observers B (kCompilerDebugFlags G1) (kCompilerDebugFlags G2) ->
    returned
      (CompileOneMethod B E G1 compiler backend code_item access_flags
         invoke_type class_def_idx method_idx class_loader dex_file llvm_unit)
    = returned
        (CompileOneMethod B E G2 compiler backend code_item access_flags
           invoke_type class_def_idx method_idx class_loader dex_file
           llvm_unit).
Proof.
  intros Scratch B E Rs G1 G2 compiler backend code_item access_flags
         invoke_type class_def_idx method_idx class_loader dex_file llvm_unit
         Hrefl Hpass Hobs Hopt Hdbg.
  pose proof (CompileMethod_related Scratch B E Rs Hrefl Hpass Hobs G1 G2
                Hopt Hdbg compiler backend code_item access_flags invoke_type
                class_def_idx method_idx class_loader dex_file llvm_unit
                (fresh E) (fresh E) eq_refl) as H.
  unfold CompileOneMethod.
  destruct (CompileMethod B E G1 _ _ _ _ _ _ _ _ _ _ _) as [r1 t1|w1 t1],
           (CompileMethod B E G2 _ _ _ _ _ _ _ _ _ _ _) as [r2 t2|w2 t2];
    try contradiction; cbn [returned].
  - destruct H as [-> _]. reflexivity.
  - reflexivity.
Qed.

Lemma all_observer_bits_same (B : Build) :
  (forall d, 0 <= debug_pos B d) ->
  same_but_observers B 0 (all_observer_bits B).
Proof.
  intros Hpos n Hn Hd. unfold all_observer_bits.
  rewrite Z.bits_0, !Z.lor_spec, !Z.shiftl_1_l.
  rewrite !Z.pow2_bits_eqb by apply Hpos.
  symmetry.
  repeat (apply orb_false_intro);
    apply Z.eqb_neq; intros Heq;
    (eapply Hd; [|symmetry; exact Heq]); reflexivity.
Qed.

Lemma observers_do_not_affect_artifact_witness :
  returned (toy_compile (toy_build false true 16) toy_asm true ""
              (initial_globals (toy_build false true 16) false)
              kThumb2 kQuick toy_code)
  = returned (toy_compile (toy_build false true 16) toy_asm true ""
                toy_all_reports kThumb2 kQuick toy_code).
Proof.
  apply (observers_do_not_affect_artifact ToyScratch
           (toy_build false true 16) (toy_extern toy_asm true "")
           toy_same_ir
           (initial_globals (toy_build false true 16) false)
           toy_all_reports).
  - intros x. reflexivity.
  - intros c Hc a b H. destruct c; try discriminate Hc; try exact H;
      cbn [call toy_extern toy_call].
    + destruct H; constructor; cbn; try assumption; reflexivity.
    + pose proof (alike_scratch _ _ _ _ _ H) as Hir.
      unfold toy_same_ir in Hir. rewrite Hir.
      destruct (ir_size (scratch b) =? 0); [exact H|].
      destruct H; constructor; cbn; try assumption; reflexivity.
    + pose proof (alike_scratch _ _ _ _ _ H) as Hir.
      unfold toy_same_ir in Hir. unfold toy_assemble. rewrite Hir.
      destruct H; constructor; cbn; try assumption; reflexivity.
  - intros c Hc a b H. destruct c; try discriminate Hc;
      cbn [call toy_extern toy_call]; unfold toy_report;
      (split; destruct H; constructor; cbn; try assumption; reflexivity).
  - reflexivity.
  - apply all_observer_bits_same. intros d. destruct d; simpl; lia.
Defined.

(** * The quick compiler context *)

Section Context.

Variable B : Build.

Local Open Scope step_scope.

(** The constructor always returns; it leaves the context slot alone,
    sets the once flag outside portable builds, and starts LLVM's
    multithreading only if the flag was clear. *)
Lemma LLVMInfo_new_run (p : Process) :
  exists p',
    LLVMInfo_new B p = Done {| llvm_serial := contexts_made p |} p'
    /\ compiler_context p' = compiler_context p
    /\ llvm_multi_init p'
       = (llvm_multi_init p || negb (ART_USE_PORTABLE_COMPILER B))%bool
    /\ started p'
       = (started p
          + if (negb (ART_USE_PORTABLE_COMPILER B)
                && negb (llvm_multi_init p))%bool then 1 else 0)%nat
    /\ contexts_made p' = S (contexts_made p).
Proof.
  destruct p as [flag log ctx].
  unfold LLVMInfo_new, started, contexts_made, when,
    pthread_once_llvm_multi_init, InitializeLLVMForQuick, llvm_call, bind, ret.
  destruct (ART_USE_PORTABLE_COMPILER B), flag; cbn;
    rewrite ?filter_app, ?length_app; cbn; rewrite ?Nat.add_0_r;
    eexists; (split; [reflexivity |]); cbn;
    rewrite ?filter_app, ?length_app; cbn;
    repeat split; lia.
Qed.

Lemma init_with_context (p : Process) (info : LLVMInfo) :
  compiler_context p = Some info ->
  ArtInitQuickCompilerContext B p
  = Aborted (LogFatal "Check failed: compiler.GetCompilerContext() == NULL") p.
Proof.
  intros H. unfold ArtInitQuickCompilerContext, bind, CHECK, abort.
  rewrite H. reflexivity.
Qed.

Lemma init_without_context (p : Process) :
  compiler_context p = None ->
  exists p',
    ArtInitQuickCompilerContext B p = Done tt p'
    /\ compiler_context p' = Some {| llvm_serial := contexts_made p |}
    /\ llvm_multi_init p'
       = (llvm_multi_init p || negb (ART_USE_PORTABLE_COMPILER B))%bool
    /\ started p'
       = (started p
          + if (negb (ART_USE_PORTABLE_COMPILER B)
                && negb (llvm_multi_init p))%bool then 1 else 0)%nat
    /\ contexts_made p' = S (contexts_made p).
Proof.
  intros H.
  destruct (LLVMInfo_new_run p) as (q & Hrun & Hctx & Hflag & Hstart & Hmade).
  unfold ArtInitQuickCompilerContext.
  unfold bind at 1. rewrite H. unfold CHECK, ret.
  unfold bind at 1. unfold bind at 1. rewrite Hrun.
  unfold SetCompilerContext. eexists. split; [reflexivity |].
  unfold started, contexts_made in *. cbn. auto.
Qed.

End Context.

Section ContextProtocol.

Variable B : Build.

Local Open Scope step_scope.

Lemma has_context_cases (p : Process) :
  (has_context p = true /\ exists info, compiler_context p = Some info)
  \/ (has_context p = false /\ compiler_context p = None).
Proof.
  unfold has_context. destruct (compiler_context p) as [info |].
  - left. split; [reflexivity | exists info; reflexivity].
  - right. split; reflexivity.
Qed.

Lemma context_ops_init (rest : list ContextOp) (p : Process) :
  context_ops B (InitContext :: rest) p
  = match ArtInitQuickCompilerContext B p with
    | Done _ p' => context_ops B rest p'
    | Aborted why p' => Aborted why p'
    end.
Proof. reflexivity. Qed.

Lemma context_ops_uninit (rest : list ContextOp) (p : Process) :
  context_ops B (UnInitContext :: rest) p
  = context_ops B rest {| llvm_multi_init := llvm_multi_init p;
                          llvm_calls := llvm_calls p;
                          compiler_context := None |}.
Proof. reflexivity. Qed.

Lemma last_some {A : Type} (a : A) (l : list A) :
  exists b, last (map Some (a :: l)) None = Some b.
Proof.
  revert a. induction l as [| c l IH]; intros a.
  - exists a. reflexivity.
  - destruct (IH c) as [b Hb]. exists b. exact Hb.
Qed.

(** X1. [ArtInitQuickCompilerContext] returns exactly when the driver has
    no context yet; when it has one, the call is fatal in every build and
    leaves the process as it was: no [LLVMInfo] is constructed. *)
Theorem quick_context_init_checked (p : Process) :
  completed (ArtInitQuickCompilerContext B p) = negb (has_context p)
  /\ (has_context p = true ->
      ArtInitQuickCompilerContext B p
      = Aborted
          (LogFatal "Check failed: compiler.GetCompilerContext() == NULL") p)
  /\ (has_context p = false ->
      has_context (final_state (ArtInitQuickCompilerContext B p)) = true).
Proof.
  destruct (has_context_cases p) as [[Hhas [info Hctx]] | [Hhas Hctx]];
    rewrite Hhas.
  - rewrite (init_with_context B p info Hctx).
    split; [reflexivity | split; [reflexivity | discriminate]].
  - destruct (init_without_context B p Hctx) as (q & Hrun & Hq & _).
    rewrite Hrun. split; [reflexivity | split; [discriminate |]].
    intros _. unfold has_context, final_state. rewrite Hq. reflexivity.
Qed.

(** X2. A sequence of initialisations and releases of the context runs
    to its end exactly when it never initialises while a context is
    installed. *)
Theorem quick_context_protocol (ops : list ContextOp) (p : Process) :
  completed (context_ops B ops p) = ops_ok (has_context p) ops.
Proof.
  revert p. induction ops as [| op rest IH]; intros p; [reflexivity |].
  destruct op.
  - rewrite context_ops_init. cbn [ops_ok].
    destruct (has_context_cases p) as [[Hhas [info Hctx]] | [Hhas Hctx]];
      rewrite Hhas.
    + rewrite (init_with_context B p info Hctx). reflexivity.
    + destruct (init_without_context B p Hctx) as (q & Hrun & Hq & _).
      rewrite Hrun, IH. unfold has_context at 1. rewrite Hq. reflexivity.
  - rewrite context_ops_uninit, IH. reflexivity.
Qed.

(** X3. Whatever the driver does with the context, LLVM's multithreading
    is started at most once per process: never again once the flag of
    [pthread_once] is set, and never at all in a portable build. *)
Theorem llvm_started_at_most_once (ops : list ContextOp) (p : Process) :
  let p' := final_state (context_ops B ops p) in
  (started p <= started p')%nat
  /\ (started p'
      <= started p
         + if (ART_USE_PORTABLE_COMPILER B || llvm_multi_init p)%bool
           then 0 else 1)%nat
  /\ (llvm_multi_init p = true -> llvm_multi_init p' = true).
Proof.
  revert p. induction ops as [| op rest IH]; intros p.
  - cbn. repeat split; [lia | lia | auto].
  - destruct op.
    + cbv zeta. rewrite context_ops_init.
      destruct (has_context_cases p) as [[Hhas [info Hctx]] | [Hhas Hctx]].
      * rewrite (init_with_context B p info Hctx). cbn.
        repeat split; [lia | lia | auto].
      * destruct (init_without_context B p Hctx)
          as (q & Hrun & _ & Hflag & Hstart & _).
        rewrite Hrun. specialize (IH q). cbv zeta in IH.
        destruct IH as (IH1 & IH2 & IH3).
        rewrite Hflag, Hstart in *.
        destruct (ART_USE_PORTABLE_COMPILER B), (llvm_multi_init p);
          cbn in *; repeat split; auto; try lia.
    + cbv zeta. rewrite context_ops_uninit.
      specialize (IH {| llvm_multi_init := llvm_multi_init p;
                        llvm_calls := llvm_calls p;
                        compiler_context := None |}).
      exact IH.
Qed.

(** X4. On a sequence that keeps to the protocol, every initialisation
    makes exactly one LLVM context, and a context is installed at the end
    exactly when the last operation was an initialisation. *)
Theorem quick_context_accounting (ops : list ContextOp) (p : Process) :
  ops_ok (has_context p) ops = true ->
  let p' := final_state (context_ops B ops p) in
  contexts_made p'
  = (contexts_made p
     + List.length (filter (fun op => match op with
                                      | InitContext => true
                                      | UnInitContext => false
                                      end) ops))%nat
  /\ has_context p'
     = match last (map Some ops) None with
       | Some InitContext => true
       | Some UnInitContext => false
       | None => has_context p
       end.
Proof.
  revert p. induction ops as [| op rest IH]; intros p Hok.
  - cbn. split; [lia | reflexivity].
  - destruct op.
    + cbv zeta. rewrite context_ops_init.
      cbn [ops_ok] in Hok. apply andb_prop in Hok. destruct Hok as [Hno Hok].
      destruct (has_context_cases p) as [[Hhas _] | [Hhas Hctx]];
        [rewrite Hhas in Hno; discriminate |].
      destruct (init_without_context B p Hctx)
        as (q & Hrun & Hq & _ & _ & Hmade).
      rewrite Hrun.
      assert (Hhq : has_context q = true)
        by (unfold has_context; rewrite Hq; reflexivity).
      assert (Hok' : ops_ok (has_context q) rest = true)
        by (rewrite Hhq; exact Hok).
      clear Hok. rename Hok' into Hok. specialize (IH q Hok). cbv zeta in IH.
      destruct IH as [IH1 IH2]. rewrite IH1, IH2, Hmade, Hhq.
      split; [cbn; lia |].
      destruct rest as [| op' rest']; [reflexivity |].
      destruct (last_some op' rest') as [b Hb].
      change (last (map Some (InitContext :: op' :: rest')) None)
        with (last (map Some (op' :: rest')) None).
      rewrite Hb. destruct b; reflexivity.
    + cbv zeta. rewrite context_ops_uninit.
      cbn [ops_ok] in Hok.
      set (q := {| llvm_multi_init := llvm_multi_init p;
                   llvm_calls := llvm_calls p;
                   compiler_context := None |}) in *.
      assert (Hhq : has_context q = false) by reflexivity.
      change false with (has_context q) in Hok.
      specialize (IH q Hok). cbv zeta in IH.
      destruct IH as [IH1 IH2]. rewrite IH1, IH2, Hhq.
      split; [reflexivity |].
      destruct rest as [| op' rest']; [reflexivity |].
      destruct (last_some op' rest') as [b Hb].
      change (last (map Some (UnInitContext :: op' :: rest')) None)
        with (last (map Some (op' :: rest')) None).
      rewrite Hb. destruct b; reflexivity.
Qed.

End ContextProtocol.

Lemma quick_context_accounting_witness :
  ops_ok (has_context process_start)
    [InitContext; UnInitContext; UnInitContext; InitContext] = true
  /\ contexts_made
       (final_state
          (context_ops (toy_build false true 16)
             [InitContext; UnInitContext; UnInitContext; InitContext]
             process_start))
     = 2%nat.
Proof.
  split; [reflexivity |].
  destruct (quick_context_accounting (toy_build false true 16)
              [InitContext; UnInitContext; UnInitContext; InitContext]
              process_start eq_refl) as [H _].
  exact H.
Defined.

(** * The exact calls of each block *)

Lemma filter_snoc {A : Type} (p : A -> bool) (l : list A) (a : A) :
  filter p (l ++ [a]) = filter p l ++ (if p a then [a] else []).
Proof. rewrite filter_app. reflexivity. Qed.

(** Brings a log built call by call into the form [start ++ [c1; c2; ...]]. *)
Ltac flatten_log :=
  unfold build_mir_calls, lowering_calls, assemble_calls, package_calls,
    alloc_calls, opt_call;
  cbn [negb SpecialCaseHandler_eqb];
  rewrite <- ?app_assoc; cbn [app]; rewrite ?app_nil_r.

Section Logs.

Variable Scratch : Type.
Variable B : Build.
Variable E : Extern Scratch.
Variable G : Globals.

(** Lines 122-176 make one call, whether they return or abort. *)
Lemma configure_log (compiler : CompilerDriver) (backend : CompilerBackend)
    (code_item : CodeItem) (method_idx : Z) (dex_file : DexFile)
    (llvm_unit : LlvmCompilationUnit) (s : Session Scratch) :
  calls (final_state
           (configure B E G compiler backend code_item method_idx dex_file
                      llvm_unit s))
  = calls s ++ [HeapInit].
Proof.
  run_driver. run_split; reflexivity.
Qed.

Lemma build_mir_log (code_item : CodeItem)
    (access_flags invoke_type class_def_idx method_idx : Z)
    (class_loader : jobject) (dex_file : DexFile) (s : Session Scratch) :
  exists verify stats s',
    build_mir B E G code_item access_flags invoke_type class_def_idx
              method_idx class_loader dex_file s = Done tt s'
    /\ calls s'
       = calls s
         ++ build_mir_calls
              (has_flag (kCompilerDebugFlags G) (debug_pos B kDebugCountOpcodes))
              verify stats code_item access_flags invoke_type class_def_idx
              method_idx class_loader dex_file.
Proof.
  run_driver.
  destruct (has_flag (kCompilerDebugFlags G) (debug_pos B kDebugCountOpcodes));
    run_driver;
    match goal with
    | |- context [if ?b then _ else _] => destruct b eqn:?
    end; run_driver;
    match goal with
    | |- context [if ?b then _ else _] => destruct b eqn:?
    end; run_driver;
    solve
      [ exists true, true; eexists; split; [reflexivity|];
        run_read; flatten_log; reflexivity
      | exists true, false; eexists; split; [reflexivity|];
        run_read; flatten_log; reflexivity
      | exists false, true; eexists; split; [reflexivity|];
        run_read; flatten_log; reflexivity
      | exists false, false; eexists; split; [reflexivity|];
        run_read; flatten_log; reflexivity ].
Qed.

Lemma allocate_registers_log (code_item : CodeItem) (s : Session Scratch) :
  exists s',
    allocate_registers E code_item s = Done tt s'
    /\ calls s' = calls s ++ alloc_calls code_item.
Proof.
  run_driver. eexists. split; [reflexivity|].
  run_read. flatten_log. reflexivity.
Qed.

Lemma lower_log (special_case : SpecialCaseHandler) (s : Session Scratch) :
  exists generic s',
    lower E special_case s = Done tt s'
    /\ calls s' = calls s ++ lowering_calls special_case generic.
Proof.
  run_driver.
  destruct special_case; cbn [SpecialCaseHandler_eqb negb]; run_driver;
    match goal with
    | |- context [match ?x with Some _ => _ | None => _ end] =>
        destruct x eqn:?
    end; run_driver;
    solve
      [ exists true; eexists; split; [reflexivity|];
        run_read; flatten_log; reflexivity
      | exists false; eexists; split; [reflexivity|];
        run_read; flatten_log; reflexivity ].
Qed.

(** Lines 237-246 abort for a target without a code generator and
    otherwise call the one of the target. *)
Lemma init_codegen_log (compiler : CompilerDriver) (s : Session Scratch) :
  match init_for (GetInstructionSet compiler) with
  | Some c => init_codegen E compiler s = Done tt (called E c s)
  | None =>
      init_codegen E compiler s
      = Aborted (LogFatal "Unexpected instruction set") s
  end.
Proof.
  unfold init_codegen.
  destruct (GetInstructionSet compiler); reflexivity.
Qed.

Lemma quick_codegen_log (compiler : CompilerDriver) (code_item : CodeItem)
    (special_case : SpecialCaseHandler) (s : Session Scratch) :
  match init_for (GetInstructionSet compiler) with
  | Some c =>
      exists generic s',
        quick_codegen E compiler code_item special_case s = Done tt s'
        /\ calls s'
           = calls s ++ [c] ++ alloc_calls code_item
             ++ lowering_calls special_case generic
  | None =>
      quick_codegen E compiler code_item special_case s
      = Aborted (LogFatal "Unexpected instruction set") s
  end.
Proof.
  pose proof (init_codegen_log compiler s) as Hinit.
  unfold quick_codegen.
  destruct (init_for (GetInstructionSet compiler)) as [c|].
  - rewrite (bind_run _ _ _ _ _ Hinit).
    destruct (allocate_registers_log code_item (called E c s))
      as (s1 & Hall & Hl1).
    rewrite (bind_run _ _ _ _ _ Hall).
    destruct (lower_log special_case s1) as (generic & s2 & Hlow & Hl2).
    exists generic, s2. split; [exact Hlow|].
    rewrite Hl2, Hl1. cbn [calls called].
    rewrite <- !app_assoc. reflexivity.
  - unfold bind. rewrite Hinit. reflexivity.
Qed.

(** Lines 224-290: the bitcode conversion in a portable build for a
    unit that generates bitcode, the quick path otherwise. *)
Lemma codegen_split (compiler : CompilerDriver) (backend : CompilerBackend)
    (code_item : CodeItem) (special_case : SpecialCaseHandler)
    (s : Session Scratch) :
  (ART_USE_PORTABLE_COMPILER B && gen_bitcode (cu s) = true
   /\ codegen B E compiler backend code_item special_case s
      = if CompilerBackend_eqb backend kPortable
        then Done true (called E ArenaReset (called E MethodMIR2Bitcode s))
        else Done false (called E MethodMIR2Bitcode s))
  \/ (ART_USE_PORTABLE_COMPILER B && gen_bitcode (cu s) = false
      /\ codegen B E compiler backend code_item special_case s
         = match quick_codegen E compiler code_item special_case s with
           | Done _ s' => Done false s'
           | Aborted why s' => Aborted why s'
           end).
Proof.
  cbv beta iota delta [codegen bind get_cu ret invoke].
  destruct (ART_USE_PORTABLE_COMPILER B && gen_bitcode (cu s)).
  - left. split; [reflexivity|].
    destruct (CompilerBackend_eqb backend kPortable); reflexivity.
  - right. split; reflexivity.
Qed.

Lemma assemble_log (s : Session Scratch) :
  exists s',
    assemble B E G s = Done tt s'
    /\ calls s'
       = calls s
         ++ assemble_calls (is_some (first_lir_insn (cu s))) (dumps E (cu s))
              (has_flag (kCompilerDebugFlags G)
                        (debug_pos B kDebugCountOpcodes)).
Proof.
  unfold dumps. run_driver.
  destruct (first_lir_insn (cu s)); cbn [is_some]; run_driver;
    destruct (has_flag (kCompilerDebugFlags G)
                       (debug_pos B kDebugCountOpcodes));
    run_driver;
    try destruct (verbose (call E AssembleLIR
                             (call E ProcessSwitchTables (cu s))));
    run_driver;
    eexists; (split; [reflexivity|]);
    run_read; flatten_log; reflexivity.
Qed.

(** Lines 311-329 call nothing. *)
Lemma combine_vmap_tables_log (s : Session Scratch) :
  calls (final_state (combine_vmap_tables B s)) = calls s.
Proof.
  run_driver. run_split; reflexivity.
Qed.

Lemma package_log (t : list Z) (s : Session Scratch) :
  exists mem r s',
    package B E t s = Done r s'
    /\ calls s' = calls s ++ package_calls mem.
Proof.
  run_driver.
  destruct (WITH_MEMSTATS B && _); run_driver;
    solve
      [ exists true; do 2 eexists; split; [reflexivity|];
        run_read; flatten_log; reflexivity
      | exists false; do 2 eexists; split; [reflexivity|];
        run_read; flatten_log; reflexivity ].
Qed.

(** Lines 292-347: assembly if there is something to assemble, then the
    artifact and the arena, unless the consistency check at lines
    323-324 stops the compile in between. *)
Lemma emit_log (s : Session Scratch) :
  exists mem,
    calls (final_state (emit B E G s))
    = calls s
      ++ assemble_calls (is_some (first_lir_insn (cu s))) (dumps E (cu s))
           (has_flag (kCompilerDebugFlags G) (debug_pos B kDebugCountOpcodes))
      ++ (if completed (emit B E G s) then package_calls mem else []).
Proof.
  destruct (assemble_log s) as (s1 & Hasm & Hl1).
  unfold emit. rewrite (bind_run _ _ _ _ _ Hasm).
  pose proof (combine_vmap_tables_log s1) as Hl2.
  unfold bind.
  destruct (combine_vmap_tables B s1) as [t s2|why s2];
    cbn [final_state] in Hl2.
  - destruct (package_log t s2) as (mem & r & s3 & Hpack & Hl3).
    exists mem. rewrite Hpack. cbn [final_state completed].
    rewrite Hl3, Hl2, Hl1. rewrite <- !app_assoc. reflexivity.
  - exists false. cbn [final_state completed].
    rewrite Hl2, Hl1, app_nil_r. reflexivity.
Qed.

End Logs.

(** ** The calls of a whole compile *)

Section CompileLog.

Variable Scratch : Type.
Variable B : Build.
Variable E : Extern Scratch.
Variable G : Globals.

Variable compiler : CompilerDriver.
Variable backend : CompilerBackend.
Variable code_item : CodeItem.
Variables access_flags invoke_type class_def_idx method_idx : Z.
Variable class_loader : jobject.
Variable dex_file : DexFile.
Variable llvm_unit : LlvmCompilationUnit.

Let the_compile : Outcome (Session Scratch) (option CompiledMethod) :=
  CompileOneMethod B E G compiler backend code_item access_flags invoke_type
    class_def_idx method_idx class_loader dex_file llvm_unit.

Let counting : bool :=
  has_flag (kCompilerDebugFlags G) (debug_pos B kDebugCountOpcodes).

(** Lines 122-176 abort only for the heap or, where [DCHECK]s are
    compiled in, for the target. *)
Lemma configure_abort_reason (s s' : Session Scratch) (why : Abort) :
  configure B E G compiler backend code_item method_idx dex_file llvm_unit s
  = Aborted why s' ->
  HeapInit_result E (cu s) = false
  \/ (kEnableDChecks B = true
      /\ is_known_target (GetInstructionSet compiler) = false).
Proof.
  intros H.
  destruct (HeapInit_result E (cu s)) eqn:Hh; [|left; reflexivity].
  destruct (kEnableDChecks B) eqn:Hd;
    destruct (is_known_target (GetInstructionSet compiler)) eqn:Hk;
    try (right; split; reflexivity);
    rewrite configure_run in H;
    first [discriminate H | assumption | intros; congruence].
Qed.

(** The five ways through [CompileMethod], with the calls of each: the
    abort in lines 122-176; the portable backend's early return; the
    bitcode conversion for another backend; the missing code generator;
    the quick path. *)
Lemma CompileOneMethod_log :
  exists verify stats generic assembling dump mem,
    let mir :=
      build_mir_calls counting verify stats code_item access_flags
        invoke_type class_def_idx method_idx class_loader dex_file in
    let tail :=
      assemble_calls assembling dump counting
      ++ (if completed the_compile then package_calls mem else []) in
    (completed the_compile = false
     /\ calls (final_state the_compile) = [HeapInit]
     /\ (HeapInit_result E (new_CompilationUnit E) = false
         \/ (kEnableDChecks B = true
             /\ is_known_target (GetInstructionSet compiler) = false)))
    \/ (ART_USE_PORTABLE_COMPILER B = true
        /\ returned the_compile = Some None
        /\ calls (final_state the_compile)
           = [HeapInit] ++ mir ++ [MethodMIR2Bitcode; ArenaReset])
    \/ (ART_USE_PORTABLE_COMPILER B = true
        /\ calls (final_state the_compile)
           = [HeapInit] ++ mir ++ [MethodMIR2Bitcode] ++ tail)
    \/ (init_for (GetInstructionSet compiler) = None
        /\ the_compile
           = Aborted (LogFatal "Unexpected instruction set")
                     (final_state the_compile)
        /\ calls (final_state the_compile) = [HeapInit] ++ mir)
    \/ (exists c,
           init_for (GetInstructionSet compiler) = Some c
           /\ calls (final_state the_compile)
              = [HeapInit] ++ mir ++ [c] ++ alloc_calls code_item
                ++ lowering_calls kNoHandler generic ++ tail).
Proof.
  pose proof (configure_log Scratch B E G compiler backend code_item
                method_idx dex_file llvm_unit (fresh E)) as Hl0.
  unfold the_compile.
  cbv beta iota zeta delta [CompileOneMethod CompileMethod lowered bind].
  destruct (configure B E G compiler backend code_item method_idx dex_file
              llvm_unit (fresh E)) as [[] sa|why sa] eqn:Hconf;
    cbn [final_state calls fresh app] in Hl0.
  2: { exists false, false, false, false, false, false. left.
       split; [reflexivity|]. split; [exact Hl0|].
       exact (configure_abort_reason _ _ _ Hconf). }
  clear Hconf.
  destruct (build_mir_log Scratch B E G code_item access_flags invoke_type
              class_def_idx method_idx class_loader dex_file sa)
    as (verify & stats & sb & Hmir & Hl1).
  fold counting in Hl1. rewrite Hmir, Hl0 in *. clear Hmir.
  exists verify, stats.
  destruct (codegen_split Scratch B E compiler backend code_item kNoHandler sb)
    as [[Hp Hcg]|[Hp Hcg]]; rewrite Hcg; clear Hcg.
  - apply andb_prop in Hp. destruct Hp as [Hp _].
    destruct (CompilerBackend_eqb backend kPortable).
    + exists false, false, false, false. right; left.
      split; [exact Hp|]. split; [reflexivity|].
      cbn [ret final_state calls called]. rewrite Hl1.
      rewrite <- !app_assoc. reflexivity.
    + destruct (emit_log Scratch B E G (called E MethodMIR2Bitcode sb))
        as (mem & Hl2).
      fold counting in Hl2.
      exists false,
        (is_some (first_lir_insn (cu (called E MethodMIR2Bitcode sb)))),
        (dumps E (cu (called E MethodMIR2Bitcode sb))), mem.
      right; right; left. split; [exact Hp|].
      cbv zeta. rewrite Hl2. cbn [calls called]. rewrite Hl1.
      rewrite <- !app_assoc. reflexivity.
  - pose proof (quick_codegen_log Scratch E compiler code_item kNoHandler sb)
      as Hq.
    destruct (init_for (GetInstructionSet compiler)) as [c|].
    + destruct Hq as (generic & sc & Hq & Hl2). rewrite Hq.
      destruct (emit_log Scratch B E G sc) as (mem & Hl3).
      fold counting in Hl3.
      exists generic, (is_some (first_lir_insn (cu sc))), (dumps E (cu sc)),
        mem.
      do 4 right. exists c. split; [reflexivity|].
      cbv zeta. rewrite Hl3, Hl2, Hl1.
      rewrite <- !app_assoc. reflexivity.
    + rewrite Hq. exists false, false, false, false.
      do 3 right; left. split; [reflexivity|].
      split; [reflexivity|]. cbn [final_state]. exact Hl1.
Qed.

End CompileLog.

(** Settles a count or a filter over a log given by its parts. *)
Ltac count_log :=
  unfold no_reset, no_assembly, init_calls, passes_only, count_calls,
    build_mir_calls, lowering_calls, assemble_calls, package_calls,
    alloc_calls, mir_passes, opt_call;
  cbn [negb SpecialCaseHandler_eqb];
  repeat match goal with
         | |- context [if ?b then _ else _] => destruct b
         end;
  reflexivity.

Lemma init_for_cases (t : InstructionSet) (c : Callee) :
  init_for t = Some c ->
  c = InitArmCodegen \/ c = InitMipsCodegen \/ c = InitX86Codegen.
Proof.
  destruct t; intros H; inversion H; auto.
Qed.

(** X5.  [ArenaReset] is the last thing a compile does before it
    returns, on the portable early return as on the ordinary one, and it
    is called exactly once; a compile that aborts has not called it. *)
Theorem arena_reset_ends_compile :
  forall (Scratch : Type) (B : Build) (E : Extern Scratch) (G : Globals)
         (compiler : CompilerDriver) (backend : CompilerBackend)
         (code_item : CodeItem)
         (access_flags invoke_type class_def_idx method_idx : Z)
         (class_loader : jobject) (dex_file : DexFile)
         (llvm_unit : LlvmCompilationUnit),
    let o :=
      CompileOneMethod B E G compiler backend code_item access_flags
        invoke_type class_def_idx method_idx class_loader dex_file llvm_unit in
    if completed o
    then exists log,
           calls (final_state o) = log ++ [ArenaReset] /\ no_reset log
    else no_reset (calls (final_state o)).
Proof.
  intros Scratch B E G compiler backend code_item access_flags invoke_type
         class_def_idx method_idx class_loader dex_file llvm_unit o.
  destruct (CompileOneMethod_log Scratch B E G compiler backend code_item
              access_flags invoke_type class_def_idx method_idx class_loader
              dex_file llvm_unit)
    as (verify & stats & generic & assembling & dump & mem & H).
  cbv zeta in H. fold o in H.
  destruct H as [(Hc & Hl & _)|[(_ & Hr & Hl)|[(_ & Hl)|[(_ & Ha & Hl)|
                 (c & Hi & Hl)]]]].
  - rewrite Hc, Hl. reflexivity.
  - assert (Hc : completed o = true)
      by (destruct o; [reflexivity|discriminate Hr]).
    rewrite Hc, Hl.
    exists ([HeapInit]
            ++ build_mir_calls
                 (has_flag (kCompilerDebugFlags G)
                           (debug_pos B kDebugCountOpcodes))
                 verify stats code_item access_flags invoke_type
                 class_def_idx method_idx class_loader dex_file
            ++ [MethodMIR2Bitcode]).
    split; [rewrite <- !app_assoc; reflexivity|]. count_log.
  - rewrite Hl. destruct (completed o).
    + exists ([HeapInit]
              ++ build_mir_calls
                   (has_flag (kCompilerDebugFlags G)
                             (debug_pos B kDebugCountOpcodes))
                   verify stats code_item access_flags invoke_type
                   class_def_idx method_idx class_loader dex_file
              ++ [MethodMIR2Bitcode]
              ++ assemble_calls assembling dump
                   (has_flag (kCompilerDebugFlags G)
                             (debug_pos B kDebugCountOpcodes))
              ++ opt_call mem DumpMemStats).
      split; [unfold package_calls; rewrite <- !app_assoc; reflexivity|].
      count_log.
    + count_log.
  - rewrite Ha. cbn [completed final_state]. rewrite Ha in Hl.
    cbn [final_state] in Hl. rewrite Hl. count_log.
  - rewrite Hl.
    destruct (completed o).
    + exists ([HeapInit]
              ++ build_mir_calls
                   (has_flag (kCompilerDebugFlags G)
                             (debug_pos B kDebugCountOpcodes))
                   verify stats code_item access_flags invoke_type
                   class_def_idx method_idx class_loader dex_file
              ++ [c] ++ alloc_calls code_item
              ++ lowering_calls kNoHandler generic
              ++ assemble_calls assembling dump
                   (has_flag (kCompilerDebugFlags G)
                             (debug_pos B kDebugCountOpcodes))
              ++ opt_call mem DumpMemStats).
      split; [unfold package_calls; rewrite <- !app_assoc; reflexivity|].
      destruct (init_for_cases _ _ Hi) as [->|[->| ->]]; count_log.
    + destruct (init_for_cases _ _ Hi) as [->|[->| ->]]; count_log.
Qed.

(** X6.  A compile installs at most one code generator, and only the
    one of the driver's target: Arm for Thumb2, Mips for Mips, X86 for
    X86, none for any other target.  In a build without the portable
    compiler a compile that returns has installed it. *)
Theorem code_generator_of_target :
  forall (Scratch : Type) (B : Build) (E : Extern Scratch) (G : Globals)
         (compiler : CompilerDriver) (backend : CompilerBackend)
         (code_item : CodeItem)
         (access_flags invoke_type class_def_idx method_idx : Z)
         (class_loader : jobject) (dex_file : DexFile)
         (llvm_unit : LlvmCompilationUnit),
    let o :=
      CompileOneMethod B E G compiler backend code_item access_flags
        invoke_type class_def_idx method_idx class_loader dex_file llvm_unit in
    let installed := init_calls (calls (final_state o)) in
    match init_for (GetInstructionSet compiler) with
    | Some c => installed = [] \/ installed = [c]
    | None => installed = []
    end
    /\ (ART_USE_PORTABLE_COMPILER B = false ->
        completed o = true ->
        exists c,
          init_for (GetInstructionSet compiler) = Some c
          /\ installed = [c]).
Proof.
  intros Scratch B E G compiler backend code_item access_flags invoke_type
         class_def_idx method_idx class_loader dex_file llvm_unit o installed.
  destruct (CompileOneMethod_log Scratch B E G compiler backend code_item
              access_flags invoke_type class_def_idx method_idx class_loader
              dex_file llvm_unit)
    as (verify & stats & generic & assembling & dump & mem & H).
  cbv zeta in H. fold o in H. subst installed.
  destruct H as [(Hc & Hl & _)|[(Hp & _ & Hl)|[(Hp & Hl)|[(Hi & Ha & Hl)|
                 (c & Hi & Hl)]]]].
  - rewrite Hl, Hc. split; [|discriminate].
    destruct (init_for (GetInstructionSet compiler)); [left|]; reflexivity.
  - rewrite Hl, Hp.
    assert (Hn : init_calls
                   ([HeapInit]
                    ++ build_mir_calls
                         (has_flag (kCompilerDebugFlags G)
                                   (debug_pos B kDebugCountOpcodes))
                         verify stats code_item access_flags invoke_type
                         class_def_idx method_idx class_loader dex_file
                    ++ [MethodMIR2Bitcode; ArenaReset]) = [])
      by count_log.
    rewrite Hn. split; [|discriminate].
    destruct (init_for (GetInstructionSet compiler)); [left|]; reflexivity.
  - rewrite Hl, Hp.
    assert (Hn : init_calls
                   ([HeapInit]
                    ++ build_mir_calls
                         (has_flag (kCompilerDebugFlags G)
                                   (debug_pos B kDebugCountOpcodes))
                         verify stats code_item access_flags invoke_type
                         class_def_idx method_idx class_loader dex_file
                    ++ [MethodMIR2Bitcode]
                    ++ assemble_calls assembling dump
                         (has_flag (kCompilerDebugFlags G)
                                   (debug_pos B kDebugCountOpcodes))
                    ++ (if completed o then package_calls mem else [])) = [])
      by count_log.
    rewrite Hn. split; [|discriminate].
    destruct (init_for (GetInstructionSet compiler)); [left|]; reflexivity.
  - rewrite Hl, Hi.
    split; [count_log|].
    intros _ Hc. rewrite Ha in Hc. discriminate Hc.
  - rewrite Hl, Hi.
    assert (Hn : init_calls
                   ([HeapInit]
                    ++ build_mir_calls
                         (has_flag (kCompilerDebugFlags G)
                                   (debug_pos B kDebugCountOpcodes))
                         verify stats code_item access_flags invoke_type
                         class_def_idx method_idx class_loader dex_file
                    ++ [c] ++ alloc_calls code_item
                    ++ lowering_calls kNoHandler generic
                    ++ assemble_calls assembling dump
                         (has_flag (kCompilerDebugFlags G)
                                   (debug_pos B kDebugCountOpcodes))
                    ++ (if completed o then package_calls mem else []))
                 = [c])
      by (destruct (init_for_cases _ _ Hi) as [->|[->| ->]]; count_log).
    rewrite Hn. split; [right; reflexivity|].
    intros _ _. exists c. split; reflexivity.
Qed.

(** X7.  The bitcode conversion and the quick code generators exclude
    each other: a compile calls [MethodMIR2Bitcode] at most once, and
    then installs no code generator; in a build without the portable
    compiler it never calls the conversion. *)
Theorem bitcode_or_code_generator :
  forall (Scratch : Type) (B : Build) (E : Extern Scratch) (G : Globals)
         (compiler : CompilerDriver) (backend : CompilerBackend)
         (code_item : CodeItem)
         (access_flags invoke_type class_def_idx method_idx : Z)
         (class_loader : jobject) (dex_file : DexFile)
         (llvm_unit : LlvmCompilationUnit),
    let log :=
      calls (final_state
               (CompileOneMethod B E G compiler backend code_item
                  access_flags invoke_type class_def_idx method_idx
                  class_loader dex_file llvm_unit)) in
    (count_calls is_MethodMIR2Bitcode log
     + count_calls is_InitCodegen log <= 1)%nat
    /\ (ART_USE_PORTABLE_COMPILER B = false ->
        count_calls is_MethodMIR2Bitcode log = 0%nat).
Proof.
  intros Scratch B E G compiler backend code_item access_flags invoke_type
         class_def_idx method_idx class_loader dex_file llvm_unit log.
  destruct (CompileOneMethod_log Scratch B E G compiler backend code_item
              access_flags invoke_type class_def_idx method_idx class_loader
              dex_file llvm_unit)
    as (verify & stats & generic & assembling & dump & mem & H).
  cbv zeta in H. fold log in H.
  destruct H as [(_ & Hl & _)|[(Hp & _ & Hl)|[(Hp & Hl)|[(_ & _ & Hl)|
                 (c & Hi & Hl)]]]];
    rewrite Hl; clear Hl log.
  - split; [cbn; lia|reflexivity].
  - rewrite Hp. split; [|discriminate].
    replace (count_calls is_MethodMIR2Bitcode _) with 1%nat by count_log.
    replace (count_calls is_InitCodegen _) with 0%nat by count_log.
    lia.
  - rewrite Hp. split; [|discriminate].
    replace (count_calls is_MethodMIR2Bitcode _) with 1%nat by count_log.
    replace (count_calls is_InitCodegen _) with 0%nat by count_log.
    lia.
  - replace (count_calls is_MethodMIR2Bitcode _) with 0%nat by count_log.
    replace (count_calls is_InitCodegen _) with 0%nat by count_log.
    split; [lia|reflexivity].
  - replace (count_calls is_MethodMIR2Bitcode _) with 0%nat
      by (destruct (init_for_cases _ _ Hi) as [->|[->| ->]]; count_log).
    replace (count_calls is_InitCodegen _) with 1%nat
      by (destruct (init_for_cases _ _ Hi) as [->|[->| ->]]; count_log).
    split; [lia|reflexivity].
Qed.

(** X8.  In a build without the portable compiler, a compile whose heap
    initialises and whose target is known makes, reports aside, these
    calls in this order: [HeapInit], the MIR passes, the target's code
    generator, the five list initialisations and the two register
    allocation calls, generic lowering, switch-table resolution and
    assembly, [ArenaReset].  Only generic lowering, the two assembly
    calls (both or neither) and the final reset can be missing, and the
    reset is missing exactly when the compile aborts. *)
Theorem quick_path_call_order :
  forall (Scratch : Type) (B : Build) (E : Extern Scratch) (G : Globals)
         (compiler : CompilerDriver) (backend : CompilerBackend)
         (code_item : CodeItem)
         (access_flags invoke_type class_def_idx method_idx : Z)
         (class_loader : jobject) (dex_file : DexFile)
         (llvm_unit : LlvmCompilationUnit),
    ART_USE_PORTABLE_COMPILER B = false ->
    HeapInit_result E (new_CompilationUnit E) = true ->
    is_known_target (GetInstructionSet compiler) = true ->
    let o :=
      CompileOneMethod B E G compiler backend code_item access_flags
        invoke_type class_def_idx method_idx class_loader dex_file llvm_unit in
    exists (c : Callee) (generic assembling : bool),
      init_for (GetInstructionSet compiler) = Some c
      /\ passes_only (calls (final_state o))
         = [HeapInit]
           ++ mir_passes code_item access_flags invoke_type class_def_idx
                         method_idx class_loader dex_file
           ++ [c] ++ alloc_calls code_item
           ++ opt_call generic MethodMIR2LIR
           ++ (if assembling then [ProcessSwitchTables; AssembleLIR] else [])
           ++ opt_call (completed o) ArenaReset.
Proof.
  intros Scratch B E G compiler backend code_item access_flags invoke_type
         class_def_idx method_idx class_loader dex_file llvm_unit
         Hquick Hheap Hknown o.
  destruct (CompileOneMethod_log Scratch B E G compiler backend code_item
              access_flags invoke_type class_def_idx method_idx class_loader
              dex_file llvm_unit)
    as (verify & stats & generic & assembling & dump & mem & H).
  cbv zeta in H. fold o in H.
  destruct H as [(_ & _ & [Hh|[_ Hk]])|[(Hp & _)|[(Hp & _)|[(Hi & _)|
                 (c & Hi & Hl)]]]];
    try congruence.
  - destruct (GetInstructionSet compiler); discriminate.
  - exists c, generic, assembling. split; [exact Hi|].
    rewrite Hl.
    destruct (init_for_cases _ _ Hi) as [->|[->| ->]]; count_log.
Qed.

Lemma quick_path_call_order_witness :
  exists (c : Callee) (generic assembling : bool),
    init_for kThumb2 = Some c
    /\ passes_only
         (calls (final_state
                   (toy_compile (toy_build false true 16) toy_asm true ""
                      (initial_globals (toy_build false true 16) false)
                      kThumb2 kQuick toy_code)))
       = [HeapInit]
         ++ mir_passes toy_code 1 0 0 42 0 0
         ++ [c] ++ alloc_calls toy_code
         ++ opt_call generic MethodMIR2LIR
         ++ (if assembling then [ProcessSwitchTables; AssembleLIR] else [])
         ++ opt_call
              (completed
                 (toy_compile (toy_build false true 16) toy_asm true ""
                    (initial_globals (toy_build false true 16) false)
                    kThumb2 kQuick toy_code))
              ArenaReset.
Proof.
  apply (quick_path_call_order ToyScratch (toy_build false true 16)
           (toy_extern toy_asm true "")
           (initial_globals (toy_build false true 16) false)
           (toy_driver kThumb2 kQuick) kQuick toy_code 1 0 0 42 0 0
           toy_llvm_unit);
    reflexivity.
Defined.

(** X9.  When lowering hands on a unit with a lowered instruction, the
    compile goes on with switch-table resolution and then assembly, each
    once and next to each other; the listing follows only if [verbose]
    is set once the code is assembled, the opcode statistics only if the
    file-scope word asks for them; then, unless the check of the frame
    stops the compile, the memory report if any and [ArenaReset]. *)
Theorem nonempty_body_is_assembled :
  forall (Scratch : Type) (B : Build) (E : Extern Scratch) (G : Globals)
         (compiler : CompilerDriver) (backend : CompilerBackend)
         (code_item : CodeItem)
         (access_flags invoke_type class_def_idx method_idx : Z)
         (class_loader : jobject) (dex_file : DexFile)
         (llvm_unit : LlvmCompilationUnit) (s1 : Session Scratch) (lir : LIR),
    lowered B E G compiler backend code_item access_flags invoke_type
            class_def_idx method_idx class_loader dex_file llvm_unit
            (fresh E) = Done false s1 ->
    first_lir_insn (cu s1) = Some lir ->
    let o :=
      CompileOneMethod B E G compiler backend code_item access_flags
        invoke_type class_def_idx method_idx class_loader dex_file llvm_unit in
    exists mem,
      calls (final_state o)
      = calls s1
        ++ [ProcessSwitchTables; AssembleLIR]
        ++ opt_call (verbose (call E AssembleLIR
                                (call E ProcessSwitchTables (cu s1))))
                    CodegenDump
        ++ opt_call (has_flag (kCompilerDebugFlags G)
                              (debug_pos B kDebugCountOpcodes))
                    ShowOpcodeStats
        ++ (if completed o then opt_call mem DumpMemStats ++ [ArenaReset]
            else []).
Proof.
  intros Scratch B E G compiler backend code_item access_flags invoke_type
         class_def_idx method_idx class_loader dex_file llvm_unit s1 lir
         Hlow Hlir o.
  assert (Ho : o = emit B E G s1).
  { subst o. unfold CompileOneMethod, CompileMethod.
    rewrite (bind_run _ _ _ _ _ Hlow). reflexivity. }
  rewrite Ho.
  destruct (emit_log Scratch B E G s1) as (mem & Hl).
  exists mem. rewrite Hl, Hlir.
  unfold assemble_calls, package_calls, dumps. cbn [is_some].
  rewrite <- !app_assoc. reflexivity.
Qed.

(** The toy compile of a method with code, up to the end of lowering. *)
Lemma toy_lowered_run :
  lowered (toy_build false true 16) (toy_extern toy_asm true "")
    (initial_globals (toy_build false true 16) false)
    (toy_driver kThumb2 kQuick) kQuick toy_code 1 0 0 42 0 0 toy_llvm_unit
    (fresh (toy_extern toy_asm true ""))
  = Done false
      (final_state
         (lowered (toy_build false true 16) (toy_extern toy_asm true "")
            (initial_globals (toy_build false true 16) false)
            (toy_driver kThumb2 kQuick) kQuick toy_code 1 0 0 42
            0 0 toy_llvm_unit (fresh (toy_extern toy_asm true "")))).
Proof. vm_compute. reflexivity. Qed.

Lemma toy_lowered_lir :
  first_lir_insn
    (cu (final_state
           (lowered (toy_build false true 16) (toy_extern toy_asm true "")
              (initial_globals (toy_build false true 16) false)
              (toy_driver kThumb2 kQuick) kQuick toy_code 1 0 0 42
              0 0 toy_llvm_unit (fresh (toy_extern toy_asm true "")))))
  = Some 1.
Proof. vm_compute. reflexivity. Qed.

Lemma nonempty_body_is_assembled_witness :
  exists mem,
    calls (final_state
        (toy_compile (toy_build false true 16) toy_asm true ""
           (initial_globals (toy_build false true 16) false)
           kThumb2 kQuick toy_code))
    = calls
        (final_state
           (lowered (toy_build false true 16) (toy_extern toy_asm true "")
              (initial_globals (toy_build false true 16) false)
              (toy_driver kThumb2 kQuick) kQuick toy_code 1 0 0 42
              0 0 toy_llvm_unit (fresh (toy_extern toy_asm true ""))))
      ++ [ProcessSwitchTables; AssembleLIR]
      ++ opt_call
           (verbose
              (call (toy_extern toy_asm true "") AssembleLIR
                 (call (toy_extern toy_asm true "") ProcessSwitchTables
                    (cu
        (final_state
           (lowered (toy_build false true 16) (toy_extern toy_asm true "")
              (initial_globals (toy_build false true 16) false)
              (toy_driver kThumb2 kQuick) kQuick toy_code 1 0 0 42
              0 0 toy_llvm_unit (fresh (toy_extern toy_asm true ""))))))))
           CodegenDump
      ++ opt_call
           (has_flag
              (kCompilerDebugFlags
                 (initial_globals (toy_build false true 16) false))
              (debug_pos (toy_build false true 16) kDebugCountOpcodes))
           ShowOpcodeStats
      ++ (if completed
        (toy_compile (toy_build false true 16) toy_asm true ""
           (initial_globals (toy_build false true 16) false)
           kThumb2 kQuick toy_code)
          then opt_call mem DumpMemStats ++ [ArenaReset]
          else []).
Proof.
  apply (nonempty_body_is_assembled ToyScratch (toy_build false true 16)
           (toy_extern toy_asm true "")
           (initial_globals (toy_build false true 16) false)
           (toy_driver kThumb2 kQuick) kQuick toy_code 1 0 0 42 0 0
           toy_llvm_unit
           (final_state
           (lowered (toy_build false true 16) (toy_extern toy_asm true "")
              (initial_globals (toy_build false true 16) false)
              (toy_driver kThumb2 kQuick) kQuick toy_code 1 0 0 42
              0 0 toy_llvm_unit (fresh (toy_extern toy_asm true ""))))
           1 toy_lowered_run toy_lowered_lir).
Defined.

(** * The flag words and the members after lines 122-176 *)

Section FlagWords.

Variable Scratch : Type.
Variable B : Build.
Variable E : Extern Scratch.
Variable G : Globals.

Lemma resolved_debug (method_idx : Z) (dex_file : DexFile)
    (u : CompilationUnit Scratch) :
  enable_debug (resolved B E G method_idx dex_file u)
  = (let general :=
       if string_empty (compiler_method_match u)
          || string_find (compiler_method_match u)
                         (PrettyMethod E method_idx dex_file)
       then kCompilerDebugFlags G
       else enable_debug u in
     if kIsDebugBuild B && gen_bitcode u
     then u32 (Z.lor general (Z.shiftl 1 (debug_pos B kDebugVerifyBitcode)))
     else general).
Proof.
  unfold resolved, mips_applied, verified, filtered.
  destruct (string_empty (compiler_method_match u)
            || string_find (compiler_method_match u)
                 (PrettyMethod E method_idx dex_file));
    run_read;
    destruct (kIsDebugBuild B && gen_bitcode u); run_read;
    destruct (InstructionSet_eqb (instruction_set u) kMips);
    reflexivity.
Qed.

(** Flag resolution writes the two words and [verbose] only. *)
Lemma resolved_keeps_members (method_idx : Z) (dex_file : DexFile)
    (u : CompilationUnit Scratch) :
  let u' := resolved B E G method_idx dex_file u in
  compiler_driver u' = compiler_driver u
  /\ class_linker u' = class_linker u
  /\ llvm_compilation_unit u' = llvm_compilation_unit u
  /\ llvm_info u' = llvm_info u
  /\ symbol u' = symbol u
  /\ num_dalvik_registers u' = num_dalvik_registers u.
Proof.
  unfold resolved, mips_applied, verified, filtered.
  destruct (string_empty (compiler_method_match u)
            || string_find (compiler_method_match u)
                 (PrettyMethod E method_idx dex_file));
    run_read;
    destruct (kIsDebugBuild B && gen_bitcode u); run_read;
    destruct (InstructionSet_eqb (instruction_set u) kMips);
    repeat split; reflexivity.
Qed.

Lemma set_bit_has_flag (w k : Z) :
  0 <= k < 32 -> has_flag (u32 (Z.lor w (Z.shiftl 1 k))) k = true.
Proof.
  intros Hk. rewrite has_flag_testbit by lia. unfold u32.
  rewrite Z.mod_pow2_bits_low, Z.lor_spec, Z.shiftl_1_l, Z.pow2_bits_true
    by lia.
  apply orb_true_r.
Qed.

End FlagWords.

(** X10.  Lines 158-161: in a debug build, for the portable backend, flag
    resolution ends with the [kDebugVerifyBitcode] bit set in
    [enable_debug], whether or not the method passed the filter; in any
    other case [enable_debug] is what the filter step left, the default
    word or the unit's own value. *)
Theorem debug_build_verifies_bitcode :
  forall (Scratch : Type) (B : Build) (E : Extern Scratch) (G : Globals)
         (compiler : CompilerDriver) (backend : CompilerBackend)
         (code_item : CodeItem) (method_idx : Z) (dex_file : DexFile)
         (llvm_unit : LlvmCompilationUnit) (s : Session Scratch),
    0 <= debug_pos B kDebugVerifyBitcode < 32 ->
    HeapInit_result E (cu s) = true ->
    (kEnableDChecks B = true ->
     is_known_target (GetInstructionSet compiler) = true) ->
    let u := call E HeapInit (cu s) in
    let general :=
      if string_empty (compiler_method_match u)
         || string_find (compiler_method_match u)
                        (PrettyMethod E method_idx dex_file)
      then kCompilerDebugFlags G
      else enable_debug u in
    exists s',
      configure B E G compiler backend code_item method_idx dex_file
                llvm_unit s = Done tt s'
      /\ enable_debug (cu s')
         = (if kIsDebugBuild B && CompilerBackend_eqb backend kPortable
            then u32 (Z.lor general
                            (Z.shiftl 1 (debug_pos B kDebugVerifyBitcode)))
            else general)
      /\ (kIsDebugBuild B = true -> backend = kPortable ->
          has_flag (enable_debug (cu s')) (debug_pos B kDebugVerifyBitcode)
          = true).
Proof.
  intros Scratch B E G compiler backend code_item method_idx dex_file
         llvm_unit s Hpos Hheap Hknown u general.
  eexists. split; [apply configure_run; assumption|].
  cbn [cu assigned called]. fold u.
  destruct (after_setup_members Scratch B E compiler backend code_item
              llvm_unit u) as (Hg & _ & _ & Hm).
  assert (Hd : enable_debug
                 (after_setup B E compiler backend code_item llvm_unit u)
               = enable_debug u)
    by (unfold after_setup;
        destruct (ART_USE_PORTABLE_COMPILER B); reflexivity).
  rewrite resolved_debug, Hg, Hm, Hd. cbv zeta. fold general.
  split; [reflexivity|].
  intros Hdebug Hback. rewrite Hdebug, Hback. cbn [andb CompilerBackend_eqb].
  apply set_bit_has_flag, Hpos.
Qed.

Lemma debug_build_verifies_bitcode_witness :
  exists s',
    configure (toy_build true true 16) (toy_extern toy_asm true "Other")
      (initial_globals (toy_build true true 16) false)
      (toy_driver kThumb2 kPortable) kPortable toy_code 42 0 toy_llvm_unit
      (fresh (toy_extern toy_asm true "Other"))
    = Done tt s'
    /\ enable_debug (cu s') = 32768.
Proof.
  destruct (debug_build_verifies_bitcode ToyScratch
              (toy_build true true 16) (toy_extern toy_asm true "Other")
              (initial_globals (toy_build true true 16) false)
              (toy_driver kThumb2 kPortable) kPortable toy_code 42 0
              toy_llvm_unit (fresh (toy_extern toy_asm true "Other")))
    as (s' & Hrun & Hd & _).
  - simpl. lia.
  - reflexivity.
  - reflexivity.
  - exists s'. split; [exact Hrun|]. rewrite Hd. reflexivity.
Defined.

(** X11.  Lines 163-176 touch [disable_opt] for Mips only: for every
    other target flag resolution ends with what the filter step left
    there, the default word or the unit's own value. *)
Theorem other_targets_keep_optimizations :
  forall (Scratch : Type) (B : Build) (E : Extern Scratch) (G : Globals)
         (compiler : CompilerDriver) (backend : CompilerBackend)
         (code_item : CodeItem) (method_idx : Z) (dex_file : DexFile)
         (llvm_unit : LlvmCompilationUnit) (s : Session Scratch),
    GetInstructionSet compiler <> kMips ->
    HeapInit_result E (cu s) = true ->
    (kEnableDChecks B = true ->
     is_known_target (GetInstructionSet compiler) = true) ->
    let u := call E HeapInit (cu s) in
    exists s',
      configure B E G compiler backend code_item method_idx dex_file
                llvm_unit s = Done tt s'
      /\ disable_opt (cu s')
         = if string_empty (compiler_method_match u)
              || string_find (compiler_method_match u)
                             (PrettyMethod E method_idx dex_file)
           then kCompilerOptimizerDisableFlags G
           else disable_opt u.
Proof.
  intros Scratch B E G compiler backend code_item method_idx dex_file
         llvm_unit s Hother Hheap Hknown u.
  eexists. split; [apply configure_run; assumption|].
  cbn [cu assigned called]. fold u.
  destruct (after_setup_members Scratch B E compiler backend code_item
              llvm_unit u) as (_ & Hi & Hd & Hm).
  destruct (resolved_members Scratch B E G method_idx dex_file
              (after_setup B E compiler backend code_item llvm_unit u))
    as (_ & _ & Hr).
  rewrite Hi, Hd, Hm in Hr. cbv zeta in Hr. rewrite Hr.
  destruct (GetInstructionSet compiler); try reflexivity.
  contradiction Hother. reflexivity.
Qed.

Lemma other_targets_keep_optimizations_witness :
  exists s',
    configure (toy_build false true 16) (toy_extern toy_asm true "")
      (initial_globals (toy_build false true 16) false)
      (toy_driver kX86 kQuick) kQuick toy_code 42 0 toy_llvm_unit
      (fresh (toy_extern toy_asm true ""))
    = Done tt s'
    /\ disable_opt (cu s') = 1.
Proof.
  destruct (other_targets_keep_optimizations ToyScratch
              (toy_build false true 16) (toy_extern toy_asm true "")
              (initial_globals (toy_build false true 16) false)
              (toy_driver kX86 kQuick) kQuick toy_code 42 0 toy_llvm_unit
              (fresh (toy_extern toy_asm true "")))
    as (s' & Hrun & Hd).
  - discriminate.
  - reflexivity.
  - reflexivity.
  - exists s'. split; [exact Hrun|]. rewrite Hd. reflexivity.
Defined.

(** X12.  Lines 129-144 survive flag resolution: after lines 122-176 the
    unit holds the driver, the class linker of the runtime, the driver's
    target, whether the backend is the portable one, and the method's
    register count; the LLVM unit, its context and its symbol are
    recorded in a build with the portable compiler and left as they were
    in any other. *)
Theorem unit_members_after_configure :
  forall (Scratch : Type) (B : Build) (E : Extern Scratch) (G : Globals)
         (compiler : CompilerDriver) (backend : CompilerBackend)
         (code_item : CodeItem) (method_idx : Z) (dex_file : DexFile)
         (llvm_unit : LlvmCompilationUnit) (s : Session Scratch),
    HeapInit_result E (cu s) = true ->
    (kEnableDChecks B = true ->
     is_known_target (GetInstructionSet compiler) = true) ->
    let u := call E HeapInit (cu s) in
    exists s',
      configure B E G compiler backend code_item method_idx dex_file
                llvm_unit s = Done tt s'
      /\ compiler_driver (cu s') = Some compiler
      /\ class_linker (cu s') = Some (Runtime_GetClassLinker E)
      /\ instruction_set (cu s') = GetInstructionSet compiler
      /\ gen_bitcode (cu s') = CompilerBackend_eqb backend kPortable
      /\ num_dalvik_registers (cu s') = registers_size_ code_item
      /\ (if ART_USE_PORTABLE_COMPILER B
          then llvm_compilation_unit (cu s') = Some llvm_unit
               /\ llvm_info (cu s') = Some (GetQuickContext llvm_unit)
               /\ symbol (cu s') = GetSymbol llvm_unit
          else llvm_compilation_unit (cu s') = llvm_compilation_unit u
               /\ llvm_info (cu s') = llvm_info u
               /\ symbol (cu s') = symbol u).
Proof.
  intros Scratch B E G compiler backend code_item method_idx dex_file
         llvm_unit s Hheap Hknown u.
  eexists. split; [apply configure_run; assumption|].
  cbn [cu assigned called]. fold u.
  destruct (resolved_keeps_members Scratch B E G method_idx dex_file
              (after_setup B E compiler backend code_item llvm_unit u))
    as (-> & -> & -> & -> & -> & ->).
  destruct (resolved_members Scratch B E G method_idx dex_file
              (after_setup B E compiler backend code_item llvm_unit u))
    as (-> & -> & _).
  unfold after_setup.
  destruct (ART_USE_PORTABLE_COMPILER B); repeat split; reflexivity.
Qed.

Lemma unit_members_after_configure_witness :
  exists s',
    configure (toy_build true true 16) (toy_extern toy_asm true "")
      (initial_globals (toy_build true true 16) false)
      (toy_driver kX86 kPortable) kPortable toy_code 42 0 toy_llvm_unit
      (fresh (toy_extern toy_asm true ""))
    = Done tt s'
    /\ gen_bitcode (cu s') = true
    /\ llvm_compilation_unit (cu s') = Some toy_llvm_unit.
Proof.
  destruct (unit_members_after_configure ToyScratch
              (toy_build true true 16) (toy_extern toy_asm true "")
              (initial_globals (toy_build true true 16) false)
              (toy_driver kX86 kPortable) kPortable toy_code 42 0
              toy_llvm_unit (fresh (toy_extern toy_asm true "")))
    as (s' & Hrun & _ & _ & _ & Hg & _ & Hl & _).
  - reflexivity.
  - reflexivity.
  - exists s'. split; [exact Hrun|]. split; [exact Hg|exact Hl].
Defined.

(** X13.  A build without the portable compiler never looks at the LLVM
    unit it is handed: the compile, its calls and its result are the
    same for any two. *)
Theorem quick_build_ignores_llvm_unit :
  forall (Scratch : Type) (B : Build) (E : Extern Scratch) (G : Globals)
         (compiler : CompilerDriver) (backend : CompilerBackend)
         (code_item : CodeItem)
         (access_flags invoke_type class_def_idx method_idx : Z)
         (class_loader : jobject) (dex_file : DexFile)
         (llvm_unit1 llvm_unit2 : LlvmCompilationUnit),
    ART_USE_PORTABLE_COMPILER B = false ->
    CompileOneMethod B E G compiler backend code_item access_flags
      invoke_type class_def_idx method_idx class_loader dex_file llvm_unit1
    = CompileOneMethod B E G compiler backend code_item access_flags
        invoke_type class_def_idx method_idx class_loader dex_file llvm_unit2.
Proof.
  intros Scratch B E G compiler backend code_item access_flags invoke_type
         class_def_idx method_idx class_loader dex_file llvm_unit1 llvm_unit2
         Hquick.
  unfold CompileOneMethod, CompileMethod, lowered, configure, setup_unit.
  rewrite Hquick. unfold when. reflexivity.
Qed.

Lemma quick_build_ignores_llvm_unit_witness :
  CompileOneMethod (toy_build false true 16) (toy_extern toy_asm true "")
    (initial_globals (toy_build false true 16) false)
    (toy_driver kThumb2 kQuick) kQuick toy_code 1 0 0 42 0 0 toy_llvm_unit
  = CompileOneMethod (toy_build false true 16) (toy_extern toy_asm true "")
      (initial_globals (toy_build false true 16) false)
      (toy_driver kThumb2 kQuick) kQuick toy_code 1 0 0 42 0 0
      {| GetQuickContext := 9; GetSymbol := "Other_run" |}.
Proof.
  apply (quick_build_ignores_llvm_unit ToyScratch (toy_build false true 16)).
  reflexivity.
Defined.

(** * The vmap table as a vector, and the aborts before code generation *)

Lemma std_sort_length (l : list Z) : List.length (std_sort l) = List.length l.
Proof.
  symmetry. apply Permutation_length, std_sort_perm.
Qed.

Lemma u16_range (z : Z) : 0 <= u16 z < 2 ^ 16.
Proof. unfold u16. apply Z.mod_pos_bound. lia. Qed.

Lemma Forall_map_u16 {A : Type} (f : A -> Z) (l : list A) :
  Forall (fun v => 0 <= v < 2 ^ 16) (map (fun a => u16 (f a)) l).
Proof.
  induction l as [|a l IH]; cbn [map]; constructor;
    [apply u16_range|exact IH].
Qed.

(** X14.  Lines 311-329 sort the unit's core table in place, call
    nothing and change nothing else, whether they return or stop on the
    check; the table they return has one entry per core key, one per fp
    entry and, for a positive frame size, the marker right after the
    core entries, and every entry fits in 16 bits whatever the width of
    the inputs. *)
Theorem vmap_table_shape :
  forall (Scratch : Type) (B : Build) (s : Session Scratch),
    let o := combine_vmap_tables B s in
    final_state o
    = assigned (fun c => set_core_vmap_table (std_sort (core_vmap_table c)) c)
               s
    /\ forall t,
         returned o = Some t ->
         List.length t
         = (List.length (core_vmap_table (cu s))
            + (if (0 <? frame_size (cu s))%Z then 1 else 0)
            + List.length (fp_vmap_table (cu s)))%nat
         /\ Forall (fun v => 0 <= v < 2 ^ 16) t
         /\ (0 < frame_size (cu s) ->
             nth_error t (List.length (core_vmap_table (cu s)))
             = Some (u16 (INVALID_VREG B))).
Proof.
  intros Scratch B s o. split.
  - subst o. run_driver. run_split; reflexivity.
  - intros t Ht. subst o.
    destruct (Z.ltb_spec 0 (frame_size (cu s))) as [Hf|Hf].
    + rewrite combine_vmap_tables_frame in Ht by exact Hf.
      inversion Ht; subst t; clear Ht.
      split; [|split].
      * rewrite !length_app, !length_map, std_sort_length.
        cbn [List.length]. rewrite length_map. lia.
      * apply Forall_app. split; [apply Forall_map_u16|].
        constructor; [apply u16_range|].
        apply (Forall_map_u16 (fun v => v)).
      * intros _.
        rewrite nth_error_app2
          by (rewrite length_map, std_sort_length; lia).
        rewrite length_map, std_sort_length, Nat.sub_diag. reflexivity.
    + apply combine_vmap_tables_no_frame in Ht; [|exact Hf]. subst t.
      split; [|split].
      * rewrite !length_app, !length_map, std_sort_length. lia.
      * apply Forall_app. split; [apply Forall_map_u16|].
        apply (Forall_map_u16 (fun v => v)).
      * intros Hpos. lia.
Qed.

(** X15.  When [HeapInit] fails the compile stops at once, on the
    message of line 126: [HeapInit] is the only call made and no member
    of the unit has been assigned. *)
Theorem heap_failure_stops_at_once :
  forall (Scratch : Type) (B : Build) (E : Extern Scratch) (G : Globals)
         (compiler : CompilerDriver) (backend : CompilerBackend)
         (code_item : CodeItem)
         (access_flags invoke_type class_def_idx method_idx : Z)
         (class_loader : jobject) (dex_file : DexFile)
         (llvm_unit : LlvmCompilationUnit),
    HeapInit_result E (new_CompilationUnit E) = false ->
    CompileOneMethod B E G compiler backend code_item access_flags
      invoke_type class_def_idx method_idx class_loader dex_file llvm_unit
    = Aborted (LogFatal "Failed to initialize compiler heap")
              {| cu := call E HeapInit (new_CompilationUnit E);
                 calls := [HeapInit] |}.
Proof.
  intros Scratch B E G compiler backend code_item access_flags invoke_type
         class_def_idx method_idx class_loader dex_file llvm_unit Hheap.
  unfold CompileOneMethod, CompileMethod, lowered, configure.
  unfold bind, invoke_HeapInit. cbn [cu fresh]. rewrite Hheap.
  reflexivity.
Qed.

Lemma heap_failure_stops_at_once_witness :
  CompileOneMethod (toy_build false true 16) (toy_extern toy_asm false "")
    (initial_globals (toy_build false true 16) false)
    (toy_driver kThumb2 kQuick) kQuick toy_code 1 0 0 42 0 0 toy_llvm_unit
  = Aborted (LogFatal "Failed to initialize compiler heap")
            {| cu := call (toy_extern toy_asm false "") HeapInit
                          (new_CompilationUnit (toy_extern toy_asm false ""));
               calls := [HeapInit] |}.
Proof.
  apply (heap_failure_stops_at_once ToyScratch (toy_build false true 16)
           (toy_extern toy_asm false "")).
  reflexivity.
Defined.

(** X16.  A target the driver has no code generator for, with the heap
    initialised: where [DCHECK]s are compiled in the compile stops on the
    check of line 132, with [HeapInit] its only call; where they are
    compiled out, in a build without the portable compiler, it runs the
    MIR passes and stops on the message of line 245, having called no
    code generator and nothing after. *)
Theorem unknown_target_aborts :
  forall (Scratch : Type) (B : Build) (E : Extern Scratch) (G : Globals)
         (compiler : CompilerDriver) (backend : CompilerBackend)
         (code_item : CodeItem)
         (access_flags invoke_type class_def_idx method_idx : Z)
         (class_loader : jobject) (dex_file : DexFile)
         (llvm_unit : LlvmCompilationUnit),
    is_known_target (GetInstructionSet compiler) = false ->
    HeapInit_result E (new_CompilationUnit E) = true ->
    let o :=
      CompileOneMethod B E G compiler backend code_item access_flags
        invoke_type class_def_idx method_idx class_loader dex_file llvm_unit in
    (kEnableDChecks B = true ->
     exists s',
       o = Aborted (DCheckFailed "instruction_set") s'
       /\ calls s' = [HeapInit])
    /\ (kEnableDChecks B = false ->
        ART_USE_PORTABLE_COMPILER B = false ->
        exists s',
          o = Aborted (LogFatal "Unexpected instruction set") s'
          /\ passes_only (calls s')
             = [HeapInit]
               ++ mir_passes code_item access_flags invoke_type
                             class_def_idx method_idx class_loader dex_file).
Proof.
  intros Scratch B E G compiler backend code_item access_flags invoke_type
         class_def_idx method_idx class_loader dex_file llvm_unit
         Hunknown Hheap o.
  split.
  - intros Hd. subst o.
    unfold CompileOneMethod, CompileMethod, lowered, configure, setup_unit.
    run_unfold. run_read. rewrite Hheap, Hd. run_driver.
    destruct (GetInstructionSet compiler); try discriminate Hunknown.
    cbn [InstructionSet_eqb orb]. eexists. split; reflexivity.
  - intros Hd Hquick.
    destruct (CompileOneMethod_log Scratch B E G compiler backend code_item
                access_flags invoke_type class_def_idx method_idx
                class_loader dex_file llvm_unit)
      as (verify & stats & generic & assembling & dump & mem & H).
    cbv zeta in H. fold o in H.
    destruct H as [(_ & _ & [Hh|[Hk _]])|[(Hp & _)|[(Hp & _)|[(_ & Ha & Hl)|
                   (c & Hi & _)]]]];
      try congruence.
    + exists (final_state o). split; [exact Ha|].
      rewrite Hl. count_log.
    + destruct (GetInstructionSet compiler); discriminate.
Qed.

Lemma unknown_target_aborts_witness :
  exists s',
    CompileOneMethod (toy_build false true 16) (toy_extern toy_asm true "")
      (initial_globals (toy_build false true 16) false)
      (toy_driver (kOtherInstructionSet 7) kQuick) kQuick toy_code
      1 0 0 42 0 0 toy_llvm_unit
    = Aborted (DCheckFailed "instruction_set") s'
    /\ calls s' = [HeapInit].
Proof.
  apply (unknown_target_aborts ToyScratch (toy_build false true 16)
           (toy_extern toy_asm true "")
           (initial_globals (toy_build false true 16) false)
           (toy_driver (kOtherInstructionSet 7) kQuick) kQuick toy_code
           1 0 0 42 0 0 toy_llvm_unit);
    reflexivity.
Defined.

(** * The memory report and the artifact *)

Section MemoryReport.

Variable Scratch : Type.
Variable B : Build.
Variable E : Extern Scratch.
Variable G : Globals.

Hypothesis no_memstats : WITH_MEMSTATS B = false.

(** Without [WITH_MEMSTATS] no block of the compile calls the report. *)
Lemma CompileMethod_no_report (compiler : CompilerDriver)
    (backend : CompilerBackend) (code_item : CodeItem)
    (access_flags invoke_type class_def_idx method_idx : Z)
    (class_loader : jobject) (dex_file : DexFile)
    (llvm_unit : LlvmCompilationUnit) :
  keeps (fun s => count_calls is_DumpMemStats (calls s) = 0%nat)
        (fun _ => True)
        (CompileMethod B E G compiler backend code_item access_flags
           invoke_type class_def_idx method_idx class_loader dex_file
           llvm_unit).
Proof.
  unfold_blocks.
  keeps_with
    ltac:(first
            [ exfalso;
              match goal with
              | H : (_ && _)%bool = true |- _ =>
                  rewrite no_memstats in H; discriminate H
              end
            | cbv beta in *; cbn [calls called assigned];
              rewrite ?count_calls_snoc; cbn [is_DumpMemStats];
              rewrite ?Nat.add_0_r; assumption ])
    ltac:(exact Logic.I).
Qed.

End MemoryReport.

Lemma report_before_reset (pre : list Callee) (finished mem : bool) :
  count_calls is_DumpMemStats pre = 0%nat ->
  let log := pre ++ (if finished then package_calls mem else []) in
  (count_calls is_DumpMemStats log <= 1)%nat
  /\ (count_calls is_DumpMemStats log = 1%nat ->
      exists before, log = before ++ [DumpMemStats; ArenaReset]).
Proof.
  intros Hpre log. subst log. unfold count_calls in *.
  rewrite filter_app, length_app, Hpre.
  destruct finished, mem; cbn; split; try lia; try discriminate.
  intros _. exists pre. reflexivity.
Qed.

(** X17.  The memory report is made at most once in a compile, and then
    right before the final [ArenaReset]; in a build without
    [WITH_MEMSTATS] it is never made. *)
Theorem memory_report_guard :
  forall (Scratch : Type) (B : Build) (E : Extern Scratch) (G : Globals)
         (compiler : CompilerDriver) (backend : CompilerBackend)
         (code_item : CodeItem)
         (access_flags invoke_type class_def_idx method_idx : Z)
         (class_loader : jobject) (dex_file : DexFile)
         (llvm_unit : LlvmCompilationUnit),
    let log :=
      calls (final_state
               (CompileOneMethod B E G compiler backend code_item
                  access_flags invoke_type class_def_idx method_idx
                  class_loader dex_file llvm_unit)) in
    (count_calls is_DumpMemStats log <= 1)%nat
    /\ (count_calls is_DumpMemStats log = 1%nat ->
        exists before, log = before ++ [DumpMemStats; ArenaReset])
    /\ (WITH_MEMSTATS B = false ->
        count_calls is_DumpMemStats log = 0%nat).
Proof.
  intros Scratch B E G compiler backend code_item access_flags invoke_type
         class_def_idx method_idx class_loader dex_file llvm_unit log.
  assert (Hshape :
    exists (pre : list Callee) (finished mem : bool),
      count_calls is_DumpMemStats pre = 0%nat
      /\ log = pre ++ (if finished then package_calls mem else [])).
  { destruct (CompileOneMethod_log Scratch B E G compiler backend code_item
                access_flags invoke_type class_def_idx method_idx
                class_loader dex_file llvm_unit)
      as (verify & stats & generic & assembling & dump & mem & H).
    cbv zeta in H. fold log in H.
    destruct H as [(_ & Hl & _)|[(_ & _ & Hl)|[(_ & Hl)|[(_ & _ & Hl)|
                   (c & Hi & Hl)]]]];
      rewrite Hl.
    - exists [HeapInit], false, false. split; reflexivity.
    - eexists _, false, false. rewrite app_nil_r.
      split; [|reflexivity]. count_log.
    - eexists _, _, mem. rewrite !app_assoc.
      split; [|reflexivity]. rewrite <- ?app_assoc. count_log.
    - eexists _, false, false. rewrite app_nil_r.
      split; [|reflexivity]. count_log.
    - eexists _, _, mem. rewrite !app_assoc.
      split; [|reflexivity]. rewrite <- ?app_assoc.
      destruct (init_for_cases _ _ Hi) as [->|[->| ->]]; count_log. }
  destruct Hshape as (pre & finished & mem & Hpre & Hlog).
  destruct (report_before_reset pre finished mem Hpre) as [Hle Hlast].
  rewrite <- Hlog in Hle, Hlast.
  split; [exact Hle|]. split; [exact Hlast|].
  intros Hmem. subst log. unfold CompileOneMethod.
  apply (keeps_final
           (fun s => count_calls is_DumpMemStats (calls s) = 0%nat)
           (fun _ => True)).
  - apply CompileMethod_no_report, Hmem.
  - reflexivity.
Qed.

Section Artifact.

Variable Scratch : Type.
Variable B : Build.
Variable E : Extern Scratch.
Variable G : Globals.

(** Lines 311-329 leave the unit as it was but for the order of the
    core table. *)
Lemma combine_vmap_tables_state (s : Session Scratch) :
  final_state (combine_vmap_tables B s)
  = assigned (fun c => set_core_vmap_table (std_sort (core_vmap_table c)) c)
             s.
Proof.
  run_driver. run_split; reflexivity.
Qed.

Lemma emit_artifact (s s' : Session Scratch) (cm : CompiledMethod) :
  emit B E G s = Done (Some cm) s' ->
  let sa := final_state (assemble B E G s) in
  cm = {| cm_instruction_set := instruction_set (cu sa);
          cm_code := code_buffer (cu sa);
          cm_frame_size_in_bytes := frame_size (cu sa);
          cm_core_spill_mask := core_spill_mask (cu sa);
          cm_fp_spill_mask := fp_spill_mask (cu sa);
          cm_mapping_table := combined_mapping_table (cu sa);
          cm_vmap_table := cm_vmap_table cm;
          cm_native_gc_map := native_gc_map (cu sa) |}
  /\ returned (combine_vmap_tables B sa) = Some (cm_vmap_table cm).
Proof.
  unfold emit. intros H.
  apply bind_done in H. destruct H as ([] & s1 & Hasm & H).
  apply bind_done in H. destruct H as (t & s2 & Hcomb & H).
  apply package_returns in H. inversion H; subst cm; clear H.
  rewrite Hasm. cbn [final_state cm_vmap_table]. rewrite Hcomb.
  pose proof (combine_vmap_tables_state s1) as Hs.
  rewrite Hcomb in Hs. cbn [final_state] in Hs. subst s2.
  split; reflexivity.
Qed.

End Artifact.

(** X18.  The artifact of a compile is read off the unit as assembly
    left it: target, code, frame size, spill masks, mapping table and gc
    map are the unit's members at that point, and the vmap table is the
    one lines 311-329 build from it; the memory report and the arena
    reset that follow have no part in it. *)
Theorem artifact_reads_assembled_unit :
  forall (Scratch : Type) (B : Build) (E : Extern Scratch) (G : Globals)
         (compiler : CompilerDriver) (backend : CompilerBackend)
         (code_item : CodeItem)
         (access_flags invoke_type class_def_idx method_idx : Z)
         (class_loader : jobject) (dex_file : DexFile)
         (llvm_unit : LlvmCompilationUnit)
         (s1 s2 : Session Scratch) (cm : CompiledMethod),
    lowered B E G compiler backend code_item access_flags invoke_type
            class_def_idx method_idx class_loader dex_file llvm_unit
            (fresh E) = Done false s1 ->
    CompileOneMethod B E G compiler backend code_item access_flags
      invoke_type class_def_idx method_idx class_loader dex_file llvm_unit
    = Done (Some cm) s2 ->
    let u := cu (final_state (assemble B E G s1)) in
    cm_instruction_set cm = instruction_set u
    /\ cm_code cm = code_buffer u
    /\ cm_frame_size_in_bytes cm = frame_size u
    /\ cm_core_spill_mask cm = core_spill_mask u
    /\ cm_fp_spill_mask cm = fp_spill_mask u
    /\ cm_mapping_table cm = combined_mapping_table u
    /\ cm_native_gc_map cm = native_gc_map u
    /\ returned (combine_vmap_tables B (final_state (assemble B E G s1)))
       = Some (cm_vmap_table cm).
Proof.
  intros Scratch B E G compiler backend code_item access_flags invoke_type
         class_def_idx method_idx class_loader dex_file llvm_unit s1 s2 cm
         Hlow Hrun u.
  unfold CompileOneMethod, CompileMethod in Hrun.
  rewrite (bind_run _ _ _ _ _ Hlow) in Hrun.
  apply emit_artifact in Hrun. cbv zeta in Hrun.
  destruct Hrun as [Hcm Ht]. fold u in Hcm.
  split; [rewrite Hcm; reflexivity|].
  split; [rewrite Hcm; reflexivity|].
  split; [rewrite Hcm; reflexivity|].
  split; [rewrite Hcm; reflexivity|].
  split; [rewrite Hcm; reflexivity|].
  split; [rewrite Hcm; reflexivity|].
  split; [rewrite Hcm; reflexivity|exact Ht].
Qed.

(** The toy compile of a method with code, to its end. *)
Lemma toy_compile_run :
  CompileOneMethod (toy_build false true 16) (toy_extern toy_asm true "")
    (initial_globals (toy_build false true 16) false)
    (toy_driver kThumb2 kQuick) kQuick toy_code 1 0 0 42 0 0 toy_llvm_unit
  = Done (Some {| cm_instruction_set := kThumb2;
                  cm_code := [3; 112; 71];
                  cm_frame_size_in_bytes := 16;
                  cm_core_spill_mask := 16384;
                  cm_fp_spill_mask := 0;
                  cm_mapping_table := [0; 3];
                  cm_vmap_table := [4097; 4098; 4099; 65535; 5; 9];
                  cm_native_gc_map := [] |})
         (final_state
            (CompileOneMethod (toy_build false true 16)
               (toy_extern toy_asm true "")
               (initial_globals (toy_build false true 16) false)
               (toy_driver kThumb2 kQuick) kQuick toy_code 1 0 0 42 0 0
               toy_llvm_unit)).
Proof. vm_compute. reflexivity. Qed.

Lemma artifact_reads_assembled_unit_witness :
  returned
    (combine_vmap_tables (toy_build false true 16)
       (final_state
          (assemble (toy_build false true 16) (toy_extern toy_asm true "")
             (initial_globals (toy_build false true 16) false)
             (final_state
                (lowered (toy_build false true 16)
                   (toy_extern toy_asm true "")
                   (initial_globals (toy_build false true 16) false)
                   (toy_driver kThumb2 kQuick) kQuick toy_code 1 0 0 42
                   0 0 toy_llvm_unit
                   (fresh (toy_extern toy_asm true "")))))))
  = Some [4097; 4098; 4099; 65535; 5; 9].
Proof.
  exact (proj2 (proj2 (proj2 (proj2 (proj2 (proj2 (proj2
    (artifact_reads_assembled_unit ToyScratch (toy_build false true 16)
       (toy_extern toy_asm true "")
       (initial_globals (toy_build false true 16) false)
       (toy_driver kThumb2 kQuick) kQuick toy_code 1 0 0 42 0 0
       toy_llvm_unit _ _ _ toy_lowered_run toy_compile_run)))))))).
Defined.
